(** * arxiv-bucket: ingestion validation and content-addressed cataloguing

    A shallow embedding of the Python sources of [arxiv_bucket] (archive
    format classification, extraction safety checks, the naming rules, the
    registries and the manifest comparison) together with the properties
    the specification states about them.

    Conventions.
    - A Python [str] is a Rocq [string].  The text handled here (file names,
      extensions, identifiers) is ASCII; [str.lower], [str.isdigit], [len]
      and the regular-expression classes [\d] and [\w] are given on ASCII.
    - A call either returns a value, raises, or never returns: [result].
    - A method of an object with mutable state takes the state and gives it
      back next to the outcome, also when the call raises.
    - The Python standard library and the modules of the package that are
      outside the sources at hand ([FileSystem], [HashService], the PDF,
      PostScript and XML handlers) are not re-implemented: what they report
      about a file is a field of the file's node in [FileSystem], or a
      member of the class [ExternalHandlers]. *)

From stdpp Require Import gmap strings list fin_maps sets.
From Stdlib Require Import ZArith Lia.
From Stdlib.Strings Require Import Ascii String Byte.

Local Open Scope string_scope.
Local Open Scope list_scope.
Local Open Scope Z_scope.

(** ** Outcomes *)

Inductive exn : Type :=
  | FileNotFoundError (msg : string)
  | ValueError (msg : string)
  | KeyError (msg : string)
  | TypeError (msg : string)
  | AttributeError (msg : string)
  | struct_error
  | UnicodeDecodeError.

Inductive result (A : Type) : Type :=
  | Ok (a : A)
  | Raise (e : exn)
  | NoReturn.
Arguments Ok {A} a.
Arguments Raise {A} e.
Arguments NoReturn {A}.

Definition result_bind {A B} (f : A -> result B) (r : result A) : result B :=
  match r with
  | Ok a => f a
  | Raise e => Raise e
  | NoReturn => NoReturn
  end.

#[global] Instance result_mret : MRet result := fun _ a => Ok a.
#[global] Instance result_mbind : MBind result := fun _ _ f r => result_bind f r.

(** [raises r]: the call ended with an exception. *)
Definition raises {A} (r : result A) : Prop := exists e, r = Raise e.

(** ** Strings, as Python handles them *)

Module Str.

Definition of_list (l : list ascii) : string := string_of_list_ascii l.
Definition to_list (s : string) : list ascii := list_ascii_of_string s.

Definition code (c : ascii) : Z := Z.of_N (N_of_ascii c).

Definition is_upper (c : ascii) : bool := (65 <=? code c) && (code c <=? 90).
Definition is_lower (c : ascii) : bool := (97 <=? code c) && (code c <=? 122).
Definition is_digit (c : ascii) : bool := (48 <=? code c) && (code c <=? 57).
(** [\w] *)
Definition is_word (c : ascii) : bool :=
  is_upper c || is_lower c || is_digit c || bool_decide (c = "_"%char).

Definition lower_char (c : ascii) : ascii :=
  if is_upper c then ascii_of_N (N_of_ascii c + 32) else c.

(** [s.lower()] *)
Fixpoint lower (s : string) : string :=
  match s with
  | EmptyString => EmptyString
  | String c s' => String (lower_char c) (lower s')
  end.

(** [len(s)] *)
Definition len (s : string) : Z := Z.of_nat (String.length s).

(** [s.isdigit()]: non-empty and digits only. *)
Definition isdigit (s : string) : bool :=
  match to_list s with
  | [] => false
  | l => forallb is_digit l
  end.

(** [int(s)] for a string of digits. *)
Definition int (s : string) : Z :=
  fold_left (fun acc c => 10 * acc + (code c - 48)) (to_list s) 0.

(** [s.split(sep)] for a one-character separator. *)
Fixpoint split_chars (sep : ascii) (l : list ascii) (cur : list ascii)
  : list string :=
  match l with
  | [] => [of_list (rev cur)]
  | c :: l' =>
      if bool_decide (c = sep) then of_list (rev cur) :: split_chars sep l' []
      else split_chars sep l' (c :: cur)
  end.
Definition split (sep : ascii) (s : string) : list string :=
  split_chars sep (to_list s) [].

(** [sep.join(l)] *)
Fixpoint join (sep : string) (l : list string) : string :=
  match l with
  | [] => ""
  | [s] => s
  | s :: l' => s +:+ sep +:+ join sep l'
  end.

Fixpoint prefix_chars (p l : list ascii) : option (list ascii) :=
  match p, l with
  | [], _ => Some l
  | a :: p', b :: l' => if bool_decide (a = b) then prefix_chars p' l' else None
  | _ :: _, [] => None
  end.

(** [s.startswith(p)] *)
Definition startswith (p s : string) : bool :=
  bool_decide (is_Some (prefix_chars (to_list p) (to_list s))).

(** [s.endswith(p)] *)
Definition endswith (p s : string) : bool :=
  bool_decide (is_Some (prefix_chars (rev (to_list p)) (rev (to_list s)))).

(** [p in s] *)
Fixpoint contains_chars (p l : list ascii) : bool :=
  bool_decide (is_Some (prefix_chars p l)) ||
  match l with
  | [] => false
  | _ :: l' => contains_chars p l'
  end.
Definition contains (p s : string) : bool :=
  contains_chars (to_list p) (to_list s).

(** Where a pattern's [$] matches: at the end of the string, or just
    before a newline that ends the string. *)
Definition at_end (l : list ascii) : bool :=
  match l with
  | [] => true
  | [c] => bool_decide (c = "010"%char)
  | _ => false
  end.

(** [repr] of a list of strings, for the strings met here (no quote, no
    backslash, printable). *)
Definition repr_list (l : list string) : string :=
  "[" +:+ join ", " (map (fun s => "'" +:+ s +:+ "'") l) +:+ "]".

(** White space, as [str.isspace] has it for the characters below 256:
    tab to carriage return, the four separators, the space, NEL and the
    no-break space. *)
Definition is_space (c : ascii) : bool :=
  ((9 <=? code c) && (code c <=? 13)) || ((28 <=? code c) && (code c <=? 32))
  || (code c =? 133) || (code c =? 160).

Fixpoint lstrip_chars (l : list ascii) : list ascii :=
  match l with
  | [] => []
  | c :: l' => if is_space c then lstrip_chars l' else l
  end.

Definition strip_chars (l : list ascii) : list ascii :=
  rev (lstrip_chars (rev (lstrip_chars l))).

(** [s.strip()] *)
Definition strip (s : string) : string := of_list (strip_chars (to_list s)).

(** What [s.split()] and [s.splitlines()] make of the characters read
    since the last cut, when a piece must not be empty. *)
Definition flush (cur : list ascii) : list string :=
  match cur with
  | [] => []
  | _ => [of_list (rev cur)]
  end.

(** [s.split()]: the runs of characters between white space. *)
Fixpoint split_whitespace_chars (l : list ascii) (cur : list ascii)
  : list string :=
  match l with
  | [] => flush cur
  | c :: l' =>
      if is_space c then flush cur ++ split_whitespace_chars l' []
      else split_whitespace_chars l' (c :: cur)
  end.
Definition split_whitespace (s : string) : list string :=
  split_whitespace_chars (to_list s) [].

(** The line boundaries of [str.splitlines] below 256: line feed, vertical
    tab, form feed, carriage return, the file, group and record separators,
    NEL. *)
Definition is_line_boundary (c : ascii) : bool :=
  ((10 <=? code c) && (code c <=? 13)) || ((28 <=? code c) && (code c <=? 30))
  || (code c =? 133).

(** [s.splitlines()]: a carriage return with the line feed after it is one
    boundary; no empty line is reported after the last boundary. *)
Fixpoint splitlines_chars (l : list ascii) (cur : list ascii) : list string :=
  match l with
  | [] => flush cur
  | c :: l' =>
      if is_line_boundary c then
        of_list (rev cur) ::
        match l' with
        | c' :: l'' =>
            if bool_decide (c = "013"%char) && bool_decide (c' = "010"%char)
            then splitlines_chars l'' []
            else splitlines_chars l' []
        | [] => splitlines_chars l' []
        end
      else splitlines_chars l' (c :: cur)
  end.
Definition splitlines (s : string) : list string :=
  splitlines_chars (to_list s) [].

(** [s[:n]] and [s[n:]] *)
Definition slice_to (n : nat) (s : string) : string :=
  of_list (take n (to_list s)).
Definition slice_from (n : nat) (s : string) : string :=
  of_list (drop n (to_list s)).

(** The digits of a decimal literal: digits, with single underscores
    between digits.  [after_digit] tells whether the character before was
    a digit. *)
Fixpoint literal_digits (l : list ascii) (after_digit : bool)
  : option (list ascii) :=
  match l with
  | [] => if after_digit then Some [] else None
  | c :: l' =>
      if is_digit c then cons c <$> literal_digits l' true
      else if bool_decide (c = "_"%char) && after_digit then literal_digits l' false
      else None
  end.

(** [int(s)] on any string: white space around, one optional sign, the
    digits; [ValueError] otherwise, and beyond 4300 digits, the default of
    [sys.set_int_max_str_digits].  The message shows [repr(s)], written
    here for the strings without quote, backslash or control character. *)
Definition to_int (s : string) : result Z :=
  let l := strip_chars (to_list s) in
  let '(negative, l) :=
    match l with
    | c :: l' =>
        if bool_decide (c = "-"%char) then (true, l')
        else if bool_decide (c = "+"%char) then (false, l')
        else (false, l)
    | [] => (false, [])
    end in
  match literal_digits l false with
  | Some ds =>
      if (4300 <? List.length ds)%nat
      then Raise (ValueError "Exceeds the limit (4300 digits) for integer string conversion")
      else
        let n := fold_left (fun acc c => 10 * acc + (code c - 48)) ds 0 in
        Ok (if negative : bool then - n else n)
  | None =>
      Raise (ValueError ("invalid literal for int() with base 10: '" +:+ s +:+ "'"))
  end.

(** [str(n)] for [0 <= n]: the decimal digits, most significant first. *)
Fixpoint decimal_digits (fuel : nat) (n : Z) (acc : list ascii) : list ascii :=
  let acc := ascii_of_N (Z.to_N (48 + n mod 10)) :: acc in
  match fuel with
  | O => acc
  | S fuel' => if n <? 10 then acc else decimal_digits fuel' (n / 10) acc
  end.
Definition of_nonneg (n : Z) : string :=
  of_list (decimal_digits (Z.to_nat (Z.log2 n)) n []).

(** [s.rjust(width, '0')] *)
Definition zero_pad (width : nat) (s : string) : string :=
  of_list (replicate (width - String.length s)%nat "0"%char) +:+ s.

(** [f"{n:03d}"]: three columns at least, the sign in the first one. *)
Definition format_03d (n : Z) : string :=
  if n <? 0 then "-" +:+ zero_pad 2 (of_nonneg (- n))
  else zero_pad 3 (of_nonneg n).

End Str.

(** ** [os.path], POSIX flavour *)

Module os_path.

(** [rsplit sep l]: [l] cut around its last [sep]. *)
Fixpoint rsplit (sep : ascii) (l : list ascii)
  : option (list ascii * list ascii) :=
  match l with
  | [] => None
  | c :: l' =>
      match rsplit sep l' with
      | Some (a, b) => Some (c :: a, b)
      | None => if bool_decide (c = sep) then Some ([], l') else None
      end
  end.

(** [os.path.basename(p)]: what follows the last slash. *)
Definition basename (p : string) : string :=
  match rsplit "/" (Str.to_list p) with
  | Some (_, name) => Str.of_list name
  | None => p
  end.

(** [os.path.splitext(p)]: the extension starts at the last dot of the
    last component, unless only dots precede it there. *)
Definition splitext_name (name : list ascii) : list ascii * list ascii :=
  match rsplit "." name with
  | Some (root, ext) =>
      if forallb (fun c => bool_decide (c = "."%char)) root then (name, [])
      else (root, "."%char :: ext)
  | None => (name, [])
  end.

Definition splitext (p : string) : string * string :=
  match rsplit "/" (Str.to_list p) with
  | Some (dir, name) =>
      let '(root, ext) := splitext_name name in
      (Str.of_list (dir ++ "/"%char :: root), Str.of_list ext)
  | None =>
      let '(root, ext) := splitext_name (Str.to_list p) in
      (Str.of_list root, Str.of_list ext)
  end.

(** [os.path.join(a, b)] *)
Definition join (a b : string) : string :=
  if Str.startswith "/" b then b
  else if bool_decide (a = "") || Str.endswith "/" a then a +:+ b
  else a +:+ "/" +:+ b.

Definition isabs (p : string) : bool := Str.startswith "/" p.

(** The components of an absolute path after [os.path.normpath]: empty
    and [.] components go, [..] pops (and goes at the root). *)
Fixpoint normalize (stack : list string) (comps : list string) : list string :=
  match comps with
  | [] => rev stack
  | c :: comps' =>
      if bool_decide (c = "") || bool_decide (c = ".") then normalize stack comps'
      else if bool_decide (c = "..") then normalize (tail stack) comps'
      else normalize (c :: stack) comps'
  end.

(** The components of [os.path.abspath(os.path.normpath(p))] in the
    working directory [cwd] (its components, normalised). *)
Definition abspath (cwd : list string) (p : string) : list string :=
  if isabs p then normalize [] (Str.split "/" p)
  else normalize (rev cwd) (Str.split "/" p).

Fixpoint rstrip_slashes (rev_head : list ascii) : list ascii :=
  match rev_head with
  | [] => []
  | c :: l => if bool_decide (c = "/"%char) then rstrip_slashes l else rev_head
  end.

(** [os.path.dirname(p)]: what precedes the last slash, without the
    slashes that end it unless it is made of slashes only. *)
Definition dirname (p : string) : string :=
  match rsplit "/" (Str.to_list p) with
  | Some (head, _) =>
      let head := head ++ ["/"%char] in
      if forallb (fun c => bool_decide (c = "/"%char)) head then Str.of_list head
      else Str.of_list (rev (rstrip_slashes (rev head)))
  | None => ""
  end.

End os_path.

(** ** Small dictionaries written as literals in the source *)

Definition dict_get {V} (k : string) (d : list (string * V)) (default : V) : V :=
  match List.find (fun kv => bool_decide (kv.1 = k)) d with
  | Some kv => kv.2
  | None => default
  end.

Definition dict_has {V} (k : string) (d : list (string * V)) : bool :=
  existsb (fun kv => bool_decide (kv.1 = k)) d.

(** ** file/file_type.py *)

Inductive FileType : Type :=
  | FILE_TYPE_UNKNOWN
  | FILE_TYPE_ARCHIVE_GZ | FILE_TYPE_ARCHIVE_TAR | FILE_TYPE_ARCHIVE_TGZ
  | FILE_TYPE_IMAGE_BMP | FILE_TYPE_IMAGE_GIF | FILE_TYPE_IMAGE_ICO
  | FILE_TYPE_IMAGE_JPG | FILE_TYPE_IMAGE_PNG | FILE_TYPE_IMAGE_SVG
  | FILE_TYPE_IMAGE_TIFF
  | FILE_TYPE_PDF
  | FILE_TYPE_POSTSCRIPT_PS | FILE_TYPE_POSTSCRIPT_EPS
  | FILE_TYPE_POSTSCRIPT_EPSF | FILE_TYPE_POSTSCRIPT_EPSI
  | FILE_TYPE_XML
  | FILE_TYPE_TEX_AUX | FILE_TYPE_TEX_BBL | FILE_TYPE_TEX_BIB
  | FILE_TYPE_TEX_BST | FILE_TYPE_TEX_CLO | FILE_TYPE_TEX_CLS
  | FILE_TYPE_TEX_DVI | FILE_TYPE_TEX_FIG | FILE_TYPE_TEX_LOG
  | FILE_TYPE_TEX_PSTEX | FILE_TYPE_TEX_PSTEX_T | FILE_TYPE_TEX_STY
  | FILE_TYPE_TEX_SYNCTEX | FILE_TYPE_TEX_TEX
  | FILE_TYPE_TEX_LATEX_209_MAIN | FILE_TYPE_TEX_LATEX_2E_MAIN
  | FILE_TYPE_TEX_TIKZ | FILE_TYPE_TEX_TOC.

#[global] Instance FileType_eq_dec : EqDecision FileType.
Proof. solve_decision. Defined.

(** [FileType.value] *)
Definition FileType_value (t : FileType) : string :=
  match t with
  | FILE_TYPE_UNKNOWN => "UNKNOWN"
  | FILE_TYPE_ARCHIVE_GZ => "ARCHIVE_GZ"
  | FILE_TYPE_ARCHIVE_TAR => "ARCHIVE_TAR"
  | FILE_TYPE_ARCHIVE_TGZ => "ARCHIVE_TGZ"
  | FILE_TYPE_IMAGE_BMP => "IMAGE_BMP"
  | FILE_TYPE_IMAGE_GIF => "IMAGE_GIF"
  | FILE_TYPE_IMAGE_ICO => "IMAGE_ICO"
  | FILE_TYPE_IMAGE_JPG => "IMAGE_JPG"
  | FILE_TYPE_IMAGE_PNG => "IMAGE_PNG"
  | FILE_TYPE_IMAGE_SVG => "IMAGE_SVG"
  | FILE_TYPE_IMAGE_TIFF => "IMAGE_TIFF"
  | FILE_TYPE_PDF => "PDF"
  | FILE_TYPE_POSTSCRIPT_PS => "POSTSCRIPT_PS"
  | FILE_TYPE_POSTSCRIPT_EPS => "POSTSCRIPT_EPS"
  | FILE_TYPE_POSTSCRIPT_EPSF => "POSTSCRIPT_EPSF"
  | FILE_TYPE_POSTSCRIPT_EPSI => "POSTSCRIPT_EPSI"
  | FILE_TYPE_XML => "XML"
  | FILE_TYPE_TEX_AUX => "TEX_AUX"
  | FILE_TYPE_TEX_BBL => "TEX_BBL"
  | FILE_TYPE_TEX_BIB => "TEX_BIB"
  | FILE_TYPE_TEX_BST => "TEX_BST"
  | FILE_TYPE_TEX_CLO => "TEX_CLO"
  | FILE_TYPE_TEX_CLS => "TEX_CLS"
  | FILE_TYPE_TEX_DVI => "TEX_DVI"
  | FILE_TYPE_TEX_FIG => "TEX_FIG"
  | FILE_TYPE_TEX_LOG => "TEX_LOG"
  | FILE_TYPE_TEX_PSTEX => "TEX_PSTEX"
  | FILE_TYPE_TEX_PSTEX_T => "TEX_PSTEX_T"
  | FILE_TYPE_TEX_STY => "TEX_STY"
  | FILE_TYPE_TEX_SYNCTEX => "TEX_SYNCTEX"
  | FILE_TYPE_TEX_TEX => "TEX_TEX"
  | FILE_TYPE_TEX_LATEX_209_MAIN => "TEX_LATEX_209_MAIN"
  | FILE_TYPE_TEX_LATEX_2E_MAIN => "TEX_LATEX_2E_MAIN"
  | FILE_TYPE_TEX_TIKZ => "TEX_TIKZ"
  | FILE_TYPE_TEX_TOC => "TEX_TOC"
  end.

(** ** arxiv/submission_type.py *)

Inductive SubmissionType : Type :=
  | SUBMISSION_TYPE_UNKNOWN
  | SUBMISSION_TYPE_PDF
  | SUBMISSION_TYPE_POSTSCRIPT
  | SUBMISSION_TYPE_TEX.

#[global] Instance SubmissionType_eq_dec : EqDecision SubmissionType.
Proof. solve_decision. Defined.

(** ** The file system the package reads *)

(** Modelled from the spec: [services/hash_service.py] is not among the
    sources.  [HashType] names the two digests the registrars ask for; its
    values are the keys the registrars read back ([metadata['hash']['SHA256']]),
    SHA256 being the strong digest used as registry key and MD5 the legacy
    digest. *)
Inductive HashType : Type := HASH_TYPE_MD5 | HASH_TYPE_SHA256.

Definition HashType_value (h : HashType) : string :=
  match h with HASH_TYPE_MD5 => "MD5" | HASH_TYPE_SHA256 => "SHA256" end.

(** A member of a tar archive as [tarfile] reports it. *)
Record TarInfo : Type := { ti_name : string; ti_isfile : bool }.

(** What the package can observe of one regular file.  The raw bytes are
    kept for the code that parses them itself; what library calls report
    ([tarfile], [gzip], [PIL], the digests) is recorded next to them. *)
Record FileNode : Type := {
  (** [FileSystem.get_file_size] *)
  node_size : Z;
  (** [FileSystem.get_file_timestamp] *)
  node_timestamp_iso : string;
  (** [HashService.calculate_file_hash] *)
  node_hash : HashType -> string;
  (** [open(path, 'rb').read()] *)
  node_bytes : list byte;
  (** [tarfile.is_tarfile(path)] *)
  node_is_tarfile : bool;
  (** [gzip.open(path).read(1)] does not raise [BadGzipFile] *)
  node_gzip_readable : bool;
  (** [tarfile.open(path).getmembers()] *)
  node_tar_members : list TarInfo;
  (** [PIL.Image.open(path).format]; [None] when PIL cannot open the file *)
  node_pil_format : option string;
  (** [FileSystem.is_utf8_encoded] *)
  node_is_utf8 : bool;
}.

Record fs_state : Type := {
  fs_files : gmap string FileNode;
  fs_directories : gset string;
  (** the components of the process's working directory *)
  fs_cwd : list string;
}.

(** Modelled from the spec: [file/file_system.py] is not among the sources.
    These are the existence checks and the per-file readings the spec has
    the core rely on (section 5), answered from [fs_state]. *)
Module FileSystem.

(** Modelled from the spec: [FileSystem.is_file], the existence check on
    a regular file. *)
Definition is_file (fs : fs_state) (path : string) : bool :=
  bool_decide (is_Some (fs_files fs !! path)).

(** Modelled from the spec: [FileSystem.is_directory], the existence
    check on a directory. *)
Definition is_directory (fs : fs_state) (path : string) : bool :=
  bool_decide (path ∈ fs_directories fs).

(** Modelled from the spec: opening a file, which fails when there is
    none at the path. *)
Definition node (fs : fs_state) (path : string) : result FileNode :=
  match fs_files fs !! path with
  | Some n => Ok n
  | None => Raise (FileNotFoundError path)
  end.

(** Modelled from the spec: [FileSystem.get_file_size], the [size_bytes]
    of an entry. *)
Definition get_file_size (fs : fs_state) (path : string) : result Z :=
  n ← node fs path; mret (node_size n).

(** Modelled from the spec: [FileSystem.get_file_timestamp], the file
    modification instant, normalised to UTC, in ISO 8601. *)
Definition get_file_timestamp (fs : fs_state) (path : string) : result string :=
  n ← node fs path; mret (node_timestamp_iso n).

(** Modelled from the spec: [FileSystem.is_utf8_encoded]. *)
Definition is_utf8_encoded (fs : fs_state) (path : string) : result bool :=
  n ← node fs path; mret (node_is_utf8 n).

End FileSystem.

Module HashService.

(** Modelled from the spec: [HashService.calculate_file_hash], the digest
    of a file's content in hexadecimal. *)
Definition calculate_file_hash (fs : fs_state) (path : string) (h : HashType)
  : result string :=
  n ← FileSystem.node fs path; mret (node_hash n h).

End HashService.

(** ** file/file_name.py *)

Module FileName.

Definition MAX_FILENAME_LENGTH : Z := 250.

Definition get_file_extension (file_path : string) : string :=
  (os_path.splitext file_path).2.

Definition get_file_basename (file_path : string) : string :=
  os_path.basename file_path.

(** [re.compile(r'^[\w\-.+=]+$').match(component)] *)
Definition allowed_char (c : ascii) : bool :=
  Str.is_word c
  || bool_decide (c = "-"%char) || bool_decide (c = "."%char)
  || bool_decide (c = "+"%char) || bool_decide (c = "="%char).

Fixpoint allowed_pattern_rest (l : list ascii) : bool :=
  Str.at_end l ||
  match l with
  | c :: l' => allowed_char c && allowed_pattern_rest l'
  | [] => false
  end.

Definition allowed_pattern_match (component : string) : bool :=
  match Str.to_list component with
  | c :: l => allowed_char c && allowed_pattern_rest l
  | [] => false
  end.

Definition is_path_characters_allowed (file_path : string) : bool :=
  let components := Str.split "/" file_path in
  forallb (fun component =>
             allowed_pattern_match component
             && negb (bool_decide (component ∈ [""; "."; ".."])))
          components.

(** [os.path.commonpath] of two absolute, normalised paths. *)
Fixpoint commonpath (a b : list string) : list string :=
  match a, b with
  | x :: a', y :: b' => if bool_decide (x = y) then x :: commonpath a' b' else []
  | _, _ => []
  end.

Definition is_path_within_directory (fs : fs_state)
  (base_directory target_path : string) : bool :=
  let abs_base_directory := os_path.abspath (fs_cwd fs) base_directory in
  let abs_target_path := os_path.abspath (fs_cwd fs) target_path in
  bool_decide (abs_base_directory = commonpath abs_base_directory abs_target_path).

Definition is_filename_allowed (fs : fs_state) (file_path : string) : bool :=
  let temp_path := os_path.join "temp" file_path in
  let is_within_temp_directory := is_path_within_directory fs "temp" temp_path in
  let has_valid_characters := is_path_characters_allowed file_path in
  let n := Str.len file_path in
  let is_length_valid := (0 <? n) && (n <? MAX_FILENAME_LENGTH) in
  is_within_temp_directory && has_valid_characters && is_length_valid.

Definition is_filename_list_unique (filename_list : list string)
  (is_case_insensitive : bool) (is_filename_only : bool) : bool :=
  let processed_filenames :=
    map (fun filename =>
           if is_filename_only then get_file_basename filename else filename)
        filename_list in
  let processed_filenames :=
    if is_case_insensitive then map Str.lower processed_filenames
    else processed_filenames in
  bool_decide (size (list_to_set processed_filenames : gset string)
               = List.length processed_filenames).

End FileName.

(** ** Raw bytes *)

Definition byte_val (b : byte) : Z := Z.of_N (Byte.to_N b).

(** Well-formed UTF-8, on byte values. *)
Definition utf8_cont (b : Z) : bool := (0x80 <=? b) && (b <=? 0xBF).

Fixpoint utf8_valid (l : list Z) : bool :=
  match l with
  | [] => true
  | b0 :: l1 =>
      if b0 <? 0x80 then utf8_valid l1
      else if (0xC2 <=? b0) && (b0 <=? 0xDF) then
        match l1 with
        | b1 :: l2 => utf8_cont b1 && utf8_valid l2
        | _ => false
        end
      else if (0xE0 <=? b0) && (b0 <=? 0xEF) then
        match l1 with
        | b1 :: b2 :: l3 =>
            (if b0 =? 0xE0 then (0xA0 <=? b1) && (b1 <=? 0xBF)
             else if b0 =? 0xED then (0x80 <=? b1) && (b1 <=? 0x9F)
             else utf8_cont b1)
            && utf8_cont b2 && utf8_valid l3
        | _ => false
        end
      else if (0xF0 <=? b0) && (b0 <=? 0xF4) then
        match l1 with
        | b1 :: b2 :: b3 :: l4 =>
            (if b0 =? 0xF0 then (0x90 <=? b1) && (b1 <=? 0xBF)
             else if b0 =? 0xF4 then (0x80 <=? b1) && (b1 <=? 0x8F)
             else utf8_cont b1)
            && utf8_cont b2 && utf8_cont b3 && utf8_valid l4
        | _ => false
        end
      else false
  end.

(** [bs.decode()]: the text, when the bytes are well-formed UTF-8. *)
Definition bytes_decode (bs : list byte) : result string :=
  if utf8_valid (map byte_val bs) then Ok (string_of_list_byte bs)
  else Raise UnicodeDecodeError.

(** [b''.join(iter(lambda: f.read(1), b'\0'))]: the bytes up to the first
    NUL.  At the end of the file [read(1)] gives [b''] for ever, which is
    not the sentinel: without a NUL the iteration has no end ([None]). *)
Fixpoint read_until_nul (l : list byte) : option (list byte) :=
  match l with
  | [] => None
  | b :: l' =>
      if byte_val b =? 0 then Some []
      else match read_until_nul l' with
           | Some name => Some (b :: name)
           | None => None
           end
  end.

(** ** file/handler/archive_handler.py *)

Module ArchiveHandler.

Definition _file_extension_map : list (string * list FileType) :=
  [ (".gz", [FILE_TYPE_ARCHIVE_GZ; FILE_TYPE_ARCHIVE_TGZ]);
    (".tar", [FILE_TYPE_ARCHIVE_TAR]);
    (".tgz", [FILE_TYPE_ARCHIVE_TGZ]) ].

Definition get_file_extension_map : list (string * list FileType) :=
  _file_extension_map.

Definition get_file_type_from_extension (file_extension : string)
  : list FileType :=
  dict_get (Str.lower file_extension) _file_extension_map [FILE_TYPE_UNKNOWN].

Definition _is_tar_or_tgz_format (fs : fs_state) (file_path : string)
  : result bool :=
  n ← FileSystem.node fs file_path;
  mret (node_is_tarfile n).

Definition _is_gzip_or_tgz_format (fs : fs_state) (file_path : string)
  : result bool :=
  n ← FileSystem.node fs file_path;
  mret (node_gzip_readable n).

Definition is_tar_format (fs : fs_state) (file_path : string) : result bool :=
  if negb (FileSystem.is_file fs file_path)
  then Raise (FileNotFoundError "file not found")
  else
    is_tar_or_tgz_format ← _is_tar_or_tgz_format fs file_path;
    is_gzip_or_tgz_format ← _is_gzip_or_tgz_format fs file_path;
    mret (is_tar_or_tgz_format && negb is_gzip_or_tgz_format).

Definition is_gzip_format (fs : fs_state) (file_path : string) : result bool :=
  if negb (FileSystem.is_file fs file_path)
  then Raise (FileNotFoundError "file not found")
  else
    is_tar_or_tgz_format ← _is_tar_or_tgz_format fs file_path;
    is_gzip_or_tgz_format ← _is_gzip_or_tgz_format fs file_path;
    mret (is_gzip_or_tgz_format && negb is_tar_or_tgz_format).

Definition is_tgz_format (fs : fs_state) (file_path : string) : result bool :=
  if negb (FileSystem.is_file fs file_path)
  then Raise (FileNotFoundError "file not found")
  else
    is_tar_or_tgz_format ← _is_tar_or_tgz_format fs file_path;
    is_gzip_or_tgz_format ← _is_gzip_or_tgz_format fs file_path;
    mret (is_gzip_or_tgz_format && is_tar_or_tgz_format).

Definition get_file_type_from_format (fs : fs_state) (file_path : string)
  : result FileType :=
  is_tar ← is_tar_format fs file_path;
  if (is_tar : bool) then mret FILE_TYPE_ARCHIVE_TAR
  else
    is_tgz ← is_tgz_format fs file_path;
    if (is_tgz : bool) then mret FILE_TYPE_ARCHIVE_TGZ
    else
      is_gzip ← is_gzip_format fs file_path;
      if (is_gzip : bool) then mret FILE_TYPE_ARCHIVE_GZ
      else mret FILE_TYPE_UNKNOWN.

Definition is_archive_format (fs : fs_state) (file_path : string)
  : result bool :=
  if negb (FileSystem.is_file fs file_path)
  then Raise (FileNotFoundError "file not found")
  else
    is_tar ← is_tar_format fs file_path;
    is_tgz ← is_tgz_format fs file_path;
    is_gzip ← is_gzip_format fs file_path;
    mret (is_tar || is_gzip || is_tgz).

Definition _list_tar_or_tgz_contents (fs : fs_state) (file_path : string)
  : result (list string) :=
  n ← FileSystem.node fs file_path;
  mret (map ti_name (List.filter (fun member => ti_isfile member)
                                 (node_tar_members n))).

Definition _list_tar_contents (fs : fs_state) (file_path : string)
  : result (list string) :=
  if negb (FileSystem.is_file fs file_path)
  then Raise (FileNotFoundError "file not found")
  else
    is_file_tar_format ← is_tar_format fs file_path;
    if negb is_file_tar_format then Raise (TypeError "file not in tar format")
    else _list_tar_or_tgz_contents fs file_path.

Definition _list_tgz_contents (fs : fs_state) (file_path : string)
  : result (list string) :=
  if negb (FileSystem.is_file fs file_path)
  then Raise (FileNotFoundError "file not found")
  else
    is_file_tgz_format ← is_tgz_format fs file_path;
    if negb is_file_tgz_format then Raise (TypeError "file not in tgz format")
    else _list_tar_or_tgz_contents fs file_path.

(** The body of the [with open(file_path, 'rb')] block of
    [_list_gzip_contents], on the bytes of the file: the ten header bytes
    unpacked as ['<BBBBLBB'], the optional extra field skipped, the
    optional name read. *)
Definition _read_gzip_header (data : list byte) : result (list string) :=
  match data with
  | id1 :: id2 :: compression :: flags
      :: mtime0 :: mtime1 :: mtime2 :: mtime3 :: extra_flags :: os_id :: rest =>
      let is_valid_compression_format :=
        (byte_val id1 =? 0x1F) && (byte_val id2 =? 0x8B)
        && (byte_val compression =? 0x08) in
      if is_valid_compression_format then
        let is_extra_field_present :=
          negb (Z.land (byte_val flags) (Z.shiftl 1 2) =? 0) in
        rest ← (if is_extra_field_present then
                  match rest with
                  | lo :: hi :: rest' =>
                      Ok (drop (Z.to_nat (byte_val lo + 256 * byte_val hi)) rest')
                  | _ => Raise struct_error
                  end
                else Ok rest);
        let is_filename_field_present :=
          negb (Z.land (byte_val flags) (Z.shiftl 1 3) =? 0) in
        if is_filename_field_present then
          match read_until_nul rest with
          | Some name => name ← bytes_decode name; mret [name]
          | None => NoReturn
          end
        else mret []
      else mret []
  | _ => Raise struct_error
  end.

Definition _list_gzip_contents (fs : fs_state) (file_path : string)
  : result (list string) :=
  if negb (FileSystem.is_file fs file_path)
  then Raise (FileNotFoundError "file not found")
  else
    is_file_gzip_format ← is_gzip_format fs file_path;
    if negb is_file_gzip_format then Raise (TypeError "file not in gzip format")
    else
      n ← FileSystem.node fs file_path;
      _read_gzip_header (node_bytes n).

Definition list_contents (fs : fs_state) (file_path : string)
  : result (list string) :=
  is_archive_file ← is_archive_format fs file_path;
  if negb is_archive_file
  then Raise (TypeError "file not a supported archive format")
  else
    is_gzip ← is_gzip_format fs file_path;
    if (is_gzip : bool) then _list_gzip_contents fs file_path
    else
      is_tar ← is_tar_format fs file_path;
      if (is_tar : bool) then _list_tar_contents fs file_path
      else
        is_tgz ← is_tgz_format fs file_path;
        if (is_tgz : bool) then _list_tgz_contents fs file_path
        else Raise (TypeError "file not listed as a supported archive format").

Definition check_extract_possible (fs : fs_state)
  (source_file_path destination_directory : string) : result (list string) :=
  let error_log : list string := [] in
  let is_file_found := FileSystem.is_file fs source_file_path in
  let error_log :=
    if negb is_file_found then error_log ++ ["file not found"] else error_log in
  let is_directory := FileSystem.is_directory fs destination_directory in
  let error_log :=
    if negb is_directory then error_log ++ ["destination directory not found"]
    else error_log in
  if is_file_found && is_directory then
    file_contents ← list_contents fs source_file_path;
    let is_unique_names :=
      FileName.is_filename_list_unique file_contents true false in
    let error_log :=
      if negb is_unique_names
      then error_log ++ ["archive contents filename is not unique on case-insensitive file systems"]
      else error_log in
    let is_valid_filenames :=
      forallb (FileName.is_filename_allowed fs) file_contents in
    let error_log :=
      if negb is_valid_filenames
      then error_log ++ ["archive contents filenames are forbidden"]
      else error_log in
    let error_log :=
      if is_unique_names && is_valid_filenames then
        (* the loop appends once, at the first member found in place *)
        if existsb (fun contents_filename =>
                      FileSystem.is_file fs
                        (os_path.join destination_directory contents_filename))
                   file_contents
        then error_log ++ ["destination file already exists"]
        else error_log
      else error_log in
    mret error_log
  else mret error_log.

Definition is_extract_possible (fs : fs_state)
  (source_file_path destination_directory : string) : result bool :=
  error_log ← check_extract_possible fs source_file_path destination_directory;
  mret (bool_decide (List.length error_log = 0%nat)).

(** *** Extraction

    The extractors change the file system: they take it and give it back
    with the outcome.  What [gzip], [tarfile] and [open(..., 'wb')] do is
    not re-implemented. *)
Section extraction.

(** [with gzip.open(path, 'rb') as file_handle: buffer = file_handle.read()],
    its [except] and [finally] clauses included: the buffer, or the
    exception that leaves the block. *)
Context (gzip_read : fs_state -> string -> result (list byte)).

(** [with open(path, 'wb') as file_handle: file_handle.write(buffer)] *)
Context (write_file : fs_state -> string -> list byte -> result unit * fs_state).

(** [tar.extract(member, destination_directory)] on the archive opened at
    a path. *)
Context (tar_extract :
  fs_state -> string -> TarInfo -> string -> result unit * fs_state).

(** A check that reads the file system and leaves it as it is. *)
Definition reading {A} (fs : fs_state) (r : result A)
    (k : A -> result unit * fs_state) : result unit * fs_state :=
  match r with
  | Ok a => k a
  | Raise e => (Raise e, fs)
  | NoReturn => (NoReturn, fs)
  end.

(** A loop whose body changes the file system, up to the first iteration
    that does not return. *)
Fixpoint for_each {A} (body : fs_state -> A -> result unit * fs_state)
    (l : list A) (fs : fs_state) : result unit * fs_state :=
  match l with
  | [] => (Ok tt, fs)
  | x :: l' =>
      match body fs x with
      | (Ok _, fs') => for_each body l' fs'
      | (Raise e, fs') => (Raise e, fs')
      | (NoReturn, fs') => (NoReturn, fs')
      end
  end.

Definition _extract_gzip_contents_private (fs : fs_state)
  (source_file_path destination_directory : string) : result unit * fs_state :=
  reading fs (gzip_read fs source_file_path) (fun buffer =>
  reading fs (list_contents fs source_file_path) (fun file_contents =>
  for_each (fun fs contents_filename =>
              let destination_filename :=
                os_path.join destination_directory contents_filename in
              write_file fs destination_filename buffer)
           file_contents fs)).

Definition _extract_tar_or_tgz_contents_private (fs : fs_state)
  (source_file_path destination_directory : string) : result unit * fs_state :=
  reading fs (FileSystem.node fs source_file_path) (fun n =>
  let file_members :=
    List.filter (fun member => ti_isfile member) (node_tar_members n) in
  for_each (fun fs member =>
              tar_extract fs source_file_path member destination_directory)
           file_members fs).

Definition extract_gzip_contents (fs : fs_state)
  (source_file_path destination_directory : string) : result unit * fs_state :=
  reading fs (is_gzip_format fs source_file_path) (fun is_gzip =>
  if negb is_gzip then (Raise (TypeError "file not in gzip archive format"), fs)
  else
    reading fs (is_extract_possible fs source_file_path destination_directory)
      (fun is_possible =>
    if negb is_possible then (Raise (ValueError "extraction not possible"), fs)
    else _extract_gzip_contents_private fs source_file_path destination_directory)).

Definition extract_tar_contents (fs : fs_state)
  (source_file_path destination_directory : string) : result unit * fs_state :=
  reading fs (is_tar_format fs source_file_path) (fun is_tar =>
  if negb is_tar then (Raise (TypeError "file not in tar archive format"), fs)
  else
    reading fs (is_extract_possible fs source_file_path destination_directory)
      (fun is_possible =>
    if negb is_possible then (Raise (ValueError "extraction not possible"), fs)
    else _extract_tar_or_tgz_contents_private fs source_file_path
           destination_directory)).

Definition extract_tgz_contents (fs : fs_state)
  (source_file_path destination_directory : string) : result unit * fs_state :=
  reading fs (is_tgz_format fs source_file_path) (fun is_tgz =>
  if negb is_tgz then (Raise (TypeError "file not in tgz archive format"), fs)
  else
    reading fs (is_extract_possible fs source_file_path destination_directory)
      (fun is_possible =>
    if negb is_possible then (Raise (ValueError "extraction not possible"), fs)
    else _extract_tar_or_tgz_contents_private fs source_file_path
           destination_directory)).

Definition extract_contents (fs : fs_state)
  (source_file_path destination_directory : string) : result unit * fs_state :=
  reading fs (is_archive_format fs source_file_path) (fun is_archive_file =>
  if negb is_archive_file
  then (Raise (TypeError "file not a supported archive format"), fs)
  else
    reading fs (is_gzip_format fs source_file_path) (fun is_gzip =>
    if (is_gzip : bool)
    then extract_gzip_contents fs source_file_path destination_directory
    else
      reading fs (is_tar_format fs source_file_path) (fun is_tar =>
      if (is_tar : bool)
      then extract_tar_contents fs source_file_path destination_directory
      else
        reading fs (is_tgz_format fs source_file_path) (fun is_tgz =>
        if (is_tgz : bool)
        then extract_tgz_contents fs source_file_path destination_directory
        else (Raise (TypeError "file not listed as a supported archive format"),
              fs))))).

End extraction.

End ArchiveHandler.

(** ** The handler interface of file/file_handler.py

    [FileHandler] holds one instance of each handler class and calls three
    methods on it: the keys of [get_file_extension_map()], and the two
    classifiers. *)

Record Handler : Type := {
  handler_extensions : list string;
  handler_type_from_extension : string -> list FileType;
  handler_type_from_format : fs_state -> string -> result FileType;
}.

(** The handler classes whose modules are outside the sources at hand
    ([pdf_handler], [postscript_handler], [xml_handler]). *)
Class ExternalHandlers : Type := {
  PdfHandler : Handler;
  PostscriptHandler : Handler;
  XmlHandler : Handler;
  (** their classifiers end: they return a type or raise *)
  external_handlers_return :
    forall handler fs file_path,
      handler ∈ [PdfHandler; PostscriptHandler; XmlHandler] ->
      handler_type_from_format handler fs file_path <> NoReturn;
}.

(** ** file/handler/image_handler.py *)

Module ImageHandler.

Definition _file_extension_map : list (string * list FileType) :=
  [ (".bmp", [FILE_TYPE_IMAGE_BMP]); (".gif", [FILE_TYPE_IMAGE_GIF]);
    (".ico", [FILE_TYPE_IMAGE_ICO]); (".jpeg", [FILE_TYPE_IMAGE_JPG]);
    (".jpg", [FILE_TYPE_IMAGE_JPG]); (".png", [FILE_TYPE_IMAGE_PNG]);
    (".tif", [FILE_TYPE_IMAGE_TIFF]); (".tiff", [FILE_TYPE_IMAGE_TIFF]) ].

Definition _pil_to_type_map : list (string * FileType) :=
  [ ("BMP", FILE_TYPE_IMAGE_BMP); ("GIF", FILE_TYPE_IMAGE_GIF);
    ("ICO", FILE_TYPE_IMAGE_ICO); ("PNG", FILE_TYPE_IMAGE_PNG);
    ("JPEG", FILE_TYPE_IMAGE_JPG); ("TIFF", FILE_TYPE_IMAGE_TIFF) ].

Definition get_file_type_from_extension (file_extension : string)
  : list FileType :=
  dict_get (Str.lower file_extension) _file_extension_map [FILE_TYPE_UNKNOWN].

Definition get_file_type_from_format (fs : fs_state) (file_path : string)
  : result FileType :=
  if negb (FileSystem.is_file fs file_path)
  then Raise (FileNotFoundError "file not found")
  else
    n ← FileSystem.node fs file_path;
    match node_pil_format n with
    | Some format => mret (dict_get format _pil_to_type_map FILE_TYPE_UNKNOWN)
    | None => mret FILE_TYPE_UNKNOWN
    end.

Definition handler : Handler :=
  {| handler_extensions := map fst _file_extension_map;
     handler_type_from_extension := get_file_type_from_extension;
     handler_type_from_format := get_file_type_from_format |}.

End ImageHandler.

(** ** file/handler/tex_handler.py *)

Module TexHandler.

Definition _file_extension_map : list (string * list FileType) :=
  [ (".aux", [FILE_TYPE_TEX_AUX]); (".bbl", [FILE_TYPE_TEX_BBL]);
    (".bib", [FILE_TYPE_TEX_BIB]); (".bst", [FILE_TYPE_TEX_BST]);
    (".clo", [FILE_TYPE_TEX_CLO]); (".cls", [FILE_TYPE_TEX_CLS]);
    (".dvi", [FILE_TYPE_TEX_DVI]); (".fig", [FILE_TYPE_TEX_FIG]);
    (".log", [FILE_TYPE_TEX_LOG]); (".pstex", [FILE_TYPE_TEX_PSTEX]);
    (".pstex_t", [FILE_TYPE_TEX_PSTEX_T]); (".sty", [FILE_TYPE_TEX_STY]);
    (".synctex", [FILE_TYPE_TEX_SYNCTEX]);
    (".tex", [FILE_TYPE_TEX_TEX; FILE_TYPE_TEX_LATEX_209_MAIN;
              FILE_TYPE_TEX_LATEX_2E_MAIN]);
    (".tikz", [FILE_TYPE_TEX_TIKZ]); (".toc", [FILE_TYPE_TEX_TOC]) ].

Definition get_file_type_from_extension (file_extension : string)
  : list FileType :=
  dict_get (Str.lower file_extension) _file_extension_map [FILE_TYPE_UNKNOWN].

Definition get_file_type_from_format (fs : fs_state) (file_path : string)
  : result FileType :=
  if negb (FileSystem.is_file fs file_path)
  then Raise (FileNotFoundError "file not found")
  else
    is_utf8 ← FileSystem.is_utf8_encoded fs file_path;
    if (is_utf8 : bool) then
      n ← FileSystem.node fs file_path;
      let buffer := string_of_list_byte (node_bytes n) in
      let is_latex2e_main_format :=
        forallb (fun pattern => Str.contains pattern buffer)
                ["\documentclass"; "\begin{document}"; "\end{document}"] in
      let is_latex209_main_format :=
        forallb (fun pattern => Str.contains pattern buffer)
                ["\documentstyle"; "\begin{document}"; "\end{document}"] in
      if is_latex2e_main_format then mret FILE_TYPE_TEX_LATEX_2E_MAIN
      else if is_latex209_main_format then mret FILE_TYPE_TEX_LATEX_209_MAIN
      else mret FILE_TYPE_UNKNOWN
    else mret FILE_TYPE_UNKNOWN.

Definition handler : Handler :=
  {| handler_extensions := map fst _file_extension_map;
     handler_type_from_extension := get_file_type_from_extension;
     handler_type_from_format := get_file_type_from_format |}.

End TexHandler.

Definition ArchiveHandler_handler : Handler :=
  {| handler_extensions := map fst ArchiveHandler._file_extension_map;
     handler_type_from_extension := ArchiveHandler.get_file_type_from_extension;
     handler_type_from_format := ArchiveHandler.get_file_type_from_format |}.

(** ** Registry values *)

(** The dictionary [FileHandler.get_metadata] builds; the submission
    registrar adds [submission_type_by_extension] to it. *)
Record Metadata : Type := {
  filename : string;
  size_bytes : Z;
  hash : gmap string string;
  timestamp_iso : string;
  file_type : string;
  submission_type_by_extension : option string;
}.

#[global] Instance Metadata_eq_dec : EqDecision Metadata.
Proof. solve_decision. Defined.

(** ** file/file_handler.py *)

Module FileHandler.
Section with_handlers.
Context `{handlers : !ExternalHandlers}.

Definition _file_handlers : list Handler :=
  [ ArchiveHandler_handler; ImageHandler.handler; PdfHandler;
    PostscriptHandler; TexHandler.handler; XmlHandler ].

(** Every handler has the method the source looks for: the check that
    raises [ValueError] cannot fail on the interface [Handler]. *)
Definition _get_file_handlers : list Handler := _file_handlers.

(** The source builds the dictionary from each lower-cased extension to
    the handlers that list it, each handler once and in the order of
    [_file_handlers], and reads it at [extension.lower()]. *)
Definition _get_file_handlers_from_extension (extension : string)
  : list Handler :=
  List.filter
    (fun handler =>
       existsb (fun ext => bool_decide (Str.lower ext = Str.lower extension))
               (handler_extensions handler))
    _get_file_handlers.

Definition _get_file_type_using_extension (file_extension : string)
  : list FileType :=
  if 0 <? Str.len file_extension then
    List.concat (map (fun file_handler =>
                   handler_type_from_extension file_handler file_extension)
                (_get_file_handlers_from_extension (Str.lower file_extension)))
  else [].

Definition get_file_type_from_extension (file_path : string) : list FileType :=
  let file_extension := Str.lower (FileName.get_file_extension file_path) in
  _get_file_type_using_extension file_extension.

(** The loop over the candidate handlers: the first type that is not
    [FILE_TYPE_UNKNOWN], else the last answer. *)
Fixpoint first_known_format (fs : fs_state) (file_path : string)
  (file_handler_list : list Handler) (file_type : FileType) : result FileType :=
  match file_handler_list with
  | [] => mret file_type
  | file_handler :: rest =>
      file_type ← handler_type_from_format file_handler fs file_path;
      if bool_decide (file_type ≠ FILE_TYPE_UNKNOWN) then mret file_type
      else first_known_format fs file_path rest file_type
  end.

Definition get_file_type_from_format (fs : fs_state) (file_path : string)
  (use_extension : bool) : result FileType :=
  if negb (FileSystem.is_file fs file_path)
  then Raise (FileNotFoundError "file not found")
  else
    let file_handler_list :=
      if use_extension
      then _get_file_handlers_from_extension
             (Str.lower (FileName.get_file_extension file_path))
      else _get_file_handlers in
    first_known_format fs file_path file_handler_list FILE_TYPE_UNKNOWN.

Definition get_metadata (fs : fs_state) (file_path : string)
  (hash_types : list HashType) : result Metadata :=
  if negb (FileSystem.is_file fs file_path)
  then Raise (FileNotFoundError "file not found")
  else
    size ← FileSystem.get_file_size fs file_path;
    digests ← mapM (fun hash_type =>
                      digest ← HashService.calculate_file_hash fs file_path hash_type;
                      mret (HashType_value hash_type, digest))
                   hash_types;
    timestamp ← FileSystem.get_file_timestamp fs file_path;
    format ← get_file_type_from_format fs file_path true;
    mret {| filename := FileName.get_file_basename file_path;
            size_bytes := size;
            hash := fold_left (fun d kv => <[kv.1 := kv.2]> d) digests ∅;
            timestamp_iso := timestamp;
            file_type := FileType_value format;
            submission_type_by_extension := None |}.

End with_handlers.
End FileHandler.

(** The value a submission registry holds under a key: [metadata],
    [origin], and [diagnostics] once there is something to report.  The
    entries turned away for a key are kept inside the entry that holds it. *)
Record SubmissionOrigin : Type := {
  origin_url : string;
  origin_bulk_archive_key : string;
}.

Inductive SubmissionEntry : Type := Build_SubmissionEntry {
  sub_metadata : Metadata;
  sub_origin : SubmissionOrigin;
  sub_diagnostics : option Diagnostics;
}
with Diagnostics : Type := Build_Diagnostics {
  error_log : option (list string);
  key_conflicts : option (list SubmissionEntry);
}.

(** The value a bulk archive registry holds under a key. *)
Record BulkArchiveOrigin : Type := { origin_uri : string }.

Record BulkArchiveEntry : Type := {
  bulk_metadata : Metadata;
  bulk_origin : BulkArchiveOrigin;
}.

#[global] Instance BulkArchiveOrigin_eq_dec : EqDecision BulkArchiveOrigin.
Proof. solve_decision. Defined.
#[global] Instance BulkArchiveEntry_eq_dec : EqDecision BulkArchiveEntry.
Proof. solve_decision. Defined.

(** ** Pattern matching helpers for the naming rules *)

Fixpoint span {A} (p : A -> bool) (l : list A) : list A * list A :=
  match l with
  | [] => ([], [])
  | x :: l' =>
      if p x then let '(a, b) := span p l' in (x :: a, b) else ([], l)
  end.

(** [\d{n}] at the head of [l]: the digits and what follows. *)
Definition digits (n : nat) (l : list ascii) : option (string * list ascii) :=
  if bool_decide (n ≤ List.length l)%nat && forallb Str.is_digit (take n l)
  then Some (Str.of_list (take n l), drop n l)
  else None.

(** [mm.isdigit() and 1 <= int(mm) <= 12] *)
Definition month_in_range (mm : string) : bool :=
  Str.isdigit mm && (1 <=? Str.int mm) && (Str.int mm <=? 12).

(** [SubmissionType.value] *)
Definition SubmissionType_value (t : SubmissionType) : string :=
  match t with
  | SUBMISSION_TYPE_UNKNOWN => "UNKNOWN"
  | SUBMISSION_TYPE_PDF => "PDF"
  | SUBMISSION_TYPE_POSTSCRIPT => "POSTSCRIPT"
  | SUBMISSION_TYPE_TEX => "TEX"
  end.

(** [d[k]] on a dictionary of strings: [KeyError] when [k] is missing. *)
Definition dict_getitem (d : gmap string string) (k : string) : result string :=
  match d !! k with
  | Some v => Ok v
  | None => Raise (KeyError k)
  end.

(** ** arxiv/submission_handler.py *)

Module SubmissionHandler.

(** [re.match(r'^([a-z\-]+)(\d{2})(\d{2})(\d{3})$', s)].  No character of
    the category class is a digit, so the category is the longest run of
    its class at the head. *)
Definition match_old_style (s : string)
  : option (string * string * string * string) :=
  let '(category, rest) :=
    span (fun c => Str.is_lower c || bool_decide (c = "-"%char)) (Str.to_list s) in
  if bool_decide (category = []) then None
  else
    '(yy, rest) ← digits 2 rest;
    '(mm, rest) ← digits 2 rest;
    '(number, rest) ← digits 3 rest;
    if Str.at_end rest then Some (Str.of_list category, yy, mm, number)
    else None.

(** [re.match(r'^(\d{2})(\d{2})\.(\d{4,5})$', s)] *)
Definition match_current_style (s : string)
  : option (string * string * string) :=
  '(yy, rest) ← digits 2 (Str.to_list s);
  '(mm, rest) ← digits 2 rest;
  match rest with
  | dot :: rest =>
      if bool_decide (dot = "."%char) then
        match digits 5 rest with
        | Some (number, rest') =>
            if Str.at_end rest' then Some (yy, mm, number) else None
        | None =>
            '(number, rest') ← digits 4 rest;
            if Str.at_end rest' then Some (yy, mm, number) else None
        end
      else None
  | [] => None
  end.

Definition parse_old_style_submission_filename (filename : string)
  : option (string * string * string * string) :=
  let basename := FileName.get_file_basename filename in
  let '(basename_no_ext, ext) := os_path.splitext basename in
  if bool_decide (ext ∈ [".gz"; ".pdf"]) then match_old_style basename_no_ext
  else None.

Definition parse_current_style_submission_filename (filename : string)
  : option (string * string * string) :=
  let basename := FileName.get_file_basename filename in
  let '(basename_no_ext, ext) := os_path.splitext basename in
  if bool_decide (ext ∈ [".gz"; ".pdf"]) then match_current_style basename_no_ext
  else None.

Definition is_submission_filename (filename : string) : bool :=
  match parse_old_style_submission_filename filename with
  | Some (_, _, mm, _) => month_in_range mm
  | None =>
      match parse_current_style_submission_filename filename with
      | Some (_, mm, _) => month_in_range mm
      | None => false
      end
  end.

Definition generate_url_for_submission_filename (filename : string)
  : result string :=
  let base_url := "https://arxiv.org/abs/" in
  match parse_old_style_submission_filename filename with
  | Some (category, yy, mm, number) =>
      mret (base_url +:+ category +:+ "/" +:+ yy +:+ mm +:+ number)
  | None =>
      match parse_current_style_submission_filename filename with
      | Some (yy, mm, number) =>
          mret (base_url +:+ yy +:+ mm +:+ "." +:+ number)
      | None =>
          Raise (ValueError ("Invalid arXiv submission filename: " +:+ filename))
      end
  end.

Section with_handlers.
Context `{handlers : !ExternalHandlers}.

Definition tex_types : list FileType :=
  [ FILE_TYPE_TEX_TEX; FILE_TYPE_TEX_LATEX_209_MAIN; FILE_TYPE_TEX_LATEX_2E_MAIN ].

Definition tex_supporting_types : list FileType :=
  [ FILE_TYPE_TEX_LOG; FILE_TYPE_TEX_FIG; FILE_TYPE_IMAGE_GIF;
    FILE_TYPE_IMAGE_PNG; FILE_TYPE_IMAGE_JPG; FILE_TYPE_TEX_BIB;
    FILE_TYPE_TEX_CLO; FILE_TYPE_TEX_BST; FILE_TYPE_TEX_TOC;
    FILE_TYPE_TEX_CLS; FILE_TYPE_TEX_BBL; FILE_TYPE_POSTSCRIPT_EPSF;
    FILE_TYPE_TEX_PSTEX_T; FILE_TYPE_TEX_PSTEX; FILE_TYPE_TEX_STY;
    FILE_TYPE_TEX_LATEX_209_MAIN; FILE_TYPE_TEX_LATEX_2E_MAIN;
    FILE_TYPE_TEX_TEX; FILE_TYPE_PDF; FILE_TYPE_POSTSCRIPT_PS;
    FILE_TYPE_POSTSCRIPT_EPSI; FILE_TYPE_POSTSCRIPT_EPS ].

(** The file types are gathered in a list and then made a set; the three
    tests on that set are written on the list: it is the singleton of [t]
    when it is not empty and holds nothing but [t], it meets [tex_types]
    when one element is in it, and nothing is left outside
    [tex_supporting_types] when every element is in it. *)
Definition get_submission_type_using_extension
  (submission_file_list : list string) : SubmissionType :=
  let file_types :=
    List.concat
      (map (fun filename =>
              let current_file_type_list :=
                FileHandler.get_file_type_from_extension filename in
              if bool_decide (List.length current_file_type_list = 0%nat)
              then [FILE_TYPE_UNKNOWN]
              else current_file_type_list)
           submission_file_list) in
  let is_singleton t :=
    negb (bool_decide (file_types = []))
    && forallb (fun u => bool_decide (u = t)) file_types in
  if is_singleton FILE_TYPE_POSTSCRIPT_PS then SUBMISSION_TYPE_POSTSCRIPT
  else if is_singleton FILE_TYPE_PDF then SUBMISSION_TYPE_PDF
  else if existsb (fun t => bool_decide (t ∈ tex_types)) file_types then
    if forallb (fun t => bool_decide (t ∈ tex_supporting_types)) file_types
    then SUBMISSION_TYPE_TEX
    else SUBMISSION_TYPE_UNKNOWN
  else SUBMISSION_TYPE_UNKNOWN.

Definition check_submission (fs : fs_state) (file_path : string)
  : result (list string) :=
  let allowed_file_types :=
    [FILE_TYPE_ARCHIVE_GZ; FILE_TYPE_ARCHIVE_TGZ; FILE_TYPE_PDF] in
  let allowed_archive_file_types :=
    [FILE_TYPE_ARCHIVE_GZ; FILE_TYPE_ARCHIVE_TGZ] in
  let error_list : list string := [] in
  let error_list :=
    if negb (is_submission_filename file_path)
    then error_list ++ ["Filename " +:+ file_path +:+ " does not match submission pattern"]
    else error_list in
  let error_list :=
    if bool_decide (error_list = []) then
      if negb (FileSystem.is_file fs file_path)
      then error_list ++ ["File " +:+ file_path +:+ " not found"]
      else error_list
    else error_list in
  if bool_decide (error_list = []) then
    let file_types_by_extension := FileHandler.get_file_type_from_extension file_path in
    file_type_by_format ← FileHandler.get_file_type_from_format fs file_path true;
    let error_list :=
      if negb (existsb (fun file_type => bool_decide (file_type ∈ allowed_file_types))
                       file_types_by_extension)
      then error_list ++ ["File extension type is not allowed"]
      else if negb (bool_decide (file_type_by_format ∈ allowed_file_types))
      then error_list ++ ["File type " +:+ FileType_value file_type_by_format +:+ " not allowed"]
      else if negb (bool_decide (file_type_by_format ∈ file_types_by_extension))
      then error_list ++ ["File format does not match file extension"]
      else error_list in
    if bool_decide (error_list = [])
       && bool_decide (file_type_by_format ∈ allowed_archive_file_types)
    then
      let default_extract_path := "/" in
      archive_errors ←
        ArchiveHandler.check_extract_possible fs file_path default_extract_path;
      mret (error_list ++ archive_errors)
    else mret error_list
  else mret error_list.

Definition is_submission_valid (fs : fs_state) (file_path : string)
  : result bool :=
  error_list ← check_submission fs file_path;
  mret (bool_decide (List.length error_list = 0%nat)).

Definition generate_registry_entry (fs : fs_state) (file_path : string)
  (bulk_archive_key : string)
  : result (string * SubmissionEntry * list string) :=
  let hash_types := [HASH_TYPE_MD5; HASH_TYPE_SHA256] in
  if negb (FileSystem.is_file fs file_path)
  then Raise (FileNotFoundError ("File '" +:+ file_path +:+ "' not found."))
  else
    submission_errors ← check_submission fs file_path;
    url ← generate_url_for_submission_filename file_path;
    metadata ← FileHandler.get_metadata fs file_path hash_types;
    registry_key ← dict_getitem (hash metadata) "SHA256";
    submission_type ←
      (if (0 <? List.length submission_errors)%nat
       then mret SUBMISSION_TYPE_UNKNOWN
       else if bool_decide (file_type metadata ∈ [FileType_value FILE_TYPE_PDF])
       then mret SUBMISSION_TYPE_PDF
       else if bool_decide (file_type metadata ∈
                              [FileType_value FILE_TYPE_ARCHIVE_GZ;
                               FileType_value FILE_TYPE_ARCHIVE_TGZ])
       then
         archive_contents ← ArchiveHandler.list_contents fs file_path;
         mret (get_submission_type_using_extension archive_contents)
       else mret SUBMISSION_TYPE_UNKNOWN);
    let metadata :=
      {| filename := filename metadata;
         size_bytes := size_bytes metadata;
         hash := hash metadata;
         timestamp_iso := timestamp_iso metadata;
         file_type := file_type metadata;
         submission_type_by_extension :=
           Some (SubmissionType_value submission_type) |} in
    let submission_errors :=
      if bool_decide (List.length submission_errors = 0%nat)
         && bool_decide (submission_type = SUBMISSION_TYPE_UNKNOWN)
      then submission_errors ++ ["Unknown submission type"]
      else submission_errors in
    let registry_entry :=
      {| sub_metadata := metadata;
         sub_origin := {| origin_url := url;
                          origin_bulk_archive_key := bulk_archive_key |};
         sub_diagnostics := None |} in
    mret (registry_key, registry_entry, submission_errors).

End with_handlers.
End SubmissionHandler.

(** ** arxiv/bulk_archive_handler.py *)

Module BulkArchiveHandler.

(** [re.match(r'^arXiv_src_(\d{2})(\d{2})_(\d{3})\.tar$', basename)] *)
Definition parse_bulk_archive_filename (filename : string)
  : option (string * string * string) :=
  let basename := FileName.get_file_basename filename in
  rest ← Str.prefix_chars (Str.to_list "arXiv_src_") (Str.to_list basename);
  '(yy, rest) ← digits 2 rest;
  '(mm, rest) ← digits 2 rest;
  rest ← Str.prefix_chars (Str.to_list "_") rest;
  '(seq_num, rest) ← digits 3 rest;
  rest ← Str.prefix_chars (Str.to_list ".tar") rest;
  if Str.at_end rest then Some (yy, mm, seq_num) else None.

Definition is_bulk_archive_filename (filename : string) : bool :=
  match parse_bulk_archive_filename filename with
  | Some (_, mm, _) => month_in_range mm
  | None => false
  end.

Definition generate_uri_for_bulk_archive_filename (filename : string)
  : result string :=
  let base_uri := "s3://arxiv/src/" in
  if negb (is_bulk_archive_filename filename)
  then Raise (ValueError ("Filename " +:+ filename
                          +:+ " does not match arXiv bulk archive naming scheme"))
  else mret (base_uri +:+ FileName.get_file_basename filename).

Section with_handlers.
Context `{handlers : !ExternalHandlers}.

Definition check_bulk_archive (fs : fs_state) (file_path : string)
  : result (list string) :=
  let error_list : list string := [] in
  let error_list :=
    if negb (is_bulk_archive_filename file_path)
    then error_list ++ ["Filename " +:+ file_path +:+ " does not match bulk archive pattern"]
    else error_list in
  let error_list :=
    if bool_decide (error_list = []) then
      if negb (FileSystem.is_file fs file_path)
      then error_list ++ ["File " +:+ file_path +:+ " not found"]
      else error_list
    else error_list in
  error_list ←
    (if bool_decide (error_list = []) then
       if negb (bool_decide (FILE_TYPE_ARCHIVE_TAR
                               ∈ FileHandler.get_file_type_from_extension file_path))
       then mret (error_list ++ ["File extension is not tar"])
       else
         format ← FileHandler.get_file_type_from_format fs file_path true;
         if bool_decide (FILE_TYPE_ARCHIVE_TAR ≠ format)
         then mret (error_list ++ ["File format is not tar"])
         else mret error_list
     else mret error_list);
  error_list ←
    (if bool_decide (error_list = []) then
       let default_extract_path := "/" in
       archive_errors ←
         ArchiveHandler.check_extract_possible fs file_path default_extract_path;
       mret (error_list ++ archive_errors)
     else mret error_list);
  if bool_decide (error_list = []) then
    archive_contents ← ArchiveHandler.list_contents fs file_path;
    let invalid_entries :=
      List.filter (fun entry => negb (SubmissionHandler.is_submission_filename entry))
                  archive_contents in
    if negb (bool_decide (invalid_entries = []))
    then mret (error_list
               ++ ["Archive entries do not match submission filename pattern: "
                   +:+ Str.join ", " invalid_entries])
    else mret error_list
  else mret error_list.

Definition is_bulk_archive_valid (fs : fs_state) (file_path : string)
  : result bool :=
  error_list ← check_bulk_archive fs file_path;
  mret (bool_decide (List.length error_list = 0%nat)).

Definition generate_registry_entry (fs : fs_state) (file_path : string)
  : result (string * BulkArchiveEntry * list string) :=
  let hash_types := [HASH_TYPE_MD5; HASH_TYPE_SHA256] in
  if negb (FileSystem.is_file fs file_path)
  then Raise (FileNotFoundError ("File '" +:+ file_path +:+ "' not found."))
  else
    bulk_archive_errors ← check_bulk_archive fs file_path;
    uri ← generate_uri_for_bulk_archive_filename file_path;
    metadata ← FileHandler.get_metadata fs file_path hash_types;
    registry_key ← dict_getitem (hash metadata) "SHA256";
    let registry_entry :=
      {| bulk_metadata := metadata;
         bulk_origin := {| origin_uri := uri |} |} in
    mret (registry_key, registry_entry, bulk_archive_errors).

End with_handlers.
End BulkArchiveHandler.

(** ** services/registry.py

    The registry object holds one dictionary from keys to entries.  A
    method takes the dictionary and gives back the outcome of the call with
    the dictionary the object holds afterwards.  The order in which Python
    keeps the keys is not part of the model. *)

Module Registry.
Section registry.
Context {V : Type}.

(** [json.load] on the file opened at a path: the dictionary written
    there. *)
Context (json_load : fs_state -> string -> result (gmap string V)).

Definition clear (registry : gmap string V) : result unit * gmap string V :=
  (Ok tt, ∅).

Definition is_key_present (hash_key : string) (registry : gmap string V) : bool :=
  bool_decide (is_Some (registry !! hash_key)).

Definition get_entry (hash_key : string) (registry : gmap string V) : result V :=
  match registry !! hash_key with
  | Some entry => Ok entry
  | None => Raise (KeyError ("Hash key '" +:+ hash_key +:+ "' not found in registry."))
  end.

Definition add_entry (hash_key : string) (entry : V) (registry : gmap string V)
  : result unit * gmap string V :=
  if is_key_present hash_key registry
  then (Raise (KeyError ("Hash key '" +:+ hash_key +:+ "' already exists in registry.")),
        registry)
  else (Ok tt, <[hash_key := entry]> registry).

Definition update_entry (hash_key : string) (entry : V) (registry : gmap string V)
  : result unit * gmap string V :=
  if negb (is_key_present hash_key registry)
  then (Raise (KeyError ("Hash key '" +:+ hash_key +:+ "' not found in registry.")),
        registry)
  else (Ok tt, <[hash_key := entry]> registry).

Definition delete_entry (hash_key : string) (registry : gmap string V)
  : result unit * gmap string V :=
  if negb (is_key_present hash_key registry)
  then (Raise (KeyError ("Hash key '" +:+ hash_key +:+ "' not found in registry.")),
        registry)
  else (Ok tt, delete hash_key registry).

Definition list_keys (registry : gmap string V) : list string :=
  (map_to_list registry).*1.

Definition __len__ (registry : gmap string V) : nat := size registry.

Definition load (fs : fs_state) (file_path : string) (registry : gmap string V)
  : result unit * gmap string V :=
  let registry := (clear registry).2 in
  if negb (FileSystem.is_file fs file_path)
  then (Raise (FileNotFoundError ("File '" +:+ file_path +:+ "' not found.")),
        registry)
  else
    match json_load fs file_path with
    | Ok loaded => (Ok tt, loaded)
    | Raise e => (Raise e, registry)
    | NoReturn => (NoReturn, registry)
    end.

End registry.
End Registry.

(** ** arxiv/bulk_archive_registry.py *)

Module BulkArchiveRegistry.

Definition add_entry (hash_key : string) (entry : BulkArchiveEntry)
  (registry : gmap string BulkArchiveEntry)
  : result unit * gmap string BulkArchiveEntry :=
  (Raise (AttributeError
     "Direct access to base class 'add_entry' is not allowed. Use 'register_bulk_archive' instead."),
   registry).

Definition update_entry (hash_key : string) (entry : BulkArchiveEntry)
  (registry : gmap string BulkArchiveEntry)
  : result unit * gmap string BulkArchiveEntry :=
  (Raise (AttributeError
     "Direct access to base class 'update_entry' is not allowed. Use 'register_bulk_archive' instead."),
   registry).

(** The first key, in the order of the dictionary, whose entry carries
    the base name. *)
Definition find_bulk_archive_filename (file_path : string)
  (registry : gmap string BulkArchiveEntry) : option string :=
  let basename := FileName.get_file_basename file_path in
  let registry_keys :=
    (List.filter (fun kv => bool_decide (filename (bulk_metadata kv.2) = basename))
                 (map_to_list registry)).*1 in
  head registry_keys.

Section with_handlers.
Context `{handlers : !ExternalHandlers}.

Definition register_bulk_archive (fs : fs_state) (file_path : string)
  (registry : gmap string BulkArchiveEntry)
  : result unit * gmap string BulkArchiveEntry :=
  if negb (FileSystem.is_file fs file_path)
  then (Raise (FileNotFoundError ("File '" +:+ file_path +:+ "' not found.")),
        registry)
  else if negb (BulkArchiveHandler.is_bulk_archive_filename file_path)
  then (Raise (ValueError ("File '" +:+ file_path
                           +:+ "' is not a valid bulk archive filename.")),
        registry)
  else if bool_decide (find_bulk_archive_filename file_path registry ≠ None)
  then (Raise (ValueError ("File '" +:+ file_path +:+ "' is already registered.")),
        registry)
  else
    match BulkArchiveHandler.generate_registry_entry fs file_path with
    | Raise e => (Raise e, registry)
    | NoReturn => (NoReturn, registry)
    | Ok (registry_key, registry_entry, bulk_archive_errors) =>
        if (0 <? List.length bulk_archive_errors)%nat
        then (Raise (ValueError ("Bulk archive '" +:+ file_path +:+ "' has errors: "
                                 +:+ Str.repr_list bulk_archive_errors)),
              registry)
        else if Registry.is_key_present registry_key registry then
          match Registry.get_entry registry_key registry with
          | Ok existing_entry =>
              if bool_decide (existing_entry ≠ registry_entry)
              then (Raise (KeyError ("Bulk archive with key '" +:+ registry_key
                                     +:+ "' is already registered.")),
                    registry)
              else (Ok tt, registry)
          | Raise e => (Raise e, registry)
          | NoReturn => (NoReturn, registry)
          end
        else Registry.add_entry registry_key registry_entry registry
    end.

End with_handlers.
End BulkArchiveRegistry.

(** ** arxiv/submission_registry.py *)

Module SubmissionRegistry.

Definition add_entry (hash_key : string) (entry : SubmissionEntry)
  (registry : gmap string SubmissionEntry)
  : result unit * gmap string SubmissionEntry :=
  (Raise (AttributeError
     "Direct access to base class 'add_entry' is not allowed. Use 'register_submission' instead."),
   registry).

Definition update_entry (hash_key : string) (entry : SubmissionEntry)
  (registry : gmap string SubmissionEntry)
  : result unit * gmap string SubmissionEntry :=
  (Raise (AttributeError
     "Direct access to base class 'update_entry' is not allowed. Use 'register_submission' instead."),
   registry).

(** [if len(submission_errors) > 0:
       registry_entry['diagnostics'] = {'error_log': submission_errors}] *)
Definition attach_errors (registry_entry : SubmissionEntry)
  (submission_errors : list string) : SubmissionEntry :=
  if (0 <? List.length submission_errors)%nat
  then {| sub_metadata := sub_metadata registry_entry;
          sub_origin := sub_origin registry_entry;
          sub_diagnostics :=
            Some {| error_log := Some submission_errors;
                    key_conflicts := None |} |}
  else registry_entry.

(** The branch of [register_submission] taken when the key holds an
    entry with other metadata.  [existing_entry] is the dictionary the
    registry holds, changed in place: the result is the registry with the
    entry as it stands when the branch ends or raises. *)
Definition record_key_conflict (registry_key : string)
  (existing_entry registry_entry : SubmissionEntry)
  (registry : gmap string SubmissionEntry)
  : result unit * gmap string SubmissionEntry :=
  (* diagnostics = existing_entry.setdefault('diagnostics', {}) *)
  let diagnostics :=
    default {| error_log := None; key_conflicts := None |}
            (sub_diagnostics existing_entry) in
  (* error_log = diagnostics.setdefault('error_log', []) *)
  let log := default [] (error_log diagnostics) in
  let '(log, conflicts) :=
    if negb (bool_decide ("key conflicts" ∈ log))
    then (log ++ ["key conflicts"], Some [])
    else (log, key_conflicts diagnostics) in
  let store conflicts :=
    <[registry_key :=
        {| sub_metadata := sub_metadata existing_entry;
           sub_origin := sub_origin existing_entry;
           sub_diagnostics :=
             Some {| error_log := Some log; key_conflicts := conflicts |} |}]>
      registry in
  (* diagnostics['key_conflicts'].append(registry_entry) *)
  match conflicts with
  | Some rejected => (Ok tt, store (Some (rejected ++ [registry_entry])))
  | None => (Raise (KeyError "key_conflicts"), store None)
  end.

Definition find_submission_filename (file_path : string)
  (registry : gmap string SubmissionEntry) : list string :=
  let basename := FileName.get_file_basename file_path in
  (List.filter (fun kv => bool_decide (filename (sub_metadata kv.2) = basename))
               (map_to_list registry)).*1.

Definition is_entry_valid (key : string) (registry : gmap string SubmissionEntry)
  : result bool :=
  if negb (Registry.is_key_present key registry)
  then Raise (KeyError ("Key '" +:+ key +:+ "' not found in registry."))
  else
    entry ← Registry.get_entry key registry;
    let diagnostics :=
      default {| error_log := None; key_conflicts := None |}
              (sub_diagnostics entry) in
    let log := default [] (error_log diagnostics) in
    mret (bool_decide (List.length log = 0%nat)).

Definition list_invalid_entries (registry : gmap string SubmissionEntry)
  : result (list string) :=
  checked ← mapM (fun key =>
                    is_valid ← is_entry_valid key registry;
                    mret (key, is_valid))
                 (Registry.list_keys registry);
  mret (List.filter (fun checked_key => negb checked_key.2) checked).*1.

Definition find_bulk_archive_key (bulk_archive_key : string)
  (registry : gmap string SubmissionEntry) : list string :=
  (List.filter (fun kv => bool_decide (origin_bulk_archive_key (sub_origin kv.2)
                                       = bulk_archive_key))
               (map_to_list registry)).*1.

(** The bulk archive keys are gathered in a set, and the set is listed. *)
Definition list_bulk_archive_keys (registry : gmap string SubmissionEntry)
  : list string :=
  elements (list_to_set
              (map (fun kv => origin_bulk_archive_key (sub_origin kv.2))
                   (map_to_list registry)) : gset string).

Section with_handlers.
Context `{handlers : !ExternalHandlers}.

Definition register_submission (fs : fs_state)
  (file_path bulk_archive_key : string)
  (registry : gmap string SubmissionEntry)
  : result unit * gmap string SubmissionEntry :=
  if negb (FileSystem.is_file fs file_path)
  then (Raise (FileNotFoundError ("File '" +:+ file_path +:+ "' not found.")),
        registry)
  else if negb (SubmissionHandler.is_submission_filename file_path)
  then (Raise (ValueError ("File '" +:+ file_path
                           +:+ "' is not a valid submission filename.")),
        registry)
  else
    match SubmissionHandler.generate_registry_entry fs file_path bulk_archive_key with
    | Raise e => (Raise e, registry)
    | NoReturn => (NoReturn, registry)
    | Ok (registry_key, registry_entry, submission_errors) =>
        let registry_entry := attach_errors registry_entry submission_errors in
        if Registry.is_key_present registry_key registry then
          match Registry.get_entry registry_key registry with
          | Ok existing_entry =>
              if bool_decide (sub_metadata existing_entry ≠ sub_metadata registry_entry)
              then record_key_conflict registry_key existing_entry registry_entry registry
              else (Ok tt, registry)
          | Raise e => (Raise e, registry)
          | NoReturn => (NoReturn, registry)
          end
        else Registry.add_entry registry_key registry_entry registry
    end.

(** A run of calls on one registry object, each on the file system of
    its time, up to the first call that does not return. *)
Fixpoint register_submissions (calls : list (fs_state * string * string))
  (registry : gmap string SubmissionEntry)
  : result unit * gmap string SubmissionEntry :=
  match calls with
  | [] => (Ok tt, registry)
  | (fs, file_path, bulk_archive_key) :: rest =>
      match register_submission fs file_path bulk_archive_key registry with
      | (Ok _, registry) => register_submissions rest registry
      | (Raise e, registry) => (Raise e, registry)
      | (NoReturn, registry) => (NoReturn, registry)
      end
  end.

End with_handlers.
End SubmissionRegistry.

(** ** services/time_service.py *)

(** [datetime.fromisoformat], as the instant the text denotes on one time
    line; [None] for a text it rejects. *)
Class DateTime : Type := { datetime_fromisoformat : string -> option Z }.

Module TimeService.

Definition fromisoformat `{clock : !DateTime} (iso_timestamp : string) : result Z :=
  match datetime_fromisoformat iso_timestamp with
  | Some instant => Ok instant
  | None => Raise (ValueError ("Invalid isoformat string: '" +:+ iso_timestamp +:+ "'"))
  end.

Definition is_iso_timestamp_newer `{clock : !DateTime}
  (iso_timestamp1 iso_timestamp2 : string) : result bool :=
  dt1 ← fromisoformat iso_timestamp1;
  dt2 ← fromisoformat iso_timestamp2;
  mret (dt2 <? dt1).

End TimeService.

(** ** arxiv/manifest.py *)

Record ManifestEntry : Type := {
  me_filename : string;
  me_size_bytes : Z;
  me_timestamp_iso : string;
  me_year : Z;
  me_month : Z;
  me_sequence_number : Z;
  me_n_submissions : Z;
  me_hash_MD5 : string;
  me_hash_MD5_contents : string;
}.

(** [self._manifest]: the dictionary ['metadata'] (empty until a manifest is
    imported, then holding ['manifest_timestamp_iso']) and the dictionary
    ['contents'] from base file names to entries. *)
Record ManifestState : Type := {
  manifest_metadata : gmap string string;
  manifest_contents : gmap string ManifestEntry;
}.

(** What [XmlHandler.read_xml_to_dict] gives for an element: nothing, its
    text, a dictionary of its children, or a list for a repeated child. *)
#[local] Unset Elimination Schemes.
Inductive Xml : Type :=
  | XmlNone
  | XmlStr (text : string)
  | XmlList (items : list Xml)
  | XmlDict (children : list (string * Xml)).
#[local] Set Elimination Schemes.

(** [x.keys()] *)
Definition xml_keys (x : Xml) : result (list string) :=
  match x with
  | XmlDict children => Ok (map fst children)
  | _ => Raise (AttributeError "object has no attribute 'keys'")
  end.

(** [d[k]] on the dictionary of an element *)
Definition xml_getitem (d : list (string * Xml)) (k : string) : result Xml :=
  match List.find (fun kv => bool_decide (kv.1 = k)) d with
  | Some kv => Ok kv.2
  | None => Raise (KeyError k)
  end.

(** [x[k]] *)
Definition xml_child (x : Xml) (k : string) : result Xml :=
  match x with
  | XmlDict children => xml_getitem children k
  | _ => Raise (TypeError "indices must be integers or slices, not str")
  end.

(** [isinstance(x, str)] *)
Definition xml_is_str (x : Xml) : bool :=
  match x with XmlStr _ => true | _ => false end.

(** The strings of an element whose children are all text: the ['file']
    entries, once [_is_arxiv_keys_present] has accepted them. *)
Definition xml_strings (x : Xml) : gmap string string :=
  match x with
  | XmlDict children =>
      list_to_map
        (omap (fun kv => match kv.2 with
                         | XmlStr text => Some (kv.1, text)
                         | _ => None
                         end)
              children)
  | _ => ∅
  end.

(** One value of the dictionary [get_statistics] builds. *)
Record MonthStatistics : Type := {
  stat_size_bytes : Z;
  stat_n_submissions : Z;
}.

Module Manifest.

Definition _set_defaults : ManifestState :=
  {| manifest_metadata := ∅; manifest_contents := ∅ |}.

Definition list_keys (self : ManifestState) : gset string :=
  dom (manifest_contents self).

Definition __len__ (self : ManifestState) : nat :=
  size (manifest_contents self).

Section with_datetime.
Context `{clock : !DateTime}.

Definition is_newer_than (self other_manifest : ManifestState) : result bool :=
  iso_timestamp1 ← dict_getitem (manifest_metadata self) "manifest_timestamp_iso";
  iso_timestamp2 ← dict_getitem (manifest_metadata other_manifest) "manifest_timestamp_iso";
  let current_keys := list_keys self in
  let other_keys := list_keys other_manifest in
  let common_keys := current_keys ∩ other_keys in
  let files_in_current_but_not_in_other := current_keys ∖ common_keys in
  let files_in_other_but_not_in_current := other_keys ∖ common_keys in
  if bool_decide (iso_timestamp1 = iso_timestamp2) then
    let is_timestamp_newer := false in
    if (0 <? size files_in_current_but_not_in_other)%nat
       || (0 <? size files_in_other_but_not_in_current)%nat
    then Raise (ValueError
           "Inconsistent manifest metadata, manifests with identical times must have identical keys")
    else mret is_timestamp_newer
  else
    is_timestamp_newer ← TimeService.is_iso_timestamp_newer iso_timestamp1 iso_timestamp2;
    if (is_timestamp_newer : bool) then
      if bool_decide (size files_in_current_but_not_in_other = 0%nat)
      then Raise (ValueError
             "Inconsistent manifest metadata, newer manifest must have at least one new entry")
      else if (0 <? size files_in_other_but_not_in_current)%nat
      then Raise (ValueError
             "Inconsistent manifest metadata, newer manifest cannot have entries deleted")
      else mret is_timestamp_newer
    else
      if bool_decide (size files_in_other_but_not_in_current = 0%nat)
      then Raise (ValueError
             "Inconsistent manifest metadata, newer manifest must have at least one new entry")
      else if (0 <? size files_in_current_but_not_in_other)%nat
      then Raise (ValueError
             "Inconsistent manifest metadata, newer manifest cannot have entries deleted")
      else mret is_timestamp_newer.

Definition find_new_entries (self reference_manifest : ManifestState)
  : result (gset string) :=
  is_newer ← is_newer_than self reference_manifest;
  if negb is_newer
  then Raise (ValueError "Reference manifest must be older than the current manifest")
  else
    let current_keys := list_keys self in
    let reference_keys := list_keys reference_manifest in
    let new_keys := current_keys ∖ reference_keys in
    mret new_keys.

Definition find_updated_entries (self reference_manifest : ManifestState)
  : result (gset string) :=
  is_newer ← is_newer_than self reference_manifest;
  if negb is_newer
  then Raise (ValueError "Reference manifest must be older than the current manifest")
  else
    let current_keys := list_keys self in
    let reference_keys := list_keys reference_manifest in
    let common_keys := current_keys ∩ reference_keys in
    mret (filter (fun key =>
                    me_hash_MD5 <$> manifest_contents self !! key
                    ≠ me_hash_MD5 <$> manifest_contents reference_manifest !! key)
                 common_keys).

End with_datetime.

Definition clear (self : ManifestState) : result unit * ManifestState :=
  (Ok tt, _set_defaults).

Definition list_filenames (self : ManifestState) : list string :=
  map (fun kv => FileName.get_file_basename (me_filename kv.2))
      (map_to_list (manifest_contents self)).

(** [(a, b) >= (c, d)] on pairs of integers *)
Definition pair_ge (p q : Z * Z) : bool :=
  if bool_decide (p.1 = q.1) then q.2 <=? p.2 else q.1 <? p.1.

Definition list_entries_by_date (self : ManifestState) (year month : Z)
  (is_from_date_onwards : bool) : list string :=
  if is_from_date_onwards then
    (List.filter (fun kv => pair_ge (me_year kv.2, me_month kv.2) (year, month))
                 (map_to_list (manifest_contents self))).*1
  else
    (List.filter (fun kv => bool_decide ((me_year kv.2, me_month kv.2) = (year, month)))
                 (map_to_list (manifest_contents self))).*1.

Definition get_statistics (self : ManifestState) : gmap (Z * Z) MonthStatistics :=
  fold_left
    (fun statistics kv =>
       let entry := kv.2 in
       let key := (me_year entry, me_month entry) in
       let statistics :=
         if bool_decide (statistics !! key = None)
         then <[key := {| stat_size_bytes := 0; stat_n_submissions := 0 |}]> statistics
         else statistics in
       let statistics :=
         alter (fun s => {| stat_size_bytes := stat_size_bytes s + me_size_bytes entry;
                            stat_n_submissions := stat_n_submissions s |})
               key statistics in
       alter (fun s => {| stat_size_bytes := stat_size_bytes s;
                          stat_n_submissions :=
                            stat_n_submissions s + me_n_submissions entry |})
             key statistics)
    (map_to_list (manifest_contents self)) ∅.


Section with_list_files.

(** [FileSystem.list_files(directory_path, include_subdirectories=False)],
    a function of the module outside the sources at hand: the names it
    lists, or the exception it raises. *)
Context (list_files : fs_state -> string -> result (list string)).

Definition find_bulk_archive_files_not_in_manifest (self : ManifestState)
  (fs : fs_state) (directory_path : string) : result (list string) :=
  if negb (FileSystem.is_directory fs directory_path)
  then Raise (FileNotFoundError ("Directory not found: " +:+ directory_path))
  else
    all_files ← list_files fs directory_path;
    let bulk_archive_files :=
      List.filter BulkArchiveHandler.is_bulk_archive_filename all_files in
    let manifest_filenames := list_filenames self in
    let missing_bulk_archive_files :=
      List.filter (fun f => negb (bool_decide (f ∈ manifest_filenames)))
                  bulk_archive_files in
    mret missing_bulk_archive_files.

Definition find_keys_without_local_files (self : ManifestState)
  (fs : fs_state) (directory_path : string) (key_list : list string)
  : result (list string) :=
  if negb (FileSystem.is_directory fs directory_path)
  then Raise (FileNotFoundError ("Directory not found: " +:+ directory_path))
  else
    local_files ← list_files fs directory_path;
    let local_file_set : gset string := list_to_set local_files in
    let missing_keys :=
      List.filter
        (fun key =>
           match manifest_contents self !! key with
           | Some entry =>
               negb (bool_decide (FileName.get_file_basename (me_filename entry)
                                  ∈ local_file_set))
           | None => false
           end)
        key_list in
    mret missing_keys.

End with_list_files.

(** *** Reading the arXiv manifest

    A ['file'] entry is a dictionary of strings: that is what
    [_is_arxiv_keys_present] lets through to the methods that read it. *)

Definition same_keys (keys expected : list string) : bool :=
  bool_decide ((list_to_set keys : gset string) = list_to_set expected).

(** [x.items()] *)
Definition xml_items (x : Xml) : result (list (string * Xml)) :=
  match x with
  | XmlDict children => Ok children
  | _ => Raise (AttributeError "object has no attribute 'items'")
  end.

Definition _is_arxiv_keys_present (xml_dict : list (string * Xml)) : result bool :=
  let expected_top_level_keys := ["arXivSRC"] in
  let expected_src_keys := ["file"; "timestamp"] in
  let expected_file_keys :=
    ["content_md5sum"; "filename"; "first_item"; "last_item"; "md5sum";
     "num_items"; "seq_num"; "size"; "timestamp"; "yymm"] in
  if same_keys (map fst xml_dict) expected_top_level_keys then
    src ← xml_getitem xml_dict "arXivSRC";
    src_keys ← xml_keys src;
    if same_keys src_keys expected_src_keys then
      timestamp ← xml_child src "timestamp";
      if xml_is_str timestamp then
        file ← xml_child src "file";
        match file with
        | XmlList entries =>
            same ← mapM (fun entry =>
                           keys ← xml_keys entry;
                           mret (same_keys keys expected_file_keys))
                        entries;
            if forallb id same then
              items ← mapM xml_items entries;
              mret (forallb (fun kv => xml_is_str kv.2) (List.concat items))
            else mret false
        | _ => mret false
        end
      else mret false
    else mret false
  else mret false.

Definition _is_file_entry_consistent (file_entry : gmap string string)
  : result bool :=
  let is_consistent := true in
  seq_num_text ← dict_getitem file_entry "seq_num";
  seq_num ← Str.to_int seq_num_text;
  yymm ← dict_getitem file_entry "yymm";
  entry_filename ← dict_getitem file_entry "filename";
  let generated_filename :=
    "src/arXiv_src_" +:+ yymm +:+ "_" +:+ Str.format_03d seq_num +:+ ".tar" in
  let is_consistent :=
    if bool_decide (entry_filename ≠ generated_filename) then false
    else is_consistent in
  yymm ← dict_getitem file_entry "yymm";
  month ← Str.to_int (Str.slice_from 2 yymm);
  let is_consistent :=
    if (month <=? 0) || (12 <? month) then false else is_consistent in
  mret is_consistent.

Section with_timestamps.

(** [datetime.strptime(timestamp, format)] read as a time of New York and
    written in UTC by [isoformat()]: the text, or the exception of
    [strptime]. *)
Context (eastern_to_utc_iso : string -> string -> result string).

Definition _convert_arxiv_timestamp_to_iso (timestamp : string) : result string :=
  let original_time_format := "%a %b %d %H:%M:%S %Y" in
  eastern_to_utc_iso original_time_format timestamp.

Definition _convert_arxiv_file_entry_timestamp_to_iso (timestamp : string)
  : result string :=
  let original_time_format := "%Y-%m-%d %H:%M:%S" in
  eastern_to_utc_iso original_time_format timestamp.

Definition _process_file_entry (file_entry : gmap string string)
  : result ManifestEntry :=
  is_consistent ← _is_file_entry_consistent file_entry;
  if negb is_consistent then Raise (ValueError "Entry inconsistent")
  else
    entry_filename ← dict_getitem file_entry "filename";
    size ← dict_getitem file_entry "size";
    size_bytes ← Str.to_int size;
    timestamp ← dict_getitem file_entry "timestamp";
    timestamp_iso ← _convert_arxiv_file_entry_timestamp_to_iso timestamp;
    yymm ← dict_getitem file_entry "yymm";
    yy ← Str.to_int (Str.slice_to 2 yymm);
    year ← Str.to_int (if 90 <? yy then "19" +:+ Str.slice_to 2 yymm
                        else "20" +:+ Str.slice_to 2 yymm);
    month ← Str.to_int (Str.slice_from 2 yymm);
    seq_num ← dict_getitem file_entry "seq_num";
    sequence_number ← Str.to_int seq_num;
    num_items ← dict_getitem file_entry "num_items";
    n_submissions ← Str.to_int num_items;
    md5sum ← dict_getitem file_entry "md5sum";
    content_md5sum ← dict_getitem file_entry "content_md5sum";
    mret {| me_filename := entry_filename;
            me_size_bytes := size_bytes;
            me_timestamp_iso := timestamp_iso;
            me_year := year;
            me_month := month;
            me_sequence_number := sequence_number;
            me_n_submissions := n_submissions;
            me_hash_MD5 := md5sum;
            me_hash_MD5_contents := content_md5sum |}.

(** The methods of [XmlHandler] the import calls; its module is outside
    the sources at hand. *)
Context (is_xml_format : fs_state -> string -> result bool).
Context (read_xml_to_dict : fs_state -> string -> result (list (string * Xml))).

(** The loop of [import_arxiv_xml] over the ['file'] entries. *)
Fixpoint import_file_entries (entries : list Xml) (self : ManifestState)
  : result unit * ManifestState :=
  match entries with
  | [] => (Ok tt, self)
  | file_entry :: rest =>
      match _process_file_entry (xml_strings file_entry) with
      | Ok entry =>
          let filename := me_filename entry in
          let base_filename := FileName.get_file_basename filename in
          if bool_decide (manifest_contents self !! base_filename = None)
          then import_file_entries rest
                 {| manifest_metadata := manifest_metadata self;
                    manifest_contents :=
                      <[base_filename := entry]> (manifest_contents self) |}
          else (Raise (KeyError
                  "Bulk archive base filenames not unique and cannot be used for keys"),
                self)
      | Raise e => (Raise e, self)
      | NoReturn => (NoReturn, self)
      end
  end.

Definition import_arxiv_xml (fs : fs_state) (file_path : string)
  (self : ManifestState) : result unit * ManifestState :=
  let self := (clear self).2 in
  if negb (FileSystem.is_file fs file_path)
  then (Raise (FileNotFoundError "file not found"), self)
  else
    let checked :=
      is_xml ← is_xml_format fs file_path;
      if negb is_xml then Raise (TypeError "file is not in XML format.")
      else
        xml_dict ← read_xml_to_dict fs file_path;
        is_present ← _is_arxiv_keys_present xml_dict;
        if negb is_present then Raise (TypeError "Entries missing in arXiv XML file")
        else
          src ← xml_getitem xml_dict "arXivSRC";
          timestamp ← xml_child src "timestamp";
          manifest_timestamp_iso ←
            match timestamp with
            | XmlStr text => _convert_arxiv_timestamp_to_iso text
            | _ => Raise (TypeError "strptime() argument 1 must be str")
            end;
          mret (xml_dict, manifest_timestamp_iso) in
    match checked with
    | Ok (xml_dict, manifest_timestamp_iso) =>
        let self :=
          {| manifest_metadata :=
               <["manifest_timestamp_iso" := manifest_timestamp_iso]>
                 (manifest_metadata self);
             manifest_contents := manifest_contents self |} in
        match (src ← xml_getitem xml_dict "arXivSRC"; xml_child src "file") with
        | Ok (XmlList entries) => import_file_entries entries self
        | Ok _ => (Raise (TypeError "object is not iterable"), self)
        | Raise e => (Raise e, self)
        | NoReturn => (NoReturn, self)
        end
    | Raise e => (Raise e, self)
    | NoReturn => (NoReturn, self)
    end.

End with_timestamps.

End Manifest.

(** ** aws/s3_client.py *)

(** One line of [aws s3 ls]: [size] is [None] for a line of three fields. *)
Record S3Entry : Type := {
  s3_date : string;
  s3_time : string;
  s3_size : option string;
  s3_name : string;
}.

Module S3Client.

(** The loop of [_parse_aws_ls_output] over the lines. *)
Fixpoint parse_lines (lines : list string) (entries : list S3Entry)
  : result (list S3Entry) :=
  match lines with
  | [] => mret entries
  | line :: rest =>
      let parts := Str.split_whitespace line in
      match parts with
      | [date; time; size; name] =>
          parse_lines rest
            (entries ++ [{| s3_date := date; s3_time := time;
                            s3_size := Some size; s3_name := name |}])
      | [date; time; name] =>
          parse_lines rest
            (entries ++ [{| s3_date := date; s3_time := time;
                            s3_size := None; s3_name := name |}])
      | _ :: _ =>
          Raise (ValueError ("Unexpected line format in aws s3 ls output: '"
                             +:+ line +:+ "'"))
      | [] => parse_lines rest entries
      end
  end.

Definition _parse_aws_ls_output (output : string) : result (list S3Entry) :=
  parse_lines (Str.splitlines (Str.strip output)) [].

Section with_cli.

(** The [try] statement around [subprocess.run(command_list, ...)] with
    its [except] clauses: the text the command prints, or the exception
    that leaves the statement. *)
Context (aws : list string -> result string).

(** The commands run so far are kept next to the outcome. *)
Definition copy_object_from_s3 (fs : fs_state)
  (source_uri destination_directory : string) (commands : list (list string))
  : result unit * list (list string) :=
  if negb (Str.startswith "s3://" source_uri)
  then (Raise (ValueError "source_uri must start with 's3://'"), commands)
  else if bool_decide (destination_directory = "")
  then (Raise (ValueError "destination must be a valid file path"), commands)
  else
    let dest_dir :=
      if bool_decide (os_path.dirname destination_directory = "") then "."
      else os_path.dirname destination_directory in
    if negb (FileSystem.is_directory fs dest_dir)
    then (Raise (FileNotFoundError
                   ("Destination directory does not exist: " +:+ dest_dir)),
          commands)
    else
      let command_list :=
        ["aws"; "s3"; "cp"; "--request-payer"; "requester";
         source_uri; destination_directory] in
      match aws command_list with
      | Ok _ => (Ok tt, commands ++ [command_list])
      | Raise e => (Raise e, commands ++ [command_list])
      | NoReturn => (NoReturn, commands ++ [command_list])
      end.

Definition list_directory_from_s3 (directory_uri : string)
  (commands : list (list string))
  : result (list S3Entry) * list (list string) :=
  if negb (Str.startswith "s3://" directory_uri)
  then (Raise (ValueError "directory_uri must start with 's3://'"), commands)
  else
    let command_list :=
      ["aws"; "s3"; "ls"; "--request-payer"; "requester"; directory_uri] in
    (stdout ← aws command_list; _parse_aws_ls_output stdout,
     commands ++ [command_list]).

End with_cli.
End S3Client.

(** ** arxiv/bucket_handler.py *)

Module BucketHandler.

Definition ARXIV_SOURCE_S3_URI : string := "s3://arxiv/src/".
Definition ARXIV_SOURCE_MANIFEST_FILENAME : string := "arXiv_src_manifest.xml".

Section with_cli.
Context (aws : list string -> result string).

Definition fetch_source_manifest (fs : fs_state) (destination_directory : string)
  (commands : list (list string)) : result unit * list (list string) :=
  let source_uri := ARXIV_SOURCE_S3_URI +:+ ARXIV_SOURCE_MANIFEST_FILENAME in
  S3Client.copy_object_from_s3 aws fs source_uri destination_directory commands.

Definition fetch_source_bulk_archive (fs : fs_state)
  (bulk_archive_filename destination_directory : string)
  (commands : list (list string)) : result unit * list (list string) :=
  if bool_decide (FileName.get_file_basename bulk_archive_filename
                  ≠ bulk_archive_filename)
  then (Raise (ValueError "Bulk archive filename should be identical to the basename"),
        commands)
  else if negb (BulkArchiveHandler.is_bulk_archive_filename bulk_archive_filename)
  then (Raise (ValueError ("Invalid bulk archive filename: " +:+ bulk_archive_filename)),
        commands)
  else
    let source_uri := ARXIV_SOURCE_S3_URI +:+ bulk_archive_filename in
    S3Client.copy_object_from_s3 aws fs source_uri destination_directory commands.

End with_cli.
End BucketHandler.

(** ** Words of the specification about manifests *)

(** The [generated_at] timestamp of a manifest, when it has one. *)
Definition manifest_timestamp (m : ManifestState) : option string :=
  manifest_metadata m !! "manifest_timestamp_iso".



(** ** Words of the specification about registry entries *)

(** What [get_metadata] builds for an existing file, given the type its
    content is classified as. *)
Definition metadata_of (file_path : string) (n : FileNode) (format : FileType)
  : Metadata :=
  {| filename := FileName.get_file_basename file_path;
     size_bytes := node_size n;
     hash := <["SHA256" := node_hash n HASH_TYPE_SHA256]>
               (<["MD5" := node_hash n HASH_TYPE_MD5]> ∅);
     timestamp_iso := node_timestamp_iso n;
     file_type := FileType_value format;
     submission_type_by_extension := None |}.

(** The error log of a stored entry, empty when it has none. *)
Definition entry_error_log (entry : SubmissionEntry) : list string :=
  default [] (error_log (default {| error_log := None; key_conflicts := None |}
                                 (sub_diagnostics entry))).

(** The list of rejected alternates of a stored entry, when it has one. *)
Definition entry_key_conflicts (entry : SubmissionEntry)
  : option (list SubmissionEntry) :=
  key_conflicts (default {| error_log := None; key_conflicts := None |}
                         (sub_diagnostics entry)).

(** The entry with its diagnostics replaced: the given error log and the
    given rejected alternates. *)
Definition with_conflicts (entry : SubmissionEntry) (log : list string)
    (rejected : list SubmissionEntry) : SubmissionEntry :=
  {| sub_metadata := sub_metadata entry;
     sub_origin := sub_origin entry;
     sub_diagnostics :=
       Some {| error_log := Some log; key_conflicts := Some rejected |} |}.

(** A call of [register_submission] that gets as far as computing the key
    [key] for an entry whose metadata differ from those stored; [rejected]
    is the entry it computes. *)
Definition conflicting_call `{handlers : !ExternalHandlers} (key : string)
    (stored : Metadata) (call : fs_state * string * string)
    (rejected : SubmissionEntry) : Prop :=
  let '(fs, file_path, bulk_archive_key) := call in
  FileSystem.is_file fs file_path = true
  /\ SubmissionHandler.is_submission_filename file_path = true
  /\ exists entry errors,
      SubmissionHandler.generate_registry_entry fs file_path bulk_archive_key
      = Ok (key, entry, errors)
      /\ rejected = SubmissionRegistry.attach_errors entry errors
      /\ stored <> sub_metadata rejected.

(** ** Words of the specification about gzip headers *)


(** ** Sample data: handlers, a clock, files *)

Definition sample_handler (extension_map : list (string * list FileType))
    (magic : string) (format : FileType) : Handler :=
  {| handler_extensions := map fst extension_map;
     handler_type_from_extension := fun file_extension =>
       dict_get (Str.lower file_extension) extension_map [FILE_TYPE_UNKNOWN];
     handler_type_from_format := fun fs file_path =>
       n ← FileSystem.node fs file_path;
       mret (if Str.startswith magic (string_of_list_byte (node_bytes n))
             then format else FILE_TYPE_UNKNOWN) |}.

Lemma sample_handler_returns extension_map magic format fs file_path :
  handler_type_from_format (sample_handler extension_map magic format) fs file_path
  <> NoReturn.
Proof.
  cbn. unfold FileSystem.node. destruct (fs_files fs !! file_path); discriminate.
Qed.

Definition sample_pdf_handler : Handler :=
  sample_handler [(".pdf", [FILE_TYPE_PDF])] "%PDF" FILE_TYPE_PDF.
Definition sample_postscript_handler : Handler :=
  sample_handler [(".ps", [FILE_TYPE_POSTSCRIPT_PS]); (".eps", [FILE_TYPE_POSTSCRIPT_EPS])]
                 "%!PS" FILE_TYPE_POSTSCRIPT_PS.
Definition sample_xml_handler : Handler :=
  sample_handler [(".xml", [FILE_TYPE_XML])] "<?xml" FILE_TYPE_XML.

Lemma sample_handlers_return handler fs file_path :
  handler ∈ [sample_pdf_handler; sample_postscript_handler; sample_xml_handler] ->
  handler_type_from_format handler fs file_path <> NoReturn.
Proof.
  intros Hin. repeat (apply elem_of_cons in Hin as [->|Hin]);
    [apply sample_handler_returns..|by apply elem_of_nil in Hin].
Qed.

Definition sample_handlers : ExternalHandlers :=
  {| PdfHandler := sample_pdf_handler;
     PostscriptHandler := sample_postscript_handler;
     XmlHandler := sample_xml_handler;
     external_handlers_return := sample_handlers_return |}.

Definition sample_clock : DateTime :=
  {| datetime_fromisoformat := fun iso_timestamp =>
       if bool_decide (iso_timestamp = "2025-04-07T08:58:03+00:00") then Some 1744016283
       else if bool_decide (iso_timestamp = "2025-05-07T08:58:03+00:00") then Some 1746608283
       else None |}.

Definition sample_manifest_entry (name : string) : ManifestEntry :=
  {| me_filename := "src/" +:+ name; me_size_bytes := 1; me_timestamp_iso := "";
     me_year := 1999; me_month := 2; me_sequence_number := 5;
     me_n_submissions := 1; me_hash_MD5 := "d41d8"; me_hash_MD5_contents := "0cc17" |}.

Definition sample_manifest (timestamp : string) (keys : list string) : ManifestState :=
  {| manifest_metadata := {[ "manifest_timestamp_iso" := timestamp ]};
     manifest_contents := list_to_map (map (fun k => (k, sample_manifest_entry k)) keys) |}.

(** A gzip header with the name flag set, followed by [name], a NUL and
    two bytes of payload. *)
Definition sample_gzip_bytes (flags : byte) (extra name : list byte) : list byte :=
  [x1f; x8b; x08; flags; x00; x00; x00; x00; x00; x03] ++ extra ++ name ++ [x00; x4b; x04].

Definition sample_node (bytes : list byte) (is_tar is_gzip : bool)
    (members : list TarInfo) (digest : string) (timestamp : string) : FileNode :=
  {| node_size := Z.of_nat (List.length bytes);
     node_timestamp_iso := timestamp;
     node_hash := fun hash_type =>
       match hash_type with
       | HASH_TYPE_MD5 => "md5-" +:+ digest
       | HASH_TYPE_SHA256 => "sha256-" +:+ digest
       end;
     node_bytes := bytes;
     node_is_tarfile := is_tar;
     node_gzip_readable := is_gzip;
     node_tar_members := members;
     node_pil_format := None;
     node_is_utf8 := false |}.

(** [paper.tex] *)
Definition sample_name_paper_tex : list byte :=
  [x70; x61; x70; x65; x72; x2e; x74; x65; x78].

Definition sample_fs : fs_state :=
  {| fs_files :=
       list_to_map
         [ (* a bulk archive holding one submission *)
           ("/data/arXiv_src_9902_005.tar",
            sample_node [x68; x65; x70] true false
              [ {| ti_name := "hep-th9902001.gz"; ti_isfile := true |} ]
              "a1" "2025-04-07T08:58:03+00:00");
           (* a bulk archive with a member outside the naming rules *)
           ("/data/arXiv_src_9902_006.tar",
            sample_node [x68; x65; x71] true false
              [ {| ti_name := "notes.txt"; ti_isfile := true |} ]
              "a2" "2025-04-07T08:58:03+00:00");
           (* a gzip submission naming paper.tex *)
           ("/in/1202.3054.gz",
            sample_node (sample_gzip_bytes x08 [] sample_name_paper_tex) false true []
              "b1" "2025-04-07T08:58:03+00:00");
           (* the same bytes under two other names *)
           ("/in/1202.3055.gz",
            sample_node (sample_gzip_bytes x08 [] sample_name_paper_tex) false true []
              "b1" "2025-04-07T08:58:03+00:00");
           ("/in/1202.3056.gz",
            sample_node (sample_gzip_bytes x08 [] sample_name_paper_tex) false true []
              "b1" "2025-04-07T08:58:03+00:00");
           (* submissions that are not archives at all, with equal bytes *)
           ("/in/1202.4001.gz",
            sample_node [x6e; x6f] false false [] "c1" "2025-04-07T08:58:03+00:00");
           ("/in/1202.4002.gz",
            sample_node [x6e; x6f] false false [] "c1" "2025-04-07T08:58:03+00:00");
           (* a gzip file whose recorded name is the Latin-1 byte E9 *)
           ("/in/1202.5001.gz",
            sample_node (sample_gzip_bytes x08 [] [xe9]) false true []
              "d1" "2025-04-07T08:58:03+00:00");
           (* a gzip file with an extra field of two bytes before the name *)
           ("/in/1202.5002.gz",
            sample_node (sample_gzip_bytes x0c [x02; x00; xaa; xbb] sample_name_paper_tex)
              false true [] "d2" "2025-04-07T08:58:03+00:00");
           (* a gzip-classified file with a wrong first magic byte *)
           ("/in/1202.5003.gz",
            sample_node (x00 :: tail (sample_gzip_bytes x08 [] sample_name_paper_tex))
              false true [] "d3" "2025-04-07T08:58:03+00:00");
           (* a tar archive with a member that climbs out *)
           ("/in/evil.tar",
            sample_node [x65] true false
              [ {| ti_name := "../x"; ti_isfile := true |} ]
              "e1" "2025-04-07T08:58:03+00:00") ];
     fs_directories := {[ "/" ]};
     fs_cwd := ["home"; "user"] |}.

(** The entry [register_submission] computes for a file of [sample_fs]
    held by the bulk archive ["bulk"]. *)
Definition sample_submission_entry (file_path : string) : option SubmissionEntry :=
  match SubmissionHandler.generate_registry_entry (handlers := sample_handlers)
          sample_fs file_path "bulk" with
  | Ok (_, entry, errors) => Some (SubmissionRegistry.attach_errors entry errors)
  | _ => None
  end.

(** Two manifests: the later one adds key [b] to the earlier one. *)
Definition sample_manifest_old : ManifestState :=
  sample_manifest "2025-04-07T08:58:03+00:00" ["a"].
Definition sample_manifest_new : ManifestState :=
  sample_manifest "2025-05-07T08:58:03+00:00" ["a"; "b"].

(** Registries obtained by registering files of [sample_fs] in turn. *)
Definition sample_register (file_paths : list string)
  : result unit * gmap string SubmissionEntry :=
  SubmissionRegistry.register_submissions (handlers := sample_handlers)
    (map (fun file_path => (sample_fs, file_path, "bulk")) file_paths) ∅.

Definition sample_archives : result unit * gmap string BulkArchiveEntry :=
  BulkArchiveRegistry.register_bulk_archive (handlers := sample_handlers)
    sample_fs "/data/arXiv_src_9902_005.tar" ∅.

(** ** What the registrars keep true of a registry *)

(** A submission entry as [register_submission] stores it under [key]:
    the key is the SHA256 digest recorded in the metadata, the recorded
    file name follows the naming rules of submissions, and the origin URL
    is the one generated from that name. *)
Definition submission_entry_wf (key : string) (entry : SubmissionEntry) : Prop :=
  hash (sub_metadata entry) !! "SHA256" = Some key
  /\ SubmissionHandler.is_submission_filename (filename (sub_metadata entry)) = true
  /\ SubmissionHandler.generate_url_for_submission_filename
       (filename (sub_metadata entry))
     = Ok (origin_url (sub_origin entry)).

Definition submission_registry_wf (registry : gmap string SubmissionEntry) : Prop :=
  forall key entry, registry !! key = Some entry -> submission_entry_wf key entry.

(** A bulk archive entry as [register_bulk_archive] stores it under
    [key]: the key is the SHA256 digest recorded in the metadata, the
    recorded file name follows the naming rule of bulk archives, and the
    origin is that name in the source bucket. *)
Definition bulk_archive_entry_wf (key : string) (entry : BulkArchiveEntry) : Prop :=
  hash (bulk_metadata entry) !! "SHA256" = Some key
  /\ BulkArchiveHandler.is_bulk_archive_filename (filename (bulk_metadata entry)) = true
  /\ origin_uri (bulk_origin entry)
     = "s3://arxiv/src/" +:+ filename (bulk_metadata entry).

(** Every entry is as the registrar stores it, and no file name is
    registered under two keys. *)
Definition bulk_archive_registry_wf (registry : gmap string BulkArchiveEntry) : Prop :=
  (forall key entry, registry !! key = Some entry -> bulk_archive_entry_wf key entry)
  /\ (forall key1 key2 entry1 entry2,
        registry !! key1 = Some entry1 -> registry !! key2 = Some entry2 ->
        filename (bulk_metadata entry1) = filename (bulk_metadata entry2) ->
        key1 = key2).

(** ** The value of a run of decimal digits *)

(** What [int] reads from a text made of the digits [l]. *)
Definition digits_value (l : list ascii) : Z :=
  fold_left (fun acc c => 10 * acc + (Str.code c - 48)) l 0.

(** ** Sample data: a manifest file, a decompressor, a writer *)

(** The two timestamps of the sample manifest, moved from New York to
    UTC. *)
Definition sample_eastern_to_utc_iso (format timestamp : string) : result string :=
  if bool_decide (timestamp = "Mon Apr  7 04:58:03 2025")
  then Ok "2025-04-07T08:58:03+00:00"
  else if bool_decide (timestamp = "2017-08-05 06:13:16")
  then Ok "2017-08-05T10:13:16+00:00"
  else Raise (ValueError "time data does not match format").

Definition sample_file_element : Xml :=
  XmlDict [ ("content_md5sum", XmlStr "5f4774a944c17e67f334ebb9bf912dbf");
            ("filename", XmlStr "src/arXiv_src_1508_002.tar");
            ("first_item", XmlStr "1508.00577");
            ("last_item", XmlStr "1508.01014");
            ("md5sum", XmlStr "271195f030a45b84d397dc8c540bde7f");
            ("num_items", XmlStr "438");
            ("seq_num", XmlStr "2");
            ("size", XmlStr "537749445");
            ("timestamp", XmlStr "2017-08-05 06:13:16");
            ("yymm", XmlStr "1508") ].

Definition sample_xml_dict : list (string * Xml) :=
  [ ("arXivSRC",
     XmlDict [ ("timestamp", XmlStr "Mon Apr  7 04:58:03 2025");
               ("file", XmlList [sample_file_element]) ]) ].

(** The entry [_process_file_entry] makes of the sample element. *)
Definition sample_processed_entry : ManifestEntry :=
  {| me_filename := "src/arXiv_src_1508_002.tar";
     me_size_bytes := 537749445;
     me_timestamp_iso := "2017-08-05T10:13:16+00:00";
     me_year := 2015;
     me_month := 8;
     me_sequence_number := 2;
     me_n_submissions := 438;
     me_hash_MD5 := "271195f030a45b84d397dc8c540bde7f";
     me_hash_MD5_contents := "5f4774a944c17e67f334ebb9bf912dbf" |}.



(** A decompressor that gives two bytes for every file, and a writer that
    creates the file. *)
Definition sample_gzip_read (fs : fs_state) (file_path : string)
  : result (list byte) := Ok [x68; x69].

Definition sample_write_file (fs : fs_state) (file_path : string)
    (buffer : list byte) : result unit * fs_state :=
  (Ok tt,
   {| fs_files :=
        <[file_path := sample_node buffer false false [] "w1"
                                   "2025-05-07T08:58:03+00:00"]> (fs_files fs);
      fs_directories := fs_directories fs;
      fs_cwd := fs_cwd fs |}).

Definition sample_tar_extract (fs : fs_state) (source_file_path : string)
    (member : TarInfo) (destination_directory : string) : result unit * fs_state :=
  sample_write_file fs (os_path.join destination_directory (ti_name member)) [].

(** A command line that prints nothing and succeeds. *)
Definition sample_aws (command_list : list string) : result string := Ok "".

(** * Outcomes *)

(** Unfolding the sequencing of calls, without touching what is called. *)
Ltac step_result :=
  unfold mbind, mret, result_mbind, result_mret, result_bind; cbv beta iota.

Lemma raises_Raise {A} (e : exn) : raises (Raise e : result A).
Proof. by exists e. Qed.

Lemma not_raises_Ok {A} (a : A) : ¬ raises (Ok a).
Proof. intros [e He]. discriminate. Qed.

Lemma raises_Raise_iff {A} (e : exn) : raises (Raise e : result A) <-> True.
Proof. split; [done|]. intros _. apply raises_Raise. Qed.

Lemma raises_Ok_iff {A} (a : A) : raises (Ok a) <-> False.
Proof. split; [apply not_raises_Ok|done]. Qed.

Lemma bind_Ok_inv {A B} (r : result A) (f : A -> result B) (b : B) :
  (r ≫= f) = Ok b -> exists a, r = Ok a /\ f a = Ok b.
Proof. destruct r; step_result; intros Hb; try discriminate. eauto. Qed.

(** * Manifest *)
Section manifest.
Context `{clock : !DateTime}.

Lemma size_difference_common (X Y : gset string) :
  size (X ∖ (X ∩ Y)) = 0%nat <-> X ⊆ Y.
Proof.
  rewrite size_empty_iff. split.
  - intros Hempty x Hx. destruct (decide (x ∈ Y)) as [|Hn]; [done|].
    exfalso. apply (not_elem_of_empty (C:=gset string) x), Hempty.
    apply elem_of_difference. split; [done|].
    intros [_ ?]%elem_of_intersection. done.
  - intros Hsub x. split; [|by intros ?%not_elem_of_empty].
    intros [Hx Hn]%elem_of_difference. exfalso. apply Hn.
    apply elem_of_intersection. split; [done|]. by apply Hsub.
Qed.

Lemma size_difference_common_r (X Y : gset string) :
  size (Y ∖ (X ∩ Y)) = 0%nat <-> Y ⊆ X.
Proof.
  replace (X ∩ Y) with (Y ∩ X) by (apply leibniz_equiv, intersection_comm; apply _).
  apply size_difference_common.
Qed.

Lemma zero_size_difference_common (X Y : gset string) :
  bool_decide (size (X ∖ (X ∩ Y)) = 0%nat) = bool_decide (X ⊆ Y).
Proof. apply bool_decide_ext, size_difference_common. Qed.

Lemma zero_size_difference_common_r (X Y : gset string) :
  bool_decide (size (Y ∖ (X ∩ Y)) = 0%nat) = bool_decide (Y ⊆ X).
Proof. apply bool_decide_ext, size_difference_common_r. Qed.

Lemma pos_size_difference_common (X Y : gset string) :
  (0 <? size (X ∖ (X ∩ Y)))%nat = negb (bool_decide (X ⊆ Y)).
Proof.
  rewrite <- zero_size_difference_common.
  destruct (size (X ∖ (X ∩ Y))); reflexivity.
Qed.

Lemma pos_size_difference_common_r (X Y : gset string) :
  (0 <? size (Y ∖ (X ∩ Y)))%nat = negb (bool_decide (Y ⊆ X)).
Proof.
  rewrite <- zero_size_difference_common_r.
  destruct (size (Y ∖ (X ∩ Y))); reflexivity.
Qed.




Lemma is_newer_than_unfold (a b : ManifestState) (ta tb : string) (ia ib : Z) :
  manifest_timestamp a = Some ta ->
  manifest_timestamp b = Some tb ->
  datetime_fromisoformat ta = Some ia ->
  datetime_fromisoformat tb = Some ib ->
  Manifest.is_newer_than a b =
    let Ka := Manifest.list_keys a in
    let Kb := Manifest.list_keys b in
    if bool_decide (ta = tb) then
      if bool_decide (Ka ⊆ Kb) && bool_decide (Kb ⊆ Ka) then Ok false
      else Raise (ValueError
           "Inconsistent manifest metadata, manifests with identical times must have identical keys")
    else if ib <? ia then
      if bool_decide (Ka ⊆ Kb)
      then Raise (ValueError
             "Inconsistent manifest metadata, newer manifest must have at least one new entry")
      else if bool_decide (Kb ⊆ Ka) then Ok true
      else Raise (ValueError
             "Inconsistent manifest metadata, newer manifest cannot have entries deleted")
    else
      if bool_decide (Kb ⊆ Ka)
      then Raise (ValueError
             "Inconsistent manifest metadata, newer manifest must have at least one new entry")
      else if bool_decide (Ka ⊆ Kb) then Ok false
      else Raise (ValueError
             "Inconsistent manifest metadata, newer manifest cannot have entries deleted").
Proof.
  intros Ha Hb Hia Hib. unfold manifest_timestamp in *.
  unfold Manifest.is_newer_than, dict_getitem. rewrite Ha, Hb. step_result.
  unfold TimeService.is_iso_timestamp_newer, TimeService.fromisoformat.
  rewrite Hia, Hib. step_result.
  rewrite zero_size_difference_common, zero_size_difference_common_r,
    pos_size_difference_common, pos_size_difference_common_r.
  destruct (bool_decide (ta = tb)); [|destruct (ib <? ia)];
    destruct (bool_decide (Manifest.list_keys a ⊆ Manifest.list_keys b));
    destruct (bool_decide (Manifest.list_keys b ⊆ Manifest.list_keys a));
    reflexivity.
Qed.



End manifest.

(** * Archive format classification *)

Lemma is_file_node (fs : fs_state) (file_path : string) :
  FileSystem.is_file fs file_path = true <->
  exists n, fs_files fs !! file_path = Some n.
Proof.
  unfold FileSystem.is_file. rewrite bool_decide_eq_true. reflexivity.
Qed.

Lemma node_of_file (fs : fs_state) (file_path : string) (n : FileNode) :
  fs_files fs !! file_path = Some n ->
  FileSystem.is_file fs file_path = true /\ FileSystem.node fs file_path = Ok n.
Proof.
  intros Hn. split; [apply is_file_node; eauto|].
  unfold FileSystem.node. by rewrite Hn.
Qed.

Lemma archive_formats_of_node (fs : fs_state) (file_path : string) (n : FileNode) :
  fs_files fs !! file_path = Some n ->
  let tar := node_is_tarfile n in
  let gz := node_gzip_readable n in
  ArchiveHandler.is_tar_format fs file_path = Ok (tar && negb gz)
  /\ ArchiveHandler.is_gzip_format fs file_path = Ok (gz && negb tar)
  /\ ArchiveHandler.is_tgz_format fs file_path = Ok (gz && tar)
  /\ ArchiveHandler.get_file_type_from_format fs file_path
     = Ok (if tar then if gz then FILE_TYPE_ARCHIVE_TGZ else FILE_TYPE_ARCHIVE_TAR
           else if gz then FILE_TYPE_ARCHIVE_GZ else FILE_TYPE_UNKNOWN).
Proof.
  intros Hn tar gz. destruct (node_of_file _ _ _ Hn) as [Hfile Hnode].
  assert (Ht : ArchiveHandler.is_tar_format fs file_path = Ok (tar && negb gz)).
  { unfold ArchiveHandler.is_tar_format, ArchiveHandler._is_tar_or_tgz_format,
      ArchiveHandler._is_gzip_or_tgz_format. rewrite Hfile, Hnode. reflexivity. }
  assert (Hg : ArchiveHandler.is_gzip_format fs file_path = Ok (gz && negb tar)).
  { unfold ArchiveHandler.is_gzip_format, ArchiveHandler._is_tar_or_tgz_format,
      ArchiveHandler._is_gzip_or_tgz_format. rewrite Hfile, Hnode. reflexivity. }
  assert (Hz : ArchiveHandler.is_tgz_format fs file_path = Ok (gz && tar)).
  { unfold ArchiveHandler.is_tgz_format, ArchiveHandler._is_tar_or_tgz_format,
      ArchiveHandler._is_gzip_or_tgz_format. rewrite Hfile, Hnode. reflexivity. }
  repeat split; try assumption.
  unfold ArchiveHandler.get_file_type_from_format. rewrite Ht, Hg, Hz.
  destruct tar, gz; reflexivity.
Qed.


(** * Extraction safety *)

Lemma size_list_to_set_le (l : list string) :
  (size (list_to_set l : gset string) <= List.length l)%nat.
Proof.
  induction l as [|x l IH]; [rewrite list_to_set_nil, size_empty; done|].
  rewrite list_to_set_cons. cbn [List.length].
  rewrite size_union_alt, size_singleton.
  assert (size (list_to_set l ∖ {[x]} : gset string) <= size (list_to_set l : gset string))%nat
    by (apply subseteq_size, subseteq_difference_l; reflexivity).
  lia.
Qed.

Lemma size_list_to_set_NoDup (l : list string) :
  size (list_to_set l : gset string) = List.length l -> NoDup l.
Proof.
  induction l as [|x l IH]; [constructor|].
  rewrite list_to_set_cons. cbn [List.length]. intros Hsize.
  pose proof (size_list_to_set_le l) as Hle.
  destruct (decide (x ∈ l)) as [Hin|Hnin].
  - exfalso.
    assert (({[x]} ∪ list_to_set l : gset string) = list_to_set l) as Heq
      by (apply subseteq_union_1_L, singleton_subseteq_l, elem_of_list_to_set, Hin).
    rewrite Heq in Hsize. lia.
  - constructor; [done|]. apply IH.
    rewrite size_union in Hsize
      by (apply disjoint_singleton_l; rewrite elem_of_list_to_set; exact Hnin).
    rewrite size_singleton in Hsize. lia.
Qed.

Lemma is_filename_list_unique_collision (names : list string) (i j : nat) (a b : string) :
  i <> j -> names !! i = Some a -> names !! j = Some b ->
  Str.lower a = Str.lower b ->
  FileName.is_filename_list_unique names true false = false.
Proof.
  intros Hij Ha Hb Hlower. unfold FileName.is_filename_list_unique.
  apply bool_decide_eq_false. intros Hsize%size_list_to_set_NoDup.
  apply Hij. eapply (NoDup_lookup _ i j (Str.lower a) Hsize).
  - rewrite list_lookup_fmap, list_lookup_fmap, Ha. reflexivity.
  - rewrite list_lookup_fmap, list_lookup_fmap, Hb, Hlower. reflexivity.
Qed.

Lemma is_path_characters_allowed_dotdot (name : string) :
  ".." ∈ Str.split "/" name -> FileName.is_path_characters_allowed name = false.
Proof.
  intros Hin. unfold FileName.is_path_characters_allowed.
  apply not_true_is_false. intros Hall.
  rewrite forallb_forall in Hall.
  specialize (Hall ".."). rewrite <- list_elem_of_In in Hall.
  specialize (Hall Hin). rewrite andb_true_iff in Hall. destruct Hall as [_ Hneg].
  vm_compute in Hneg. discriminate.
Qed.

Lemma is_filename_allowed_dotdot (fs : fs_state) (name : string) :
  ".." ∈ Str.split "/" name -> FileName.is_filename_allowed fs name = false.
Proof.
  intros Hin. unfold FileName.is_filename_allowed.
  rewrite (is_path_characters_allowed_dotdot name Hin).
  rewrite andb_false_r. reflexivity.
Qed.

(** C6. With the source file and the destination directory in place, an
    archive whose member names hold a name with a [..] segment, or two
    names equal once lower-cased, gets a non-empty error list from
    [check_extract_possible], and [is_extract_possible] answers [False]. *)
Theorem check_extract_possible_rejects_unsafe_members
    (fs : fs_state) (source_file_path destination_directory : string)
    (names : list string) :
  FileSystem.is_file fs source_file_path = true ->
  FileSystem.is_directory fs destination_directory = true ->
  ArchiveHandler.list_contents fs source_file_path = Ok names ->
  (exists name, name ∈ names /\ ".." ∈ Str.split "/" name)
  \/ (exists i j a b, i <> j /\ names !! i = Some a /\ names !! j = Some b
                      /\ Str.lower a = Str.lower b) ->
  exists errors,
    ArchiveHandler.check_extract_possible fs source_file_path destination_directory
    = Ok errors
    /\ errors <> []
    /\ ArchiveHandler.is_extract_possible fs source_file_path destination_directory
       = Ok false.
Proof.
  intros Hfile Hdir Hnames Hunsafe.
  assert (Hbad : FileName.is_filename_list_unique names true false = false
                 \/ forallb (FileName.is_filename_allowed fs) names = false).
  { destruct Hunsafe as [(name & Hin & Hdots)|(i & j & a & b & Hij & Ha & Hb & Hl)].
    - right. apply not_true_is_false. intros Hall. rewrite forallb_forall in Hall.
      specialize (Hall name). rewrite <- list_elem_of_In in Hall.
      rewrite (is_filename_allowed_dotdot fs name Hdots) in Hall.
      specialize (Hall Hin). discriminate.
    - left. eapply is_filename_list_unique_collision; eauto. }
  unfold ArchiveHandler.is_extract_possible, ArchiveHandler.check_extract_possible.
  rewrite Hfile, Hdir, Hnames. step_result. cbn [negb andb app].
  destruct (FileName.is_filename_list_unique names true false),
    (forallb (FileName.is_filename_allowed fs) names);
    cbn [negb andb app]; try (destruct Hbad; discriminate);
    (eexists; split; [reflexivity|]; split; [discriminate|reflexivity]).
Qed.

(** * The gzip header reader *)










(** * Metadata and registry entries *)

Section metadata.
Context `{handlers : !ExternalHandlers}.

Lemma archive_format_returns (fs : fs_state) (file_path : string) :
  ArchiveHandler.get_file_type_from_format fs file_path <> NoReturn.
Proof.
  destruct (fs_files fs !! file_path) as [n|] eqn:Hn.
  - destruct (archive_formats_of_node fs file_path n Hn) as (_ & _ & _ & ->).
    discriminate.
  - unfold ArchiveHandler.get_file_type_from_format, ArchiveHandler.is_tar_format,
      FileSystem.is_file. rewrite Hn.
    rewrite bool_decide_eq_false_2 by (intros [? ?]; discriminate). discriminate.
Qed.

Lemma image_format_returns (fs : fs_state) (file_path : string) :
  ImageHandler.get_file_type_from_format fs file_path <> NoReturn.
Proof.
  unfold ImageHandler.get_file_type_from_format, FileSystem.node.
  destruct (FileSystem.is_file fs file_path); [|discriminate].
  destruct (fs_files fs !! file_path) as [n|]; step_result; [|discriminate].
  destruct (node_pil_format n); discriminate.
Qed.

Lemma tex_format_returns (fs : fs_state) (file_path : string) :
  TexHandler.get_file_type_from_format fs file_path <> NoReturn.
Proof.
  unfold TexHandler.get_file_type_from_format, FileSystem.is_utf8_encoded,
    FileSystem.node.
  destruct (FileSystem.is_file fs file_path); [|discriminate].
  destruct (fs_files fs !! file_path) as [n|]; step_result; [|discriminate].
  destruct (node_is_utf8 n); [|discriminate].
  repeat case_match; discriminate.
Qed.

Lemma file_handlers_return (handler : Handler) (fs : fs_state) (file_path : string) :
  handler ∈ FileHandler._file_handlers ->
  handler_type_from_format handler fs file_path <> NoReturn.
Proof.
  unfold FileHandler._file_handlers. intros Hin.
  repeat (apply elem_of_cons in Hin as [->|Hin]).
  - apply archive_format_returns.
  - apply image_format_returns.
  - apply external_handlers_return, list_elem_of_here.
  - apply external_handlers_return, list_elem_of_further, list_elem_of_here.
  - apply tex_format_returns.
  - apply external_handlers_return.
    apply list_elem_of_further, list_elem_of_further, list_elem_of_here.
  - by apply elem_of_nil in Hin.
Qed.

Lemma first_known_format_returns (fs : fs_state) (file_path : string)
    (candidates : list Handler) (file_type : FileType) :
  (forall handler, handler ∈ candidates -> handler ∈ FileHandler._file_handlers) ->
  FileHandler.first_known_format fs file_path candidates file_type <> NoReturn.
Proof.
  revert file_type. induction candidates as [|handler candidates IH];
    intros file_type Hsub; cbn [FileHandler.first_known_format]; [discriminate|].
  pose proof (file_handlers_return handler fs file_path
                (Hsub handler (list_elem_of_here _ _))) as Hret.
  destruct (handler_type_from_format handler fs file_path) as [t| |];
    step_result; [|discriminate|done].
  case_bool_decide; [discriminate|].
  apply IH. intros h Hh. apply Hsub. by apply list_elem_of_further.
Qed.

Lemma get_file_type_from_format_returns (fs : fs_state) (file_path : string)
    (use_extension : bool) :
  FileHandler.get_file_type_from_format fs file_path use_extension <> NoReturn.
Proof.
  unfold FileHandler.get_file_type_from_format.
  destruct (FileSystem.is_file fs file_path); [|discriminate]. cbn [negb].
  apply first_known_format_returns. intros handler.
  destruct use_extension; [|done].
  unfold FileHandler._get_file_handlers_from_extension, FileHandler._get_file_handlers.
  rewrite !list_elem_of_In. intros [Hin _]%filter_In. exact Hin.
Qed.

Lemma get_metadata_of_node (fs : fs_state) (file_path : string) (n : FileNode) :
  fs_files fs !! file_path = Some n ->
  FileHandler.get_metadata fs file_path [HASH_TYPE_MD5; HASH_TYPE_SHA256]
  = (format ← FileHandler.get_file_type_from_format fs file_path true;
     mret (metadata_of file_path n format)).
Proof.
  intros Hn. destruct (node_of_file _ _ _ Hn) as [Hfile Hnode].
  unfold FileHandler.get_metadata, FileSystem.get_file_size,
    FileSystem.get_file_timestamp. rewrite Hfile. cbn [negb].
  rewrite Hnode. step_result.
  unfold mapM, HashService.calculate_file_hash. rewrite Hnode. step_result.
  reflexivity.
Qed.

Lemma metadata_of_key (file_path : string) (n : FileNode) (format : FileType) :
  dict_getitem (hash (metadata_of file_path n format)) "SHA256"
  = Ok (node_hash n HASH_TYPE_SHA256).
Proof.
  unfold dict_getitem, metadata_of. cbn [hash]. rewrite lookup_insert_eq. reflexivity.
Qed.
End metadata.

(** * The bulk archive registrar *)

Section bulk_registrar.
Context `{handlers : !ExternalHandlers}.

Lemma find_bulk_archive_filename_registered (file_path key : string)
    (entry : BulkArchiveEntry) (registry : gmap string BulkArchiveEntry) :
  registry !! key = Some entry ->
  filename (bulk_metadata entry) = FileName.get_file_basename file_path ->
  BulkArchiveRegistry.find_bulk_archive_filename file_path registry <> None.
Proof.
  intros Hkey Hname. unfold BulkArchiveRegistry.find_bulk_archive_filename.
  assert (Hin : In (key, entry)
            (List.filter
               (fun kv => bool_decide (filename (bulk_metadata kv.2)
                                       = FileName.get_file_basename file_path))
               (map_to_list registry))).
  { apply filter_In. split.
    - apply list_elem_of_In, elem_of_map_to_list, Hkey.
    - cbn. by apply bool_decide_eq_true. }
  destruct (List.filter _ (map_to_list registry)) as [|kv l]; [destruct Hin|].
  discriminate.
Qed.

(** What a returned triple of [generate_registry_entry] is made of. *)
Lemma bulk_generate_registry_entry_inv (fs : fs_state) (file_path key : string)
    (entry : BulkArchiveEntry) (errors : list string) :
  BulkArchiveHandler.generate_registry_entry fs file_path = Ok (key, entry, errors) ->
  BulkArchiveHandler.check_bulk_archive fs file_path = Ok errors
  /\ filename (bulk_metadata entry) = FileName.get_file_basename file_path.
Proof.
  unfold BulkArchiveHandler.generate_registry_entry.
  destruct (FileSystem.is_file fs file_path) eqn:Hfile; [|discriminate]. cbn [negb].
  apply is_file_node in Hfile as [n Hn].
  intros (errs & Hcheck & Hrest)%bind_Ok_inv.
  apply bind_Ok_inv in Hrest as (uri & Huri & Hrest).
  rewrite (get_metadata_of_node fs file_path n Hn) in Hrest.
  apply bind_Ok_inv in Hrest as (metadata & Hmeta & Hrest).
  apply bind_Ok_inv in Hmeta as (format & Hformat & Hmeta).
  apply bind_Ok_inv in Hrest as (registry_key & Hkey & Hrest).
  injection Hmeta as <-. injection Hrest as <- <- <-. split; [exact Hcheck|reflexivity].
Qed.

(** C2. A bulk archive whose list of validation errors is not empty is
    not registered: the call raises and the registry is as it was. *)
Theorem register_bulk_archive_fails_closed (fs : fs_state) (file_path : string)
    (registry : gmap string BulkArchiveEntry) (errors : list string) :
  BulkArchiveHandler.check_bulk_archive fs file_path = Ok errors ->
  errors <> [] ->
  exists e,
    BulkArchiveRegistry.register_bulk_archive fs file_path registry
    = (Raise e, registry).
Proof.
  intros Hcheck Herrors. unfold BulkArchiveRegistry.register_bulk_archive.
  destruct (FileSystem.is_file fs file_path) eqn:Hfile; cbn [negb]; [|eauto].
  destruct (BulkArchiveHandler.is_bulk_archive_filename file_path) eqn:Hname;
    cbn [negb]; [|eauto].
  case_bool_decide; [eauto|].
  unfold BulkArchiveHandler.generate_registry_entry,
    BulkArchiveHandler.generate_uri_for_bulk_archive_filename.
  rewrite Hfile, Hcheck, Hname. cbn [negb]. step_result.
  apply is_file_node in Hfile as [n Hn].
  rewrite (get_metadata_of_node fs file_path n Hn).
  pose proof (get_file_type_from_format_returns fs file_path true) as Hreturns.
  destruct (FileHandler.get_file_type_from_format fs file_path true) as [format|e|];
    step_result; [|eauto|done].
  rewrite metadata_of_key.
  destruct errors as [|error errors]; [done|]. cbn [List.length Nat.ltb Nat.leb].
  eauto.
Qed.
End bulk_registrar.

Lemma register_bulk_archive_fails_closed_witness :
  exists e,
    BulkArchiveRegistry.register_bulk_archive (handlers := sample_handlers)
      sample_fs "/data/arXiv_src_9902_006.tar" ∅
    = (Raise e, ∅).
Proof.
  apply (register_bulk_archive_fails_closed (handlers := sample_handlers)
           sample_fs "/data/arXiv_src_9902_006.tar" ∅
           ["Archive entries do not match submission filename pattern: notes.txt"]).
  - vm_compute. reflexivity.
  - discriminate.
Defined.

(** * Registering the same file twice *)

Section register_twice.
Context `{handlers : !ExternalHandlers}.

Lemma attach_errors_metadata (entry : SubmissionEntry) (errors : list string) :
  sub_metadata (SubmissionRegistry.attach_errors entry errors) = sub_metadata entry.
Proof.
  unfold SubmissionRegistry.attach_errors. by destruct (0 <? List.length errors)%nat.
Qed.

Lemma is_key_present_lookup {V} (key : string) (registry : gmap string V) :
  Registry.is_key_present key registry = true <-> is_Some (registry !! key).
Proof. unfold Registry.is_key_present. apply bool_decide_eq_true. Qed.

Lemma get_entry_lookup {V} (key : string) (registry : gmap string V) (entry : V) :
  registry !! key = Some entry -> Registry.get_entry key registry = Ok entry.
Proof. intros Hkey. unfold Registry.get_entry. by rewrite Hkey. Qed.

(** A second registration of a submission, the first having stored the
    file's entry or met an entry with the file's metadata, changes
    nothing. *)
Lemma register_submission_twice (fs : fs_state) (file_path bulk_archive_key : string)
    (registry registry' : gmap string SubmissionEntry) :
  SubmissionRegistry.register_submission fs file_path bulk_archive_key registry
  = (Ok tt, registry') ->
  (forall key entry errors existing,
      SubmissionHandler.generate_registry_entry fs file_path bulk_archive_key
      = Ok (key, entry, errors) ->
      registry !! key = Some existing ->
      sub_metadata existing = sub_metadata entry) ->
  SubmissionRegistry.register_submission fs file_path bulk_archive_key registry'
  = (Ok tt, registry')
  /\ exists key entry errors stored,
      SubmissionHandler.generate_registry_entry fs file_path bulk_archive_key
      = Ok (key, entry, errors)
      /\ registry' !! key = Some stored
      /\ sub_metadata stored = sub_metadata entry.
Proof.
  unfold SubmissionRegistry.register_submission.
  destruct (FileSystem.is_file fs file_path); cbn [negb]; [|discriminate].
  destruct (SubmissionHandler.is_submission_filename file_path);
    cbn [negb]; [|discriminate].
  destruct (SubmissionHandler.generate_registry_entry fs file_path bulk_archive_key)
    as [[[key entry] errors]|e|] eqn:Hgen; [|discriminate..].
  intros Hfirst Hsame.
  destruct (Registry.is_key_present key registry) eqn:Hpresent.
  - apply is_key_present_lookup in Hpresent as [existing Hexisting].
    rewrite (get_entry_lookup _ _ _ Hexisting) in Hfirst.
    rewrite bool_decide_eq_false_2 in Hfirst
      by (rewrite attach_errors_metadata; intros Hne; apply Hne; eauto).
    injection Hfirst as <-.
    rewrite (proj2 (is_key_present_lookup key registry)) by eauto.
    rewrite (get_entry_lookup _ _ _ Hexisting).
    rewrite bool_decide_eq_false_2
      by (rewrite attach_errors_metadata; intros Hne; apply Hne; eauto).
    split; [reflexivity|]. exists key, entry, errors, existing. eauto.
  - unfold Registry.add_entry in Hfirst. rewrite Hpresent in Hfirst.
    injection Hfirst as <-.
    rewrite (proj2 (is_key_present_lookup key _))
      by (rewrite lookup_insert_eq; eauto).
    rewrite (get_entry_lookup _ _ (SubmissionRegistry.attach_errors entry errors))
      by apply lookup_insert_eq.
    rewrite bool_decide_eq_false_2 by (intros Hne; by apply Hne).
    split; [reflexivity|].
    exists key, entry, errors, (SubmissionRegistry.attach_errors entry errors).
    split; [reflexivity|]. split; [apply lookup_insert_eq|apply attach_errors_metadata].
Qed.

(** A second registration of a bulk archive is turned away by the check
    on registered file names. *)
Lemma register_bulk_archive_twice (fs : fs_state) (file_path : string)
    (registry registry' : gmap string BulkArchiveEntry) :
  BulkArchiveRegistry.register_bulk_archive fs file_path registry = (Ok tt, registry') ->
  BulkArchiveRegistry.register_bulk_archive fs file_path registry'
  = (Raise (ValueError ("File '" +:+ file_path +:+ "' is already registered.")),
     registry')
  /\ exists key entry,
      BulkArchiveHandler.generate_registry_entry fs file_path = Ok (key, entry, [])
      /\ registry' !! key = Some entry
      /\ forall other, other <> key -> registry' !! other = registry !! other.
Proof.
  unfold BulkArchiveRegistry.register_bulk_archive.
  destruct (FileSystem.is_file fs file_path); cbn [negb]; [|discriminate].
  destruct (BulkArchiveHandler.is_bulk_archive_filename file_path);
    cbn [negb]; [|discriminate].
  case_bool_decide as Hfound; [discriminate|].
  destruct (BulkArchiveHandler.generate_registry_entry fs file_path)
    as [[[key entry] errors]|e|] eqn:Hgen; [|discriminate..].
  destruct errors as [|error errors]; [|discriminate]. cbn [List.length Nat.ltb Nat.leb].
  intros Hfirst.
  destruct (bulk_generate_registry_entry_inv _ _ _ _ _ Hgen) as [_ Hname].
  assert (Hstored : registry' !! key = Some entry
                    /\ forall other, other <> key -> registry' !! other = registry !! other).
  { destruct (Registry.is_key_present key registry) eqn:Hpresent.
    - apply is_key_present_lookup in Hpresent as [existing Hexisting].
      rewrite (get_entry_lookup _ _ _ Hexisting) in Hfirst.
      case_bool_decide as Hsame; [discriminate|].
      injection Hfirst as <-. split; [|done].
      rewrite Hexisting. f_equal. destruct (decide (existing = entry)); [done|].
      by destruct Hsame.
    - unfold Registry.add_entry in Hfirst. rewrite Hpresent in Hfirst.
      injection Hfirst as <-. split; [apply lookup_insert_eq|].
      intros other Hother. by apply lookup_insert_ne. }
  destruct Hstored as [Hstored Hothers].
  rewrite bool_decide_eq_true_2
    by (eapply find_bulk_archive_filename_registered; eauto).
  split; [reflexivity|]. eauto.
Qed.

(** C1, as the code has it.  A submission registered a second time, the
    first call having stored its entry or met an entry with the same
    metadata, leaves the registry as it is: one entry under the digest
    key, no conflict record, no exception.  A bulk archive registered a
    second time leaves the registry as it is too, with its one entry
    under the digest key, but the call raises [ValueError]: the file
    name is already registered. *)
Theorem register_twice (fs : fs_state) (file_path bulk_archive_key : string)
    (registry registry' : gmap string SubmissionEntry)
    (archive_path : string) (archives archives' : gmap string BulkArchiveEntry) :
  (SubmissionRegistry.register_submission fs file_path bulk_archive_key registry
   = (Ok tt, registry') ->
   (forall key entry errors existing,
       SubmissionHandler.generate_registry_entry fs file_path bulk_archive_key
       = Ok (key, entry, errors) ->
       registry !! key = Some existing ->
       sub_metadata existing = sub_metadata entry) ->
   SubmissionRegistry.register_submission fs file_path bulk_archive_key registry'
   = (Ok tt, registry')
   /\ exists key entry errors stored,
       SubmissionHandler.generate_registry_entry fs file_path bulk_archive_key
       = Ok (key, entry, errors)
       /\ registry' !! key = Some stored
       /\ sub_metadata stored = sub_metadata entry)
  /\ (BulkArchiveRegistry.register_bulk_archive fs archive_path archives
      = (Ok tt, archives') ->
      BulkArchiveRegistry.register_bulk_archive fs archive_path archives'
      = (Raise (ValueError ("File '" +:+ archive_path +:+ "' is already registered.")),
         archives')
      /\ exists key entry,
          BulkArchiveHandler.generate_registry_entry fs archive_path
          = Ok (key, entry, [])
          /\ archives' !! key = Some entry
          /\ forall other, other <> key -> archives' !! other = archives !! other).
Proof.
  split.
  - apply register_submission_twice.
  - apply register_bulk_archive_twice.
Qed.
End register_twice.

(** * The submission registrar *)

Section submission_registrar.
Context `{handlers : !ExternalHandlers}.

Lemma check_submission_classifies (fs : fs_state) (file_path : string)
    (errors : list string) :
  FileSystem.is_file fs file_path = true ->
  SubmissionHandler.is_submission_filename file_path = true ->
  SubmissionHandler.check_submission fs file_path = Ok errors ->
  exists format, FileHandler.get_file_type_from_format fs file_path true = Ok format.
Proof.
  intros Hfile Hname. unfold SubmissionHandler.check_submission.
  rewrite Hname, Hfile. cbn [negb]. rewrite bool_decide_eq_true_2 by reflexivity.
  intros (format & Hformat & _)%bind_Ok_inv. eauto.
Qed.

Lemma generate_url_of_submission_filename (file_path : string) :
  SubmissionHandler.is_submission_filename file_path = true ->
  exists url, SubmissionHandler.generate_url_for_submission_filename file_path = Ok url.
Proof.
  unfold SubmissionHandler.is_submission_filename,
    SubmissionHandler.generate_url_for_submission_filename.
  destruct (SubmissionHandler.parse_old_style_submission_filename file_path)
    as [[[[category yy] mm] number]|]; [eauto|].
  destruct (SubmissionHandler.parse_current_style_submission_filename file_path)
    as [[[yy mm] number]|]; [eauto|discriminate].
Qed.

(** The triple [generate_registry_entry] returns for a submission that
    failed validation: the digest key, the entry with the unknown
    submission type, and the errors as collected. *)
Lemma generate_registry_entry_invalid (fs : fs_state)
    (file_path bulk_archive_key : string) (n : FileNode) (errors : list string) :
  fs_files fs !! file_path = Some n ->
  SubmissionHandler.is_submission_filename file_path = true ->
  SubmissionHandler.check_submission fs file_path = Ok errors ->
  errors <> [] ->
  exists format url,
    FileHandler.get_file_type_from_format fs file_path true = Ok format
    /\ SubmissionHandler.generate_url_for_submission_filename file_path = Ok url
    /\ SubmissionHandler.generate_registry_entry fs file_path bulk_archive_key
       = Ok (node_hash n HASH_TYPE_SHA256,
             {| sub_metadata :=
                  {| filename := FileName.get_file_basename file_path;
                     size_bytes := node_size n;
                     hash := hash (metadata_of file_path n format);
                     timestamp_iso := node_timestamp_iso n;
                     file_type := FileType_value format;
                     submission_type_by_extension :=
                       Some (SubmissionType_value SUBMISSION_TYPE_UNKNOWN) |};
                sub_origin := {| origin_url := url;
                                 origin_bulk_archive_key := bulk_archive_key |};
                sub_diagnostics := None |},
             errors).
Proof.
  intros Hn Hname Hcheck Herrors.
  destruct (node_of_file _ _ _ Hn) as [Hfile _].
  destruct (check_submission_classifies _ _ _ Hfile Hname Hcheck) as [format Hformat].
  destruct (generate_url_of_submission_filename _ Hname) as [url Hurl].
  exists format, url. split; [exact Hformat|]. split; [exact Hurl|].
  unfold SubmissionHandler.generate_registry_entry.
  rewrite Hfile, Hcheck, Hurl. cbn [negb]. step_result.
  rewrite (get_metadata_of_node fs file_path n Hn), Hformat. step_result.
  rewrite metadata_of_key.
  destruct errors as [|error errors]; [done|].
  cbn [List.length Nat.ltb Nat.leb]. step_result.
  rewrite bool_decide_eq_false_2 by discriminate. reflexivity.
Qed.

(** C3, as the code has it.  A submission that exists, carries a valid
    submission name and fails validation is registered all the same when
    its digest key is free: the call returns, and the entry under the key
    carries the collected errors as its [diagnostics.error_log]. *)
Theorem register_submission_fails_open (fs : fs_state)
    (file_path bulk_archive_key : string)
    (registry : gmap string SubmissionEntry) (errors : list string) :
  FileSystem.is_file fs file_path = true ->
  SubmissionHandler.is_submission_filename file_path = true ->
  SubmissionHandler.check_submission fs file_path = Ok errors ->
  errors <> [] ->
  exists n key entry,
    fs_files fs !! file_path = Some n
    /\ key = node_hash n HASH_TYPE_SHA256
    /\ SubmissionHandler.generate_registry_entry fs file_path bulk_archive_key
       = Ok (key, entry, errors)
    /\ (registry !! key = None ->
        SubmissionRegistry.register_submission fs file_path bulk_archive_key registry
        = (Ok tt,
           <[key := {| sub_metadata := sub_metadata entry;
                       sub_origin := sub_origin entry;
                       sub_diagnostics :=
                         Some {| error_log := Some errors;
                                 key_conflicts := None |} |}]> registry)).
Proof.
  intros Hfile Hname Hcheck Herrors.
  destruct (proj1 (is_file_node _ _) Hfile) as [n Hn].
  destruct (generate_registry_entry_invalid fs file_path bulk_archive_key n errors
              Hn Hname Hcheck Herrors) as (format & url & _ & _ & Hgen).
  eexists n, _, _. split; [exact Hn|]. split; [reflexivity|]. split; [exact Hgen|].
  intros Hfree. unfold SubmissionRegistry.register_submission.
  rewrite Hfile, Hname, Hgen. cbn [negb].
  assert (Habsent : Registry.is_key_present (node_hash n HASH_TYPE_SHA256) registry
                    = false).
  { apply not_true_is_false. intros [? Hsome]%is_key_present_lookup. congruence. }
  rewrite Habsent. unfold Registry.add_entry. rewrite Habsent.
  unfold SubmissionRegistry.attach_errors.
  destruct errors as [|error errors]; [done|]. reflexivity.
Qed.
End submission_registrar.

(** C3 as stated fails when the digest key is taken.  Two sample files
    with the same bytes, both failing validation: once the first is
    registered, registering the second returns, but the entry under the
    key is still the first file's, and its error log is not the list
    collected for the second. *)
Lemma register_submission_taken_key_keeps_first_entry :
  FileSystem.is_file sample_fs "/in/1202.4002.gz" = true
  /\ SubmissionHandler.is_submission_filename "/in/1202.4002.gz" = true
  /\ SubmissionHandler.check_submission (handlers := sample_handlers)
       sample_fs "/in/1202.4002.gz"
     = Ok ["File type UNKNOWN not allowed"]
  /\ (n ← FileSystem.node sample_fs "/in/1202.4002.gz";
      mret (node_hash n HASH_TYPE_SHA256)) = Ok "sha256-c1"
  /\ (sample_register ["/in/1202.4001.gz"]).1 = Ok tt
  /\ (SubmissionRegistry.register_submission (handlers := sample_handlers)
        sample_fs "/in/1202.4002.gz" "bulk"
        (sample_register ["/in/1202.4001.gz"]).2).1 = Ok tt
  /\ (fun stored => filename (sub_metadata stored))
       <$> (SubmissionRegistry.register_submission (handlers := sample_handlers)
              sample_fs "/in/1202.4002.gz" "bulk"
              (sample_register ["/in/1202.4001.gz"]).2).2 !! "sha256-c1"
     = Some "1202.4001.gz"
  /\ entry_error_log
       <$> (SubmissionRegistry.register_submission (handlers := sample_handlers)
              sample_fs "/in/1202.4002.gz" "bulk"
              (sample_register ["/in/1202.4001.gz"]).2).2 !! "sha256-c1"
     = Some ["File type UNKNOWN not allowed"; "key conflicts"].
Proof. repeat split; vm_compute; reflexivity. Qed.

Lemma register_submission_fails_open_witness :
  exists n key entry,
    fs_files sample_fs !! "/in/1202.4001.gz" = Some n
    /\ key = node_hash n HASH_TYPE_SHA256
    /\ SubmissionHandler.generate_registry_entry (handlers := sample_handlers)
         sample_fs "/in/1202.4001.gz" "bulk"
       = Ok (key, entry, ["File type UNKNOWN not allowed"])
    /\ ((∅ : gmap string SubmissionEntry) !! key = None ->
        SubmissionRegistry.register_submission (handlers := sample_handlers)
          sample_fs "/in/1202.4001.gz" "bulk" ∅
        = (Ok tt,
           <[key := {| sub_metadata := sub_metadata entry;
                       sub_origin := sub_origin entry;
                       sub_diagnostics :=
                         Some {| error_log := Some ["File type UNKNOWN not allowed"];
                                 key_conflicts := None |} |}]> ∅)).
Proof.
  apply (register_submission_fails_open (handlers := sample_handlers)
           sample_fs "/in/1202.4001.gz" "bulk" ∅ ["File type UNKNOWN not allowed"]).
  - vm_compute. reflexivity.
  - vm_compute. reflexivity.
  - vm_compute. reflexivity.
  - discriminate.
Defined.

(** * Key conflicts *)

Section key_conflicts.
Context `{handlers : !ExternalHandlers}.

Lemma register_submission_conflict (key : string) (existing rejected : SubmissionEntry)
    (fs : fs_state) (file_path bulk_archive_key : string)
    (registry : gmap string SubmissionEntry) :
  conflicting_call key (sub_metadata existing) (fs, file_path, bulk_archive_key) rejected ->
  registry !! key = Some existing ->
  SubmissionRegistry.register_submission fs file_path bulk_archive_key registry
  = SubmissionRegistry.record_key_conflict key existing rejected registry.
Proof.
  intros (Hfile & Hname & entry & errors & Hgen & -> & Hdiff) Hkey.
  unfold SubmissionRegistry.register_submission.
  rewrite Hfile, Hname, Hgen. cbn [negb].
  rewrite (proj2 (is_key_present_lookup key registry)) by eauto.
  rewrite (get_entry_lookup _ _ _ Hkey).
  rewrite bool_decide_eq_true_2 by exact Hdiff. reflexivity.
Qed.

Lemma record_key_conflict_first (key : string) (existing rejected : SubmissionEntry)
    (registry : gmap string SubmissionEntry) :
  "key conflicts" ∉ entry_error_log existing ->
  SubmissionRegistry.record_key_conflict key existing rejected registry
  = (Ok tt,
     <[key := with_conflicts existing (entry_error_log existing ++ ["key conflicts"])
                             [rejected]]> registry).
Proof.
  intros Hnew. unfold SubmissionRegistry.record_key_conflict.
  fold (entry_error_log existing).
  rewrite bool_decide_eq_false_2 by exact Hnew. reflexivity.
Qed.

Lemma record_key_conflict_next (key : string) (existing rejected : SubmissionEntry)
    (prior : list SubmissionEntry) (registry : gmap string SubmissionEntry) :
  "key conflicts" ∈ entry_error_log existing ->
  entry_key_conflicts existing = Some prior ->
  SubmissionRegistry.record_key_conflict key existing rejected registry
  = (Ok tt,
     <[key := with_conflicts existing (entry_error_log existing)
                             (prior ++ [rejected])]> registry).
Proof.
  intros Hseen Hprior. unfold SubmissionRegistry.record_key_conflict.
  fold (entry_error_log existing). fold (entry_key_conflicts existing).
  rewrite bool_decide_eq_true_2 by exact Hseen. cbn [negb].
  rewrite Hprior. reflexivity.
Qed.

(** Once the marker is in the log, every further conflicting call adds
    its entry at the end of the list and nothing else. *)
Lemma register_submissions_logged (key : string) (existing : SubmissionEntry)
    (log : list string) (calls : list (fs_state * string * string))
    (rejected : list SubmissionEntry) :
  "key conflicts" ∈ log ->
  Forall2 (conflicting_call key (sub_metadata existing)) calls rejected ->
  forall (prior : list SubmissionEntry) (registry : gmap string SubmissionEntry),
    registry !! key = Some (with_conflicts existing log prior) ->
    SubmissionRegistry.register_submissions calls registry
    = (Ok tt, <[key := with_conflicts existing log (prior ++ rejected)]> registry).
Proof.
  intros Hseen Hcalls.
  induction Hcalls as [|[[fs file_path] bulk_archive_key] entry calls rejected Hcall _ IH];
    intros prior registry Hkey; cbn [SubmissionRegistry.register_submissions].
  - rewrite app_nil_r, insert_id by exact Hkey. reflexivity.
  - rewrite (register_submission_conflict key (with_conflicts existing log prior) entry
               fs file_path bulk_archive_key registry Hcall Hkey).
    rewrite (record_key_conflict_next key (with_conflicts existing log prior) entry prior
               registry Hseen eq_refl).
    cbn [with_conflicts entry_error_log sub_diagnostics sub_metadata sub_origin
         default error_log].
    fold (with_conflicts existing log (prior ++ [entry])).
    rewrite (IH (prior ++ [entry])) by apply lookup_insert_eq.
    rewrite insert_insert_eq, <- app_assoc. reflexivity.
Qed.

Lemma marker_appended (log : list string) :
  "key conflicts" ∈ log ++ ["key conflicts"].
Proof. apply elem_of_app. right. apply list_elem_of_here. Qed.

Lemma count_marker_once (log : list string) :
  (count_occ string_dec log "key conflicts" <= 1)%nat ->
  count_occ string_dec
    (if bool_decide ("key conflicts" ∈ log) then log else log ++ ["key conflicts"])
    "key conflicts" = 1%nat.
Proof.
  intros Hcount. case_bool_decide as Hseen.
  - apply list_elem_of_In, (count_occ_In string_dec) in Hseen. lia.
  - rewrite count_occ_app.
    rewrite list_elem_of_In, (count_occ_not_In string_dec) in Hseen.
    rewrite Hseen. reflexivity.
Qed.

(** C4, as the code has it.  A run of one or more calls of
    [register_submission] that all compute a key held by an entry with
    other metadata returns and changes that entry only: its error log
    gets the marker ["key conflicts"] when it does not hold it yet, so
    that the marker is there once, and its [key_conflicts] is the list
    recorded before the run followed by the rejected entries in call
    order.  The entry's metadata and origin, and every other entry, stay
    as they are. *)
Theorem key_conflicts_accumulate (key : string) (existing : SubmissionEntry)
    (registry : gmap string SubmissionEntry)
    (calls : list (fs_state * string * string)) (rejected : list SubmissionEntry) :
  registry !! key = Some existing ->
  calls <> [] ->
  Forall2 (conflicting_call key (sub_metadata existing)) calls rejected ->
  ("key conflicts" ∈ entry_error_log existing ->
   is_Some (entry_key_conflicts existing)) ->
  let seen := bool_decide ("key conflicts" ∈ entry_error_log existing) in
  let log := if seen then entry_error_log existing
             else entry_error_log existing ++ ["key conflicts"] in
  let prior := if seen then default [] (entry_key_conflicts existing) else [] in
  SubmissionRegistry.register_submissions calls registry
  = (Ok tt, <[key := with_conflicts existing log (prior ++ rejected)]> registry)
  /\ ((count_occ string_dec (entry_error_log existing) "key conflicts" <= 1)%nat ->
      count_occ string_dec log "key conflicts" = 1%nat).
Proof.
  intros Hkey Hcalls Hrun Hwf seen log prior. subst seen log prior.
  split; [|apply count_marker_once].
  destruct Hrun as [|[[fs file_path] bulk_archive_key] entry calls rejected Hcall Hrun];
    [done|]. clear Hcalls.
  cbn [SubmissionRegistry.register_submissions].
  rewrite (register_submission_conflict key existing entry fs file_path
             bulk_archive_key registry Hcall Hkey).
  case_bool_decide as Hseen.
  - destruct (Hwf Hseen) as [prior Hprior]. rewrite Hprior. cbn [default].
    rewrite (record_key_conflict_next key existing entry prior registry Hseen Hprior).
    rewrite (register_submissions_logged key existing (entry_error_log existing)
               calls rejected Hseen Hrun (prior ++ [entry]))
      by apply lookup_insert_eq.
    rewrite insert_insert_eq, <- app_assoc. reflexivity.
  - rewrite (record_key_conflict_first key existing entry registry Hseen).
    rewrite (register_submissions_logged key existing
               (entry_error_log existing ++ ["key conflicts"])
               calls rejected (marker_appended _) Hrun [entry])
      by apply lookup_insert_eq.
    rewrite insert_insert_eq. reflexivity.
Qed.
End key_conflicts.

(** * Registry.load *)

(** C10. [load] on a path where no file exists raises the not-found error
    after it has cleared the registry: the registry is empty afterwards,
    whatever it held. *)
Theorem registry_load_missing_file V (json_load : fs_state -> string -> result (gmap string V))
    (fs : fs_state) (file_path : string) (registry : gmap string V) :
  FileSystem.is_file fs file_path = false ->
  Registry.load json_load fs file_path registry
  = (Raise (FileNotFoundError ("File '" +:+ file_path +:+ "' not found.")), ∅).
Proof.
  intros Hmissing. unfold Registry.load. rewrite Hmissing. reflexivity.
Qed.

(** * The theorems at sample inputs *)

Lemma registry_load_missing_file_witness :
  Registry.load (fun _ _ => Ok ∅) sample_fs "/registry.json"
    ({[ "k" := 1%nat ]} : gmap string nat)
  = (Raise (FileNotFoundError "File '/registry.json' not found."), ∅).
Proof.
  apply (registry_load_missing_file nat (fun _ _ => Ok ∅) sample_fs "/registry.json").
  vm_compute. reflexivity.
Defined.


Lemma check_extract_possible_rejects_unsafe_members_witness :
  exists errors,
    ArchiveHandler.check_extract_possible sample_fs "/in/evil.tar" "/" = Ok errors
    /\ errors <> []
    /\ ArchiveHandler.is_extract_possible sample_fs "/in/evil.tar" "/" = Ok false.
Proof.
  apply (check_extract_possible_rejects_unsafe_members sample_fs "/in/evil.tar" "/"
           ["../x"]).
  - vm_compute. reflexivity.
  - vm_compute. reflexivity.
  - vm_compute. reflexivity.
  - left. exists "../x". split; [apply list_elem_of_here|].
    vm_compute. apply list_elem_of_here.
Defined.



(** C1 as stated fails for bulk archives, and for a submission whose
    first registration met an entry with other metadata.  The sample
    archive registers into the empty registry; registering it again
    raises.  The sample submission [1202.3055] has the bytes of
    [1202.3054], registered before it: each of its two registrations
    adds a conflict record to the entry of [1202.3054]. *)
Lemma register_twice_not_silent :
  sample_archives.1 = Ok tt
  /\ BulkArchiveRegistry.register_bulk_archive (handlers := sample_handlers)
       sample_fs "/data/arXiv_src_9902_005.tar" sample_archives.2
     = (Raise (ValueError "File '/data/arXiv_src_9902_005.tar' is already registered."),
        sample_archives.2)
  /\ (sample_register ["/in/1202.3054.gz"; "/in/1202.3055.gz"]).1 = Ok tt
  /\ List.length
       <$> ((sample_register ["/in/1202.3054.gz"; "/in/1202.3055.gz"]).2 !! "sha256-b1"
            ≫= entry_key_conflicts)
     = Some 1%nat
  /\ (SubmissionRegistry.register_submission (handlers := sample_handlers)
        sample_fs "/in/1202.3055.gz" "bulk"
        (sample_register ["/in/1202.3054.gz"; "/in/1202.3055.gz"]).2).1 = Ok tt
  /\ List.length
       <$> ((SubmissionRegistry.register_submission (handlers := sample_handlers)
               sample_fs "/in/1202.3055.gz" "bulk"
               (sample_register ["/in/1202.3054.gz"; "/in/1202.3055.gz"]).2).2
              !! "sha256-b1"
            ≫= entry_key_conflicts)
     = Some 2%nat.
Proof. repeat split; vm_compute; reflexivity. Qed.

Lemma register_twice_witness :
  (exists registry,
      SubmissionRegistry.register_submission (handlers := sample_handlers)
        sample_fs "/in/1202.3054.gz" "bulk" registry = (Ok tt, registry))
  /\ (exists archives,
        BulkArchiveRegistry.register_bulk_archive (handlers := sample_handlers)
          sample_fs "/data/arXiv_src_9902_005.tar" archives
        = (Raise (ValueError "File '/data/arXiv_src_9902_005.tar' is already registered."),
           archives)).
Proof.
  pose proof (register_twice (handlers := sample_handlers) sample_fs
                "/in/1202.3054.gz" "bulk" ∅
                (SubmissionRegistry.register_submission (handlers := sample_handlers)
                   sample_fs "/in/1202.3054.gz" "bulk" ∅).2
                "/data/arXiv_src_9902_005.tar" ∅
                (BulkArchiveRegistry.register_bulk_archive (handlers := sample_handlers)
                   sample_fs "/data/arXiv_src_9902_005.tar" ∅).2)
    as [Hsubmission Harchive].
  split.
  - eexists. apply Hsubmission.
    + vm_compute. reflexivity.
    + intros key entry errors existing _ Hexisting.
      rewrite lookup_empty in Hexisting. discriminate.
  - eexists. apply Harchive. vm_compute. reflexivity.
Defined.

(** C4 as stated fails on a registry that already holds conflict records.
    After [1202.3054] and then [1202.3055] (same bytes) are registered,
    the entry of [1202.3054] holds one rejected entry.  A run of one more
    conflicting call, for [1202.3056], leaves two rejected entries under
    the key, not the one entry of that run. *)
Lemma key_conflicts_keep_earlier_records :
  (sample_register ["/in/1202.3054.gz"; "/in/1202.3055.gz"]).1 = Ok tt
  /\ (SubmissionRegistry.register_submissions (handlers := sample_handlers)
        [(sample_fs, "/in/1202.3056.gz", "bulk")]
        (sample_register ["/in/1202.3054.gz"; "/in/1202.3055.gz"]).2).1 = Ok tt
  /\ ((SubmissionRegistry.register_submissions (handlers := sample_handlers)
         [(sample_fs, "/in/1202.3056.gz", "bulk")]
         (sample_register ["/in/1202.3054.gz"; "/in/1202.3055.gz"]).2).2 !! "sha256-b1"
      ≫= entry_key_conflicts)
     = (earlier ← sample_submission_entry "/in/1202.3055.gz";
        latest ← sample_submission_entry "/in/1202.3056.gz";
        Some [earlier; latest])
  /\ List.length
       <$> ((SubmissionRegistry.register_submissions (handlers := sample_handlers)
               [(sample_fs, "/in/1202.3056.gz", "bulk")]
               (sample_register ["/in/1202.3054.gz"; "/in/1202.3055.gz"]).2).2
              !! "sha256-b1"
            ≫= entry_key_conflicts)
     = Some 2%nat.
Proof. repeat split; vm_compute; reflexivity. Qed.

Lemma sample_conflicting_call (file_path : string) (stored rejected : SubmissionEntry) :
  sample_submission_entry file_path = Some rejected ->
  FileSystem.is_file sample_fs file_path = true ->
  SubmissionHandler.is_submission_filename file_path = true ->
  (exists digest entry errors,
      SubmissionHandler.generate_registry_entry (handlers := sample_handlers)
        sample_fs file_path "bulk" = Ok (digest, entry, errors)
      /\ digest = "sha256-b1") ->
  filename (sub_metadata stored) <> filename (sub_metadata rejected) ->
  conflicting_call (handlers := sample_handlers) "sha256-b1" (sub_metadata stored)
    (sample_fs, file_path, "bulk") rejected.
Proof.
  intros Hentry Hfile Hname (digest & entry & errors & Hgen & ->) Hdiff.
  split; [exact Hfile|]. split; [exact Hname|].
  exists entry, errors. split; [exact Hgen|].
  unfold sample_submission_entry in Hentry. rewrite Hgen in Hentry.
  injection Hentry as <-. split; [reflexivity|]. congruence.
Qed.

Lemma key_conflicts_accumulate_witness :
  exists existing second third,
    sample_submission_entry "/in/1202.3054.gz" = Some existing
    /\ sample_submission_entry "/in/1202.3055.gz" = Some second
    /\ sample_submission_entry "/in/1202.3056.gz" = Some third
    /\ SubmissionRegistry.register_submissions (handlers := sample_handlers)
         [(sample_fs, "/in/1202.3055.gz", "bulk"); (sample_fs, "/in/1202.3056.gz", "bulk")]
         {[ "sha256-b1" := existing ]}
       = (Ok tt,
          <["sha256-b1" := with_conflicts existing ["key conflicts"] [second; third]]>
            {[ "sha256-b1" := existing ]}).
Proof.
  eexists _, _, _.
  split; [vm_compute; reflexivity|]. split; [vm_compute; reflexivity|].
  split; [vm_compute; reflexivity|].
  refine (proj1 (key_conflicts_accumulate (handlers := sample_handlers)
                   "sha256-b1" _ _ _ _ _ _ _ _)).
  - apply lookup_singleton_eq.
  - discriminate.
  - constructor; [|constructor; [|constructor]].
    + apply sample_conflicting_call; try (vm_compute; reflexivity).
      * eexists _, _, _. split; vm_compute; reflexivity.
      * vm_compute. discriminate.
    + apply sample_conflicting_call; try (vm_compute; reflexivity).
      * eexists _, _, _. split; vm_compute; reflexivity.
      * vm_compute. discriminate.
  - intros Hin. vm_compute in Hin. by apply elem_of_nil in Hin.
Defined.

(** * The base registry *)

Section base_registry.
Context {V : Type}.
Implicit Types (registry : gmap string V) (hash_key : string) (entry : V).

Lemma is_key_present_false hash_key registry :
  Registry.is_key_present hash_key registry = false <-> registry !! hash_key = None.
Proof.
  unfold Registry.is_key_present. rewrite bool_decide_eq_false, <- eq_None_not_Some.
  reflexivity.
Qed.

Lemma is_key_present_true hash_key registry :
  Registry.is_key_present hash_key registry = true <->
  exists entry, registry !! hash_key = Some entry.
Proof.
  unfold Registry.is_key_present. rewrite bool_decide_eq_true. reflexivity.
Qed.

(** X1. [add_entry] under a key the registry does not hold returns;
    afterwards [get_entry] gives the entry back under that key, the
    registry is one entry longer and every other key reads as before; and
    [delete_entry] of the key then returns and leaves the registry as it
    was before the two calls. *)
Theorem registry_add_entry_then_get hash_key entry registry :
  Registry.is_key_present hash_key registry = false ->
  let after := (Registry.add_entry hash_key entry registry).2 in
  (Registry.add_entry hash_key entry registry).1 = Ok tt
  /\ Registry.get_entry hash_key after = Ok entry
  /\ Registry.__len__ after = S (Registry.__len__ registry)
  /\ (forall other, other <> hash_key ->
        Registry.get_entry other after = Registry.get_entry other registry)
  /\ Registry.delete_entry hash_key after = (Ok tt, registry).
Proof.
  intros Habsent after. subst after. unfold Registry.add_entry. rewrite Habsent.
  apply is_key_present_false in Habsent. cbn [fst snd].
  unfold Registry.get_entry, Registry.__len__, Registry.delete_entry,
    Registry.is_key_present.
  split; [done|]. split; [by rewrite lookup_insert_eq|].
  split; [by rewrite map_size_insert_None|]. split.
  - intros other Hother. by rewrite lookup_insert_ne.
  - rewrite lookup_insert_eq, bool_decide_eq_true_2 by eauto. cbn [negb].
    by rewrite delete_insert_id.
Qed.

(** X2. The three calls that change a registry raise exactly when the
    key is in the way ([add_entry]) or missing ([update_entry],
    [delete_entry]), the exception is a [KeyError], and a call that raises
    leaves the registry as it was. *)
Theorem registry_failed_call_changes_nothing hash_key entry registry :
  (raises (Registry.add_entry hash_key entry registry).1
     <-> Registry.is_key_present hash_key registry = true)
  /\ (raises (Registry.update_entry hash_key entry registry).1
     <-> Registry.is_key_present hash_key registry = false)
  /\ (raises (Registry.delete_entry hash_key registry).1
     <-> Registry.is_key_present hash_key registry = false)
  /\ forall outcome,
       outcome ∈ [ Registry.add_entry hash_key entry registry;
                   Registry.update_entry hash_key entry registry;
                   Registry.delete_entry hash_key registry ] ->
       raises outcome.1 ->
       (exists msg, outcome.1 = Raise (KeyError msg)) /\ outcome.2 = registry.
Proof.
  unfold Registry.add_entry, Registry.update_entry, Registry.delete_entry.
  destruct (Registry.is_key_present hash_key registry); cbn [negb fst snd];
    rewrite ?raises_Raise_iff, ?raises_Ok_iff.
  all: split; [done|]; split; [done|]; split; [done|].
  all: intros outcome Hin; repeat (apply elem_of_cons in Hin as [->|Hin]);
    try (by apply elem_of_nil in Hin); cbn [fst snd];
    rewrite ?raises_Raise_iff, ?raises_Ok_iff; try done; intros _; eauto.
Qed.

End base_registry.

(** * Paths and names *)

Lemma to_list_of_list (l : list ascii) : Str.to_list (Str.of_list l) = l.
Proof. apply list_ascii_of_string_of_list_ascii. Qed.

Lemma of_list_to_list (s : string) : Str.of_list (Str.to_list s) = s.
Proof. apply string_of_list_ascii_of_string. Qed.

Lemma length_of_list (l : list ascii) : String.length (Str.of_list l) = List.length l.
Proof.
  unfold Str.of_list. induction l as [|c l IH]; [done|].
  cbn [string_of_list_ascii String.length List.length]. by rewrite IH.
Qed.

Lemma to_list_app (a b : string) :
  Str.to_list (a +:+ b) = Str.to_list a ++ Str.to_list b.
Proof.
  unfold Str.to_list. induction a as [|c a IH]; [done|].
  simpl. f_equal. exact IH.
Qed.

Lemma rsplit_None (sep : ascii) (l : list ascii) :
  os_path.rsplit sep l = None <-> sep ∉ l.
Proof.
  induction l as [|c l IH]; cbn [os_path.rsplit].
  - split; [intros _; apply not_elem_of_nil|done].
  - destruct (os_path.rsplit sep l) as [[a b]|].
    + split; [discriminate|]. intros Hn. exfalso.
      assert (Hl : sep ∉ l) by (intros ?; apply Hn; by apply list_elem_of_further).
      apply IH in Hl. discriminate.
    + case_bool_decide as Hc.
      * split; [discriminate|]. intros Hn. exfalso. apply Hn. subst c.
        apply list_elem_of_here.
      * split; [|done]. intros _ Hin. apply elem_of_cons in Hin as [->|Hin]; [done|].
        by apply (proj1 IH).
Qed.

Lemma rsplit_Some (sep : ascii) (l a b : list ascii) :
  os_path.rsplit sep l = Some (a, b) -> l = a ++ sep :: b /\ sep ∉ b.
Proof.
  revert a b. induction l as [|c l IH]; intros a b; cbn [os_path.rsplit]; [discriminate|].
  destruct (os_path.rsplit sep l) as [[a' b']|] eqn:Hl.
  - intros [= <- <-]. destruct (IH _ _ eq_refl) as [-> Hn]. done.
  - case_bool_decide as Hc; [|discriminate]. intros [= <- <-]. subst c.
    split; [done|]. by apply rsplit_None.
Qed.

(** The base name of a path has no directory part left: taking it twice
    changes nothing. *)
Lemma basename_idempotent (p : string) :
  os_path.basename (os_path.basename p) = os_path.basename p.
Proof.
  unfold os_path.basename at 2 3.
  destruct (os_path.rsplit "/" (Str.to_list p)) as [[a b]|] eqn:Hp; [|].
  - apply rsplit_Some in Hp as [_ Hn]. unfold os_path.basename.
    rewrite to_list_of_list. by rewrite (proj2 (rsplit_None _ _) Hn).
  - unfold os_path.basename. by rewrite Hp.
Qed.

Lemma is_bulk_archive_filename_basename (p : string) :
  BulkArchiveHandler.is_bulk_archive_filename (FileName.get_file_basename p)
  = BulkArchiveHandler.is_bulk_archive_filename p.
Proof.
  unfold BulkArchiveHandler.is_bulk_archive_filename,
    BulkArchiveHandler.parse_bulk_archive_filename, FileName.get_file_basename.
  by rewrite basename_idempotent.
Qed.

Lemma parse_old_style_basename (p : string) :
  SubmissionHandler.parse_old_style_submission_filename (FileName.get_file_basename p)
  = SubmissionHandler.parse_old_style_submission_filename p.
Proof.
  unfold SubmissionHandler.parse_old_style_submission_filename, FileName.get_file_basename.
  by rewrite basename_idempotent.
Qed.

Lemma parse_current_style_basename (p : string) :
  SubmissionHandler.parse_current_style_submission_filename (FileName.get_file_basename p)
  = SubmissionHandler.parse_current_style_submission_filename p.
Proof.
  unfold SubmissionHandler.parse_current_style_submission_filename,
    FileName.get_file_basename.
  by rewrite basename_idempotent.
Qed.

Lemma is_submission_filename_basename (p : string) :
  SubmissionHandler.is_submission_filename (FileName.get_file_basename p)
  = SubmissionHandler.is_submission_filename p.
Proof.
  unfold SubmissionHandler.is_submission_filename.
  by rewrite parse_old_style_basename, parse_current_style_basename.
Qed.

(** * What the submission registrar keeps *)

Section submission_registry_invariants.
Context `{handlers : !ExternalHandlers}.

Lemma dict_getitem_Ok (d : gmap string string) (k v : string) :
  dict_getitem d k = Ok v <-> d !! k = Some v.
Proof.
  unfold dict_getitem. destruct (d !! k); split; intros H; inversion H; done.
Qed.

Lemma generate_url_basename (p : string) :
  SubmissionHandler.generate_url_for_submission_filename (FileName.get_file_basename p)
  = match SubmissionHandler.generate_url_for_submission_filename p with
    | Raise _ =>
        Raise (ValueError ("Invalid arXiv submission filename: "
                           +:+ FileName.get_file_basename p))
    | r => r
    end.
Proof.
  unfold SubmissionHandler.generate_url_for_submission_filename.
  rewrite parse_old_style_basename, parse_current_style_basename.
  destruct (SubmissionHandler.parse_old_style_submission_filename p)
    as [[[[category yy] mm] number]|]; [reflexivity|].
  destruct (SubmissionHandler.parse_current_style_submission_filename p)
    as [[[yy mm] number]|]; reflexivity.
Qed.

(** What a returned triple of [generate_registry_entry] is made of. *)
Lemma submission_generate_registry_entry_inv (fs : fs_state)
    (file_path bulk_archive_key key : string) (entry : SubmissionEntry)
    (errors : list string) :
  SubmissionHandler.generate_registry_entry fs file_path bulk_archive_key
  = Ok (key, entry, errors) ->
  hash (sub_metadata entry) !! "SHA256" = Some key
  /\ filename (sub_metadata entry) = FileName.get_file_basename file_path
  /\ SubmissionHandler.generate_url_for_submission_filename file_path
     = Ok (origin_url (sub_origin entry))
  /\ origin_bulk_archive_key (sub_origin entry) = bulk_archive_key
  /\ sub_diagnostics entry = None.
Proof.
  unfold SubmissionHandler.generate_registry_entry.
  destruct (FileSystem.is_file fs file_path) eqn:Hfile; [|discriminate]. cbn [negb].
  apply is_file_node in Hfile as [n Hn].
  intros (errs & Hcheck & Hrest)%bind_Ok_inv.
  apply bind_Ok_inv in Hrest as (url & Hurl & Hrest).
  rewrite (get_metadata_of_node fs file_path n Hn) in Hrest.
  apply bind_Ok_inv in Hrest as (metadata & Hmeta & Hrest).
  apply bind_Ok_inv in Hmeta as (format & Hformat & Hmeta).
  apply bind_Ok_inv in Hrest as (registry_key & Hkey & Hrest).
  apply bind_Ok_inv in Hrest as (submission_type & Htype & Hrest).
  injection Hmeta as <-. injection Hrest as <- <- <-.
  cbn [sub_metadata sub_origin sub_diagnostics hash filename origin_url
       origin_bulk_archive_key].
  apply dict_getitem_Ok in Hkey. done.
Qed.

(** The registry after a call of [register_submission], read at a key
    other than the one the call works on, and at that key. *)
Lemma register_submission_after (fs : fs_state) (file_path bulk_archive_key : string)
    (registry : gmap string SubmissionEntry) :
  let after :=
    (SubmissionRegistry.register_submission fs file_path bulk_archive_key registry).2 in
  after = registry
  \/ exists key entry errors,
       SubmissionHandler.generate_registry_entry fs file_path bulk_archive_key
       = Ok (key, entry, errors)
       /\ FileSystem.is_file fs file_path = true
       /\ SubmissionHandler.is_submission_filename file_path = true
       /\ ((registry !! key = None
            /\ after = <[key := SubmissionRegistry.attach_errors entry errors]> registry)
           \/ exists existing diagnostics,
                registry !! key = Some existing
                /\ sub_metadata existing
                   <> sub_metadata (SubmissionRegistry.attach_errors entry errors)
                /\ "key conflicts" ∈ default [] (error_log diagnostics)
                /\ after = <[key := {| sub_metadata := sub_metadata existing;
                                       sub_origin := sub_origin existing;
                                       sub_diagnostics := Some diagnostics |}]>
                             registry).
Proof.
  cbv zeta. unfold SubmissionRegistry.register_submission.
  destruct (FileSystem.is_file fs file_path) eqn:Hfile; cbn [negb]; [|by left].
  destruct (SubmissionHandler.is_submission_filename file_path) eqn:Hname;
    cbn [negb]; [|by left].
  destruct (SubmissionHandler.generate_registry_entry fs file_path bulk_archive_key)
    as [[[key entry] errors]|e|] eqn:Hgen; [|by left..].
  destruct (Registry.is_key_present key registry) eqn:Hpresent.
  - apply is_key_present_true in Hpresent as [existing Hexisting].
    unfold Registry.get_entry. rewrite Hexisting.
    case_bool_decide as Hdiff; [|by left].
    right. exists key, entry, errors. do 3 (split; [done|]). right.
    unfold SubmissionRegistry.record_key_conflict.
    set (log := default [] (error_log (default _ (sub_diagnostics existing)))).
    case_bool_decide as Hseen; cbn [negb].
    + destruct (key_conflicts (default _ (sub_diagnostics existing))) as [rejected|];
        cbn [snd]; eexists existing, _; (split; [done|]); (split; [done|]);
        (split; [|reflexivity]); exact Hseen.
    + cbn [snd]. eexists existing, _. split; [done|]. split; [done|].
      split; [|reflexivity]. cbn [error_log default].
      apply elem_of_app. right. apply list_elem_of_here.
  - apply is_key_present_false in Hpresent.
    right. exists key, entry, errors. do 3 (split; [done|]). left.
    unfold Registry.add_entry, Registry.is_key_present.
    rewrite Hpresent, bool_decide_eq_false_2 by (intros [? ?]; discriminate). done.
Qed.

(** X3. Whatever a call of [register_submission] does and however it
    ends, no key leaves the registry, the entry under a key that was there
    keeps its metadata and its origin, and the registry grows by one entry
    at most. *)
Theorem register_submission_keeps_stored_entries (fs : fs_state)
    (file_path bulk_archive_key : string) (registry : gmap string SubmissionEntry) :
  let after :=
    (SubmissionRegistry.register_submission fs file_path bulk_archive_key registry).2 in
  (forall key entry, registry !! key = Some entry ->
     exists kept, after !! key = Some kept
                  /\ sub_metadata kept = sub_metadata entry
                  /\ sub_origin kept = sub_origin entry)
  /\ (Registry.__len__ registry <= Registry.__len__ after
      <= S (Registry.__len__ registry))%nat.
Proof.
  intros after.
  destruct (register_submission_after fs file_path bulk_archive_key registry)
    as [Hsame|(key & entry & errors & _ & _ & _ &
               [[Hfree Hafter]|(existing & diagnostics & Hkey & _ & _ & Hafter)])];
    fold after in Hsame || fold after in Hafter.
  - rewrite Hsame. split; [eauto|]. lia.
  - rewrite Hafter. unfold Registry.__len__. rewrite map_size_insert_None by done.
    split; [|lia]. intros k e Hk. exists e. split; [|done].
    rewrite lookup_insert_ne; [done|]. intros ->. congruence.
  - rewrite Hafter. unfold Registry.__len__.
    rewrite map_size_insert_Some by eauto. split; [|lia]. intros k e Hk.
    destruct (decide (k = key)) as [->|Hne].
    + rewrite lookup_insert_eq. eexists. split; [done|].
      assert (e = existing) as -> by congruence. done.
    + rewrite lookup_insert_ne by done. eauto.
Qed.

(** X4. [register_submission] keeps a registry content-addressed: if
    every key is the SHA256 digest recorded in its entry, every recorded
    file name follows the naming rules, and every origin URL is the one
    generated from the recorded name, then the same holds after the call,
    however it ends. *)
Theorem register_submission_keeps_registry_wf (fs : fs_state)
    (file_path bulk_archive_key : string) (registry : gmap string SubmissionEntry) :
  submission_registry_wf registry ->
  submission_registry_wf
    (SubmissionRegistry.register_submission fs file_path bulk_archive_key registry).2.
Proof.
  intros Hwf.
  destruct (register_submission_after fs file_path bulk_archive_key registry)
    as [->|(key & entry & errors & Hgen & _ & Hname &
            [[Hfree ->]|(existing & diagnostics & Hkey & _ & _ & ->)])];
    [done|..]; intros k e.
  - destruct (decide (k = key)) as [->|Hne];
      [rewrite lookup_insert_eq|rewrite lookup_insert_ne by done; apply Hwf].
    intros [= <-]. unfold submission_entry_wf.
    rewrite attach_errors_metadata.
    apply submission_generate_registry_entry_inv in Hgen
      as (Hdigest & Hfilename & Hurl & _ & _).
    rewrite Hfilename, is_submission_filename_basename, generate_url_basename, Hurl.
    assert (sub_origin (SubmissionRegistry.attach_errors entry errors) = sub_origin entry)
      as -> by (unfold SubmissionRegistry.attach_errors; by case_match).
    done.
  - destruct (decide (k = key)) as [->|Hne];
      [rewrite lookup_insert_eq|rewrite lookup_insert_ne by done; apply Hwf].
    intros [= <-]. exact (Hwf key existing Hkey).
Qed.

Lemma mapM_Ok {A B} (f : A -> result B) (g : A -> B) (l : list A) :
  (forall x, x ∈ l -> f x = Ok (g x)) -> mapM f l = Ok (map g l).
Proof.
  induction l as [|x l IH]; intros Hf; [reflexivity|].
  change (mapM f (x :: l)) with (y ← f x; k ← mapM f l; mret (y :: k)).
  rewrite (Hf x) by apply list_elem_of_here.
  rewrite IH by (intros y Hy; apply Hf; by apply list_elem_of_further).
  reflexivity.
Qed.

Lemma is_entry_valid_lookup (key : string) (entry : SubmissionEntry)
    (registry : gmap string SubmissionEntry) :
  registry !! key = Some entry ->
  SubmissionRegistry.is_entry_valid key registry
  = Ok (bool_decide (entry_error_log entry = [])).
Proof.
  intros Hkey. unfold SubmissionRegistry.is_entry_valid, Registry.is_key_present,
    Registry.get_entry.
  rewrite Hkey, bool_decide_eq_true_2 by eauto. cbn [negb]. step_result.
  fold (entry_error_log entry). f_equal. apply bool_decide_ext.
  by destruct (entry_error_log entry).
Qed.

(** X5. [list_invalid_entries] always returns: the keys whose entry has a
    non-empty error log, each once.  The key test it runs on every key
    cannot raise there. *)
Theorem list_invalid_entries_lists_logged_keys (registry : gmap string SubmissionEntry) :
  exists keys,
    SubmissionRegistry.list_invalid_entries registry = Ok keys
    /\ NoDup keys
    /\ forall key, key ∈ keys <->
         exists entry, registry !! key = Some entry /\ entry_error_log entry <> [].
Proof.
  unfold SubmissionRegistry.list_invalid_entries.
  set (valid := fun key : string =>
         (key, bool_decide (entry_error_log <$> registry !! key = Some []))).
  rewrite (mapM_Ok _ valid).
  2:{ intros key Hin. unfold Registry.list_keys in Hin.
      apply list_elem_of_fmap in Hin as ([k e] & -> & Hke).
      apply elem_of_map_to_list in Hke. cbn [fst].
      rewrite (is_entry_valid_lookup k e) by done. step_result. unfold valid.
      rewrite Hke. cbn [fmap option_fmap option_map]. do 2 f_equal.
      apply bool_decide_ext. split; [by intros ->|by intros [= ->]]. }
  step_result. eexists. split; [reflexivity|].
  assert (Hkeys : forall l : list string,
            (List.filter (fun checked_key : string * bool => negb checked_key.2)
                         (map valid l)).*1
            = List.filter (fun key => negb (valid key).2) l).
  { induction l as [|k l IH]; [reflexivity|]. cbn [map List.filter].
    destruct (negb (valid k).2); cbn [fmap list_fmap]; by rewrite <- IH. }
  rewrite Hkeys. split.
  - apply NoDup_ListNoDup, List.NoDup_filter, NoDup_ListNoDup.
    apply NoDup_fst_map_to_list.
  - intros key. rewrite list_elem_of_In, filter_In, <- list_elem_of_In.
    unfold Registry.list_keys, valid. cbn [snd].
    rewrite negb_true_iff, bool_decide_eq_false. split.
    + intros [Hin Hlog]. apply list_elem_of_fmap in Hin as ([k e] & -> & Hke).
      apply elem_of_map_to_list in Hke. cbn [fst] in *. exists e. split; [done|].
      intros Hempty. apply Hlog. by rewrite Hke, <- Hempty.
    + intros (e & Hke & Hlog). split.
      * apply list_elem_of_fmap. exists (key, e). split; [done|].
        by apply elem_of_map_to_list.
      * rewrite Hke. intros [= Hempty]. done.
Qed.

(** X6. A call that meets, under its key, an entry with other metadata
    leaves that entry invalid, however the call ends: afterwards the key
    holds the same metadata and origin with the marker in its error log,
    and [is_entry_valid] answers [False] -- also when the stored entry was
    valid before. *)
Theorem key_conflict_invalidates_stored_entry (key : string)
    (existing rejected : SubmissionEntry) (fs : fs_state)
    (file_path bulk_archive_key : string) (registry : gmap string SubmissionEntry) :
  registry !! key = Some existing ->
  conflicting_call key (sub_metadata existing) (fs, file_path, bulk_archive_key) rejected ->
  let after :=
    (SubmissionRegistry.register_submission fs file_path bulk_archive_key registry).2 in
  SubmissionRegistry.is_entry_valid key after = Ok false
  /\ exists kept, after !! key = Some kept
       /\ sub_metadata kept = sub_metadata existing
       /\ sub_origin kept = sub_origin existing
       /\ "key conflicts" ∈ entry_error_log kept.
Proof.
  intros Hkey (Hfile & Hname & entry & errors & Hgen & -> & Hdiff) after.
  assert (Hafter : exists kept, after !! key = Some kept
            /\ sub_metadata kept = sub_metadata existing
            /\ sub_origin kept = sub_origin existing
            /\ "key conflicts" ∈ entry_error_log kept).
  { subst after. unfold SubmissionRegistry.register_submission.
    rewrite Hfile, Hname, Hgen. cbn [negb].
    unfold Registry.is_key_present, Registry.get_entry.
    rewrite Hkey, bool_decide_eq_true_2 by eauto.
    rewrite bool_decide_eq_true_2 by done.
    unfold SubmissionRegistry.record_key_conflict.
    fold (entry_error_log existing).
    case_bool_decide as Hseen; cbn [negb]; [case_match|]; cbn [snd];
      rewrite lookup_insert_eq; eexists; (split; [reflexivity|]);
      cbn [sub_metadata sub_origin]; (split; [reflexivity|]);
      (split; [reflexivity|]);
      unfold entry_error_log; cbn [sub_diagnostics default error_log];
      try exact Hseen.
    apply elem_of_app. right. apply list_elem_of_here. }
  split; [|exact Hafter].
  destruct Hafter as (kept & Hkept & _ & _ & Hlog).
  rewrite (is_entry_valid_lookup key kept) by done. f_equal.
  apply bool_decide_eq_false_2. intros Hempty. rewrite Hempty in Hlog.
  by apply elem_of_nil in Hlog.
Qed.

End submission_registry_invariants.

(** * The index of bulk archive keys *)

(** X7. [find_bulk_archive_key] lists, each once, the keys whose entry
    came from the given bulk archive; [list_bulk_archive_keys] lists, each
    once, the bulk archive keys for which that list is not empty; and
    every key of the registry is found under the bulk archive key of its
    entry. *)
Theorem bulk_archive_keys_index (registry : gmap string SubmissionEntry) :
  NoDup (SubmissionRegistry.list_bulk_archive_keys registry)
  /\ (forall bulk_archive_key,
        NoDup (SubmissionRegistry.find_bulk_archive_key bulk_archive_key registry))
  /\ (forall bulk_archive_key key,
        key ∈ SubmissionRegistry.find_bulk_archive_key bulk_archive_key registry
        <-> exists entry, registry !! key = Some entry
              /\ origin_bulk_archive_key (sub_origin entry) = bulk_archive_key)
  /\ (forall bulk_archive_key,
        bulk_archive_key ∈ SubmissionRegistry.list_bulk_archive_keys registry
        <-> SubmissionRegistry.find_bulk_archive_key bulk_archive_key registry <> []).
Proof.
  assert (Hfind : forall bulk_archive_key key,
    key ∈ SubmissionRegistry.find_bulk_archive_key bulk_archive_key registry
    <-> exists entry, registry !! key = Some entry
          /\ origin_bulk_archive_key (sub_origin entry) = bulk_archive_key).
  { intros b key. unfold SubmissionRegistry.find_bulk_archive_key.
    rewrite list_elem_of_fmap. split.
    - intros ([k e] & -> & Hin). apply list_elem_of_In, filter_In in Hin as [Hin Hb].
      apply list_elem_of_In, elem_of_map_to_list in Hin.
      apply bool_decide_eq_true in Hb. eauto.
    - intros (e & He & Hb). exists (key, e). split; [done|].
      apply list_elem_of_In, filter_In. split.
      + by apply list_elem_of_In, elem_of_map_to_list.
      + by apply bool_decide_eq_true. }
  split; [unfold SubmissionRegistry.list_bulk_archive_keys; apply NoDup_elements|].
  split; [|split; [exact Hfind|]].
  - intros b. unfold SubmissionRegistry.find_bulk_archive_key.
    assert (Hsub : forall l : list (string * SubmissionEntry),
              NoDup l.*1 ->
              NoDup (List.filter
                       (fun kv => bool_decide (origin_bulk_archive_key (sub_origin kv.2) = b))
                       l).*1).
    { induction l as [|kv l IH]; [done|]. cbn [fmap list_fmap List.filter].
      intros [Hnew Hl]%NoDup_cons. case_bool_decide; [|by apply IH].
      cbn [fmap list_fmap]. apply NoDup_cons. split; [|by apply IH].
      intros Hin. apply Hnew. apply list_elem_of_fmap in Hin as (kv' & -> & Hin).
      apply list_elem_of_fmap. exists kv'. split; [done|].
      by apply list_elem_of_In, filter_In in Hin as [?%list_elem_of_In _]. }
    apply Hsub, NoDup_fst_map_to_list.
  - intros b. unfold SubmissionRegistry.list_bulk_archive_keys.
    rewrite elem_of_elements, elem_of_list_to_set. split.
    + intros Hin Hempty. apply list_elem_of_In, in_map_iff in Hin as ([k e] & Hb & Hin).
      apply list_elem_of_In, elem_of_map_to_list in Hin. cbn [snd] in Hb.
      assert (Hk : k ∈ SubmissionRegistry.find_bulk_archive_key b registry)
        by (apply Hfind; eauto).
      rewrite Hempty in Hk. by apply elem_of_nil in Hk.
    + intros Hne.
      destruct (SubmissionRegistry.find_bulk_archive_key b registry) as [|k l] eqn:Hl;
        [done|].
      assert (Hk : k ∈ SubmissionRegistry.find_bulk_archive_key b registry)
        by (rewrite Hl; apply list_elem_of_here).
      apply Hfind in Hk as (e & He & Hb).
      apply list_elem_of_In, in_map_iff. exists (k, e). split; [done|].
      by apply list_elem_of_In, elem_of_map_to_list.
Qed.

(** * What the bulk archive registrar keeps *)

Section bulk_archive_registry_invariants.
Context `{handlers : !ExternalHandlers}.

(** What a returned triple of [generate_registry_entry] is made of. *)
Lemma bulk_generate_registry_entry_wf (fs : fs_state) (file_path key : string)
    (entry : BulkArchiveEntry) (errors : list string) :
  BulkArchiveHandler.generate_registry_entry fs file_path = Ok (key, entry, errors) ->
  BulkArchiveHandler.check_bulk_archive fs file_path = Ok errors
  /\ filename (bulk_metadata entry) = FileName.get_file_basename file_path
  /\ bulk_archive_entry_wf key entry.
Proof.
  unfold BulkArchiveHandler.generate_registry_entry.
  destruct (FileSystem.is_file fs file_path) eqn:Hfile; [|discriminate]. cbn [negb].
  apply is_file_node in Hfile as [n Hn].
  intros (errs & Hcheck & Hrest)%bind_Ok_inv.
  apply bind_Ok_inv in Hrest as (uri & Huri & Hrest).
  rewrite (get_metadata_of_node fs file_path n Hn) in Hrest.
  apply bind_Ok_inv in Hrest as (metadata & Hmeta & Hrest).
  apply bind_Ok_inv in Hmeta as (format & Hformat & Hmeta).
  apply bind_Ok_inv in Hrest as (registry_key & Hkey & Hrest).
  injection Hmeta as <-. injection Hrest as <- <- <-.
  split; [exact Hcheck|]. split; [reflexivity|].
  unfold bulk_archive_entry_wf. cbn [bulk_metadata bulk_origin origin_uri].
  apply dict_getitem_Ok in Hkey. split; [exact Hkey|].
  unfold BulkArchiveHandler.generate_uri_for_bulk_archive_filename in Huri.
  destruct (BulkArchiveHandler.is_bulk_archive_filename file_path) eqn:Hname;
    [|discriminate].
  injection Huri as <-. cbn [metadata_of filename].
  by rewrite is_bulk_archive_filename_basename.
Qed.

Lemma find_bulk_archive_filename_None (file_path : string)
    (registry : gmap string BulkArchiveEntry) :
  BulkArchiveRegistry.find_bulk_archive_filename file_path registry = None <->
  forall key entry, registry !! key = Some entry ->
    filename (bulk_metadata entry) <> FileName.get_file_basename file_path.
Proof.
  unfold BulkArchiveRegistry.find_bulk_archive_filename. split.
  - intros Hnone key entry Hkey Hname.
    assert (Hin : In (key, entry)
              (List.filter
                 (fun kv => bool_decide (filename (bulk_metadata kv.2)
                                         = FileName.get_file_basename file_path))
                 (map_to_list registry))).
    { apply filter_In. split.
      - by apply list_elem_of_In, elem_of_map_to_list.
      - by apply bool_decide_eq_true. }
    destruct (List.filter _ (map_to_list registry)); [destruct Hin|discriminate].
  - intros Hno.
    destruct (List.filter _ (map_to_list registry)) as [|[k e] l] eqn:Hl; [done|].
    exfalso. assert (Hin : In (k, e) (List.filter
                 (fun kv => bool_decide (filename (bulk_metadata kv.2)
                                         = FileName.get_file_basename file_path))
                 (map_to_list registry))) by (rewrite Hl; by left).
    apply filter_In in Hin as [Hin Hname].
    apply list_elem_of_In, elem_of_map_to_list in Hin.
    apply bool_decide_eq_true in Hname. by apply (Hno k e).
Qed.

(** The calls of [register_bulk_archive] that change the registry. *)
Lemma register_bulk_archive_after (fs : fs_state) (file_path : string)
    (registry : gmap string BulkArchiveEntry) :
  let outcome := BulkArchiveRegistry.register_bulk_archive fs file_path registry in
  (outcome.2 = registry /\ outcome.1 <> Ok tt)
  \/ exists key entry,
       BulkArchiveHandler.generate_registry_entry fs file_path = Ok (key, entry, [])
       /\ BulkArchiveRegistry.find_bulk_archive_filename file_path registry = None
       /\ registry !! key = None
       /\ outcome = (Ok tt, <[key := entry]> registry).
Proof.
  cbv zeta. unfold BulkArchiveRegistry.register_bulk_archive.
  destruct (FileSystem.is_file fs file_path) eqn:Hfile; cbn [negb]; [|by left].
  destruct (BulkArchiveHandler.is_bulk_archive_filename file_path) eqn:Hname;
    cbn [negb]; [|by left].
  case_bool_decide as Hfound; [by left|].
  assert (Hnone : BulkArchiveRegistry.find_bulk_archive_filename file_path registry = None)
    by exact Hfound.
  destruct (BulkArchiveHandler.generate_registry_entry fs file_path)
    as [[[key entry] errors]|e|] eqn:Hgen; [|by left..].
  destruct errors as [|error errors]; cbn [List.length Nat.ltb Nat.leb]; [|by left].
  destruct (Registry.is_key_present key registry) eqn:Hpresent.
  - apply is_key_present_true in Hpresent as [existing Hexisting].
    unfold Registry.get_entry. rewrite Hexisting.
    case_bool_decide as Hdiff; [by left|]. exfalso.
    assert (existing = entry) as -> by (destruct (decide (existing = entry)); tauto).
    apply bulk_generate_registry_entry_wf in Hgen as (_ & Hfilename & _).
    by apply (proj1 (find_bulk_archive_filename_None _ _) Hnone key entry).
  - right. exists key, entry. apply is_key_present_false in Hpresent.
    do 3 (split; [done|]). unfold Registry.add_entry, Registry.is_key_present.
    by rewrite Hpresent, bool_decide_eq_false_2 by (intros [? ?]; discriminate).
Qed.

(** X8. [register_bulk_archive] keeps a registry well formed: if every
    key is the SHA256 digest recorded in its entry, every recorded file
    name is a bulk archive name with the bucket URI of that name as
    origin, and no file name is registered twice, then the same holds
    after the call, however it ends. *)
Theorem register_bulk_archive_keeps_registry_wf (fs : fs_state) (file_path : string)
    (registry : gmap string BulkArchiveEntry) :
  bulk_archive_registry_wf registry ->
  bulk_archive_registry_wf
    (BulkArchiveRegistry.register_bulk_archive fs file_path registry).2.
Proof.
  intros [Hentries Hnames].
  destruct (register_bulk_archive_after fs file_path registry)
    as [[-> _]|(key & entry & Hgen & Hnone & Hfree & ->)]; [done|]. cbn [snd].
  apply bulk_generate_registry_entry_wf in Hgen as (_ & Hfilename & Hwf).
  pose proof (proj1 (find_bulk_archive_filename_None _ _) Hnone) as Hother.
  split.
  - intros k e. destruct (decide (k = key)) as [->|Hne].
    + rewrite lookup_insert_eq. by intros [= <-].
    + rewrite lookup_insert_ne by done. apply Hentries.
  - intros k1 k2 e1 e2.
    destruct (decide (k1 = key)) as [->|Hne1], (decide (k2 = key)) as [->|Hne2];
      rewrite ?lookup_insert_eq, ?lookup_insert_ne by done; [done|..].
    + intros [= <-] H2 Heq. exfalso. apply (Hother k2 e2 H2). congruence.
    + intros H1 [= <-] Heq. exfalso. apply (Hother k1 e1 H1). congruence.
    + apply Hnames.
Qed.

Lemma filter_all_false {A} (p : A -> bool) (l : list A) :
  (forall x, In x l -> p x = false) -> List.filter p l = [].
Proof.
  induction l as [|x l IH]; intros Hp; [done|]. cbn [List.filter].
  rewrite (Hp x) by by left. apply IH. intros y Hy. apply Hp. by right.
Qed.


End bulk_archive_registry_invariants.

(** * What the validators accept *)

Section validators.
Context `{handlers : !ExternalHandlers}.

(** A branch in which an error has been logged: the checks that follow
    are skipped and the answer is [False]. *)
Ltac error_logged :=
  cbn [negb app]; step_result;
  repeat (rewrite bool_decide_eq_false_2 by discriminate; step_result);
  rewrite ?andb_false_l; step_result;
  repeat (rewrite bool_decide_eq_false_2 by discriminate; step_result);
  split; [discriminate|].

Lemma length_zero_nil {A} (l : list A) :
  bool_decide (List.length l = 0%nat) = bool_decide (l = []).
Proof. apply bool_decide_ext. by destruct l. Qed.

Lemma filter_nil_Forall {A} (p : A -> bool) (l : list A) :
  List.filter p l = [] <-> forall x, x ∈ l -> p x = false.
Proof.
  induction l as [|x l IH]; cbn [List.filter].
  - split; [intros _ x Hx; by apply elem_of_nil in Hx|done].
  - destruct (p x) eqn:Hp.
    + split; [discriminate|]. intros Hall.
      rewrite (Hall x) in Hp by apply list_elem_of_here. discriminate.
    + rewrite IH. split.
      * intros Hall y Hy. apply elem_of_cons in Hy as [->|Hy]; auto.
      * intros Hall y Hy. apply Hall. by apply list_elem_of_further.
Qed.

(** X10. [is_bulk_archive_valid] answers [True] exactly for a file that
    exists under a bulk archive name, whose extension and content are
    both classified as tar, that could be extracted into the root
    directory, and whose members all carry submission names. *)
Theorem valid_bulk_archive_exactly_when (fs : fs_state) (file_path : string) :
  BulkArchiveHandler.is_bulk_archive_valid fs file_path = Ok true <->
  BulkArchiveHandler.is_bulk_archive_filename file_path = true
  /\ FileSystem.is_file fs file_path = true
  /\ FILE_TYPE_ARCHIVE_TAR ∈ FileHandler.get_file_type_from_extension file_path
  /\ FileHandler.get_file_type_from_format fs file_path true = Ok FILE_TYPE_ARCHIVE_TAR
  /\ ArchiveHandler.is_extract_possible fs file_path "/" = Ok true
  /\ exists archive_contents,
       ArchiveHandler.list_contents fs file_path = Ok archive_contents
       /\ forall entry, entry ∈ archive_contents ->
            SubmissionHandler.is_submission_filename entry = true.
Proof.
  unfold BulkArchiveHandler.is_bulk_archive_valid, BulkArchiveHandler.check_bulk_archive,
    ArchiveHandler.is_extract_possible.
  destruct (BulkArchiveHandler.is_bulk_archive_filename file_path); cbn [negb app];
    [|error_logged; by intros [? _]].
  rewrite (bool_decide_eq_true_2 ([] = [])) by reflexivity.
  destruct (FileSystem.is_file fs file_path); cbn [negb app];
    [|error_logged; by intros (_ & ? & _)].
  rewrite (bool_decide_eq_true_2 ([] = [])) by reflexivity.
  destruct (decide (FILE_TYPE_ARCHIVE_TAR
                      ∈ FileHandler.get_file_type_from_extension file_path)) as [Hext|Hext];
    [rewrite (bool_decide_eq_true_2 _ Hext)|rewrite (bool_decide_eq_false_2 _ Hext)];
    cbn [negb app]; step_result;
    [|error_logged; by intros (_ & _ & ? & _)].
  destruct (FileHandler.get_file_type_from_format fs file_path true) as [format|e|];
    step_result; [|split; [discriminate|by intros (_ & _ & _ & ? & _)]..].
  destruct (decide (FILE_TYPE_ARCHIVE_TAR = format)) as [<-|Hformat];
    [rewrite bool_decide_eq_false_2 by (intros Hne; by apply Hne)
    |rewrite (bool_decide_eq_true_2 _ Hformat)]; step_result; cbn [app];
    [|error_logged; intros (_ & _ & _ & [= ?] & _); exfalso; by apply Hformat].
  rewrite (bool_decide_eq_true_2 ([] = [])) by reflexivity.
  destruct (ArchiveHandler.check_extract_possible fs file_path "/") as [errors|e|];
    step_result; cbn [app]; [|split; [discriminate|by intros (_ & _ & _ & _ & ? & _)]..].
  rewrite length_zero_nil.
  destruct errors as [|error errors];
    [rewrite !(bool_decide_eq_true_2 ([] = [])) by reflexivity
    |error_logged; by intros (_ & _ & _ & _ & ? & _)].
  destruct (ArchiveHandler.list_contents fs file_path) as [contents|e|];
    step_result; [|split; [discriminate|by intros (_ & _ & _ & _ & _ & ? & ? & _)]..].
  set (invalid := List.filter _ contents).
  destruct (decide (invalid = [])) as [Hnone|Hsome];
    [rewrite (bool_decide_eq_true_2 _ Hnone)|rewrite (bool_decide_eq_false_2 _ Hsome)];
    cbn [negb app]; step_result.
  - split; [|done]. intros _. do 5 (split; [done|]). exists contents. split; [done|].
    intros entry Hentry. apply (proj1 (filter_nil_Forall _ _) Hnone) in Hentry.
    by apply negb_false_iff in Hentry.
  - split; [discriminate|]. intros (_ & _ & _ & _ & _ & contents' & [= <-] & Hall).
    exfalso. apply Hsome. apply filter_nil_Forall. intros entry Hentry.
    by rewrite (Hall entry Hentry).
Qed.

(** X11. [is_submission_valid] answers [True] exactly for a file that
    exists under a submission name and whose content is classified as a
    gzip file, a gzipped tar archive or a PDF file, a type its extension
    allows; an archive must moreover be extractable into the root
    directory. *)
Theorem valid_submission_exactly_when (fs : fs_state) (file_path : string) :
  SubmissionHandler.is_submission_valid fs file_path = Ok true <->
  SubmissionHandler.is_submission_filename file_path = true
  /\ FileSystem.is_file fs file_path = true
  /\ exists format,
       FileHandler.get_file_type_from_format fs file_path true = Ok format
       /\ format ∈ [FILE_TYPE_ARCHIVE_GZ; FILE_TYPE_ARCHIVE_TGZ; FILE_TYPE_PDF]
       /\ format ∈ FileHandler.get_file_type_from_extension file_path
       /\ (format <> FILE_TYPE_PDF ->
           ArchiveHandler.is_extract_possible fs file_path "/" = Ok true).
Proof.
  unfold SubmissionHandler.is_submission_valid, SubmissionHandler.check_submission,
    ArchiveHandler.is_extract_possible.
  destruct (SubmissionHandler.is_submission_filename file_path); cbn [negb app];
    [|error_logged; by intros [? _]].
  rewrite (bool_decide_eq_true_2 ([] = [])) by reflexivity.
  destruct (FileSystem.is_file fs file_path); cbn [negb app];
    [|error_logged; by intros (_ & ? & _)].
  rewrite (bool_decide_eq_true_2 ([] = [])) by reflexivity.
  destruct (FileHandler.get_file_type_from_format fs file_path true) as [format|e|];
    step_result; [|split; [discriminate|by intros (_ & _ & ? & ? & _)]..].
  set (by_extension := FileHandler.get_file_type_from_extension file_path).
  set (allowed := [FILE_TYPE_ARCHIVE_GZ; FILE_TYPE_ARCHIVE_TGZ; FILE_TYPE_PDF]).
  destruct (existsb (fun file_type => bool_decide (file_type ∈ allowed)) by_extension)
    eqn:Hany; cbn [negb app].
  2:{ error_logged. intros (_ & _ & format' & [= <-] & Hallowed & Hext & _).
      exfalso. apply not_true_iff_false in Hany. apply Hany.
      apply existsb_exists. exists format. split; [by apply list_elem_of_In|].
      by apply bool_decide_eq_true. }
  destruct (decide (format ∈ allowed)) as [Hallowed|Hallowed];
    [rewrite (bool_decide_eq_true_2 _ Hallowed)|rewrite (bool_decide_eq_false_2 _ Hallowed)];
    cbn [negb app].
  2:{ error_logged. by intros (_ & _ & format' & [= <-] & ? & _). }
  destruct (decide (format ∈ by_extension)) as [Hext|Hext];
    [rewrite (bool_decide_eq_true_2 _ Hext)|rewrite (bool_decide_eq_false_2 _ Hext)];
    cbn [negb app].
  2:{ error_logged. by intros (_ & _ & format' & [= <-] & _ & ? & _). }
  rewrite (bool_decide_eq_true_2 ([] = [])) by reflexivity. rewrite andb_true_l.
  destruct (decide (format = FILE_TYPE_PDF)) as [->|Hpdf].
  - rewrite bool_decide_eq_false_2
      by (intros Hin; repeat (apply elem_of_cons in Hin as [Hin|Hin]; [discriminate|]);
          by apply elem_of_nil in Hin).
    step_result. split; [|done]. intros _. do 2 (split; [done|]).
    exists FILE_TYPE_PDF. do 3 (split; [done|]). done.
  - assert (Harchive : format ∈ [FILE_TYPE_ARCHIVE_GZ; FILE_TYPE_ARCHIVE_TGZ]).
    { unfold allowed in Hallowed.
      repeat (apply elem_of_cons in Hallowed as [->|Hallowed]);
        [apply list_elem_of_here|apply list_elem_of_further, list_elem_of_here|done|].
      by apply elem_of_nil in Hallowed. }
    rewrite (bool_decide_eq_true_2 _ Harchive).
    destruct (ArchiveHandler.check_extract_possible fs file_path "/") as [errors|e|];
      step_result; cbn [app].
    + rewrite length_zero_nil. split.
      * intros [= Hnone]. do 2 (split; [done|]). exists format. do 3 (split; [done|]).
        intros _. by rewrite Hnone.
      * intros (_ & _ & format' & [= <-] & _ & _ & Hpossible).
        specialize (Hpossible Hpdf). by injection Hpossible as ->.
    + split; [discriminate|]. intros (_ & _ & format' & [= <-] & _ & _ & Hpossible).
      by specialize (Hpossible Hpdf).
    + split; [discriminate|]. intros (_ & _ & format' & [= <-] & _ & _ & Hpossible).
      by specialize (Hpossible Hpdf).
Qed.

End validators.

(** * Comparing and querying manifests *)

Section manifest_comparison.
Context `{clock : !DateTime}.

(** The comparison always ends. *)
Lemma is_newer_than_returns (a b : ManifestState) :
  Manifest.is_newer_than a b <> NoReturn.
Proof.
  unfold Manifest.is_newer_than, dict_getitem,
    TimeService.is_iso_timestamp_newer, TimeService.fromisoformat.
  repeat (case_match; step_result; try discriminate).
Qed.

(** What a comparison that answers is made of. *)
Lemma is_newer_than_Ok_inv (a b : ManifestState) (answer : bool) :
  Manifest.is_newer_than a b = Ok answer ->
  exists ta tb,
    manifest_timestamp a = Some ta /\ manifest_timestamp b = Some tb
    /\ (ta = tb \/
        exists ia ib, datetime_fromisoformat ta = Some ia
                      /\ datetime_fromisoformat tb = Some ib).
Proof.
  unfold Manifest.is_newer_than, manifest_timestamp, dict_getitem.
  destruct (manifest_metadata a !! "manifest_timestamp_iso") as [ta|];
    [|discriminate].
  destruct (manifest_metadata b !! "manifest_timestamp_iso") as [tb|];
    [|discriminate].
  step_result. intros Hanswer. exists ta, tb. do 2 (split; [done|]).
  case_bool_decide as Ht; [by left|]. right. revert Hanswer.
  unfold TimeService.is_iso_timestamp_newer, TimeService.fromisoformat.
  destruct (datetime_fromisoformat ta) as [ia|]; [|discriminate].
  destruct (datetime_fromisoformat tb) as [ib|]; [|discriminate]. eauto.
Qed.

(** X12. The comparison cannot answer [True] both ways: when the first
    manifest is newer than the second, the second compared with the first
    answers [False], without raising. *)
Theorem is_newer_than_asymmetric (a b : ManifestState) :
  Manifest.is_newer_than a b = Ok true ->
  Manifest.is_newer_than b a = Ok false.
Proof.
  intros Hab.
  destruct (is_newer_than_Ok_inv a b true Hab) as (ta & tb & Ha & Hb & Hparsed).
  destruct Hparsed as [->|(ia & ib & Hia & Hib)].
  - exfalso. revert Hab. unfold Manifest.is_newer_than, manifest_timestamp, dict_getitem in *.
    rewrite Ha, Hb. step_result. rewrite bool_decide_eq_true_2 by done.
    case_match; discriminate.
  - rewrite (is_newer_than_unfold a b ta tb ia ib Ha Hb Hia Hib) in Hab.
    rewrite (is_newer_than_unfold b a tb ta ib ia Hb Ha Hib Hia).
    cbv zeta in *.
    destruct (decide (ta = tb)) as [->|Ht].
    + rewrite bool_decide_eq_true_2 in Hab by done. by case_match.
    + rewrite bool_decide_eq_false_2 in Hab by done.
      rewrite bool_decide_eq_false_2 by congruence.
      destruct (Z.ltb_spec ib ia) as [Hlt|Hge];
        [|repeat case_match; discriminate].
      rewrite (proj2 (Z.ltb_ge ia ib)) by lia.
      destruct (bool_decide (Manifest.list_keys a ⊆ Manifest.list_keys b));
        [discriminate|].
      destruct (bool_decide (Manifest.list_keys b ⊆ Manifest.list_keys a));
        [reflexivity|discriminate].
Qed.


(** X14. When the first manifest is newer than the second,
    [find_updated_entries] returns the keys both manifests hold with
    different MD5 digests, and none of them is a key [find_new_entries]
    reports; otherwise it raises. *)
Theorem find_updated_entries_changed_digests (a b : ManifestState) :
  (Manifest.is_newer_than a b = Ok true ->
     exists updated,
       Manifest.find_updated_entries a b = Ok updated
       /\ (forall key, key ∈ updated <->
             exists entry_a entry_b,
               manifest_contents a !! key = Some entry_a
               /\ manifest_contents b !! key = Some entry_b
               /\ me_hash_MD5 entry_a <> me_hash_MD5 entry_b)
       /\ forall added, Manifest.find_new_entries a b = Ok added -> updated ## added)
  /\ (Manifest.is_newer_than a b <> Ok true ->
        raises (Manifest.find_updated_entries a b)).
Proof.
  unfold Manifest.find_updated_entries, Manifest.find_new_entries. split.
  - intros ->. step_result. eexists. split; [reflexivity|].
    assert (Hupdated : forall key,
      key ∈ filter (fun key => me_hash_MD5 <$> manifest_contents a !! key
                               ≠ me_hash_MD5 <$> manifest_contents b !! key)
                   (Manifest.list_keys a ∩ Manifest.list_keys b)
      <-> exists entry_a entry_b,
            manifest_contents a !! key = Some entry_a
            /\ manifest_contents b !! key = Some entry_b
            /\ me_hash_MD5 entry_a <> me_hash_MD5 entry_b).
    { intros key. rewrite elem_of_filter, elem_of_intersection.
      unfold Manifest.list_keys. rewrite !elem_of_dom. split.
      - intros (Hdiff & [ea Hea] & [eb Heb]). exists ea, eb.
        rewrite Hea, Heb in Hdiff. cbn in Hdiff. do 2 (split; [done|]). congruence.
      - intros (ea & eb & Hea & Heb & Hdiff). rewrite Hea, Heb. cbn.
        split; [congruence|]. split; eauto. }
    split; [exact Hupdated|].
    intros added [= <-]. apply elem_of_disjoint. intros key Hup Hnew.
    apply Hupdated in Hup as (ea & eb & _ & Heb & _).
    apply elem_of_difference in Hnew as [_ Hnew]. apply Hnew. unfold Manifest.list_keys. apply elem_of_dom. eauto.
  - intros Hnot. pose proof (is_newer_than_returns a b) as Hreturns.
    destruct (Manifest.is_newer_than a b) as [[|]|e|]; step_result;
      try done; apply raises_Raise.
Qed.

End manifest_comparison.

(** X15. [list_entries_by_date] lists each key once: for one month, the
    keys whose entry carries that year and that month; from a month
    onwards, the keys whose entry carries a later year, or that year and
    a month not earlier.  The second list holds the first. *)
Theorem list_entries_by_date_selects (self : ManifestState) (year month : Z) :
  (forall key,
     key ∈ Manifest.list_entries_by_date self year month false <->
     exists entry, manifest_contents self !! key = Some entry
                   /\ me_year entry = year /\ me_month entry = month)
  /\ (forall key,
        key ∈ Manifest.list_entries_by_date self year month true <->
        exists entry, manifest_contents self !! key = Some entry
                      /\ (year < me_year entry
                          \/ (me_year entry = year /\ month <= me_month entry)))
  /\ (forall key, key ∈ Manifest.list_entries_by_date self year month false ->
                  key ∈ Manifest.list_entries_by_date self year month true)
  /\ forall is_from_date_onwards,
       NoDup (Manifest.list_entries_by_date self year month is_from_date_onwards).
Proof.
  assert (Hfilter : forall (p : string * ManifestEntry -> bool) key,
    key ∈ (List.filter p (map_to_list (manifest_contents self))).*1 <->
    exists entry, manifest_contents self !! key = Some entry /\ p (key, entry) = true).
  { intros p key. rewrite list_elem_of_fmap. split.
    - intros ([k e] & -> & Hin). apply list_elem_of_In, filter_In in Hin as [Hin Hp].
      apply list_elem_of_In, elem_of_map_to_list in Hin. eauto.
    - intros (e & He & Hp). exists (key, e). split; [done|].
      apply list_elem_of_In, filter_In. split; [|done].
      by apply list_elem_of_In, elem_of_map_to_list. }
  assert (Hexact : forall key,
     key ∈ Manifest.list_entries_by_date self year month false <->
     exists entry, manifest_contents self !! key = Some entry
                   /\ me_year entry = year /\ me_month entry = month).
  { intros key. unfold Manifest.list_entries_by_date. rewrite Hfilter.
    split; intros (e & He & Hp); exists e; (split; [done|]); cbn [snd] in *.
    - apply bool_decide_eq_true in Hp. by injection Hp.
    - apply bool_decide_eq_true. by destruct Hp as [-> ->]. }
  assert (Honwards : forall key,
     key ∈ Manifest.list_entries_by_date self year month true <->
     exists entry, manifest_contents self !! key = Some entry
                   /\ (year < me_year entry
                       \/ (me_year entry = year /\ month <= me_month entry))).
  { intros key. unfold Manifest.list_entries_by_date. rewrite Hfilter.
    split; intros (e & He & Hp); exists e; (split; [done|]);
      unfold Manifest.pair_ge in *; cbn [fst snd] in *.
    - case_bool_decide; [apply Z.leb_le in Hp|apply Z.ltb_lt in Hp]; lia.
    - case_bool_decide; [apply Z.leb_le|apply Z.ltb_lt]; lia. }
  split; [exact Hexact|]. split; [exact Honwards|]. split.
  - intros key (e & He & Hy & Hm)%Hexact. apply Honwards. exists e. split; [done|]. lia.
  - assert (Hsub : forall (p : string * ManifestEntry -> bool)
                          (l : list (string * ManifestEntry)),
              NoDup l.*1 -> NoDup (List.filter p l).*1).
    { intros p. induction l as [|kv l IH]; [done|]. cbn [fmap list_fmap List.filter].
      intros [Hnew Hl]%NoDup_cons. destruct (p kv); [|by apply IH].
      cbn [fmap list_fmap]. apply NoDup_cons. split; [|by apply IH].
      intros Hin. apply Hnew. apply list_elem_of_fmap in Hin as (kv' & -> & Hin).
      apply list_elem_of_fmap. exists kv'. split; [done|].
      by apply list_elem_of_In, filter_In in Hin as [?%list_elem_of_In _]. }
    intros [|]; unfold Manifest.list_entries_by_date; apply Hsub, NoDup_fst_map_to_list.
Qed.

Section manifest_and_directory.
Context (list_files : fs_state -> string -> result (list string)).

Lemma filter_sublist {A} (p : A -> bool) (l : list A) : sublist (List.filter p l) l.
Proof.
  induction l as [|x l IH]; [done|]. cbn [List.filter].
  case_match; [by apply sublist_skip|by apply sublist_cons].
Qed.

(** X16. The two comparisons of a manifest with a directory raise
    [FileNotFoundError] when the directory is missing.  Otherwise
    [find_keys_without_local_files] returns the keys of the given list, in
    their order, that the manifest holds and whose archive is not among
    the files listed -- a key the manifest does not hold is never
    reported -- and [find_bulk_archive_files_not_in_manifest] returns the
    listed files, in their order, that carry a bulk archive name and are
    not the base name of an entry of the manifest. *)
Theorem manifest_against_directory (self : ManifestState)
    (fs : fs_state) (directory_path : string) (key_list : list string) :
  (FileSystem.is_directory fs directory_path = false ->
     (exists msg,
        Manifest.find_keys_without_local_files list_files self fs directory_path key_list
        = Raise (FileNotFoundError msg))
     /\ exists msg,
          Manifest.find_bulk_archive_files_not_in_manifest list_files self fs
            directory_path
          = Raise (FileNotFoundError msg))
  /\ forall local_files,
       FileSystem.is_directory fs directory_path = true ->
       list_files fs directory_path = Ok local_files ->
       (exists missing_keys,
          Manifest.find_keys_without_local_files list_files self fs directory_path key_list
          = Ok missing_keys
          /\ sublist missing_keys key_list
          /\ forall key,
               key ∈ missing_keys <->
               key ∈ key_list
               /\ exists entry,
                    manifest_contents self !! key = Some entry
                    /\ FileName.get_file_basename (me_filename entry) ∉ local_files)
       /\ exists missing_files,
            Manifest.find_bulk_archive_files_not_in_manifest list_files self fs
              directory_path
            = Ok missing_files
            /\ sublist missing_files local_files
            /\ forall f,
                 f ∈ missing_files <->
                 f ∈ local_files
                 /\ BulkArchiveHandler.is_bulk_archive_filename f = true
                 /\ forall key entry, manifest_contents self !! key = Some entry ->
                      FileName.get_file_basename (me_filename entry) <> f.
Proof.
  unfold Manifest.find_keys_without_local_files,
    Manifest.find_bulk_archive_files_not_in_manifest. split.
  - intros ->. cbn [negb]. eauto.
  - intros local_files -> ->. cbn [negb]. step_result. split.
    + eexists. split; [reflexivity|]. split; [apply filter_sublist|].
      intros key. rewrite list_elem_of_In, filter_In, <- list_elem_of_In.
      split.
      * intros [Hin Hp]. split; [done|].
        destruct (manifest_contents self !! key) as [entry|]; [|discriminate].
        exists entry. split; [done|]. apply negb_true_iff, bool_decide_eq_false in Hp.
        intros Hlocal. apply Hp. by apply elem_of_list_to_set.
      * intros [Hin (entry & -> & Hlocal)]. split; [done|].
        apply negb_true_iff, bool_decide_eq_false. intros Hset. apply Hlocal.
        by apply elem_of_list_to_set in Hset.
    + eexists. split; [reflexivity|].
      split; [etrans; apply filter_sublist|].
      intros f. rewrite list_elem_of_In, !filter_In, <- list_elem_of_In.
      rewrite negb_true_iff, bool_decide_eq_false. unfold Manifest.list_filenames.
      rewrite list_elem_of_fmap. split.
      * intros [[Hin Hname] Hnot]. do 2 (split; [done|]). intros key entry Hkey Hf.
        apply Hnot. exists (key, entry). split; [done|]. by apply elem_of_map_to_list.
      * intros (Hin & Hname & Hnot). split; [done|].
        intros ([key entry] & -> & Hkey). apply elem_of_map_to_list in Hkey.
        by apply (Hnot key entry).
Qed.

End manifest_and_directory.

(** * Statistics of a manifest *)

(** One step of the loop of [get_statistics], read at a key. *)
Lemma statistics_step (statistics : gmap (Z * Z) MonthStatistics)
    (kv : string * ManifestEntry) (key : Z * Z) :
  let entry := kv.2 in
  let month := (me_year entry, me_month entry) in
  let before := default {| stat_size_bytes := 0; stat_n_submissions := 0 |}
                        (statistics !! month) in
  (alter (fun s => {| stat_size_bytes := stat_size_bytes s;
                      stat_n_submissions := stat_n_submissions s + me_n_submissions entry |})
         month
     (alter (fun s => {| stat_size_bytes := stat_size_bytes s + me_size_bytes entry;
                         stat_n_submissions := stat_n_submissions s |})
            month
        (if bool_decide (statistics !! month = None)
         then <[month := {| stat_size_bytes := 0; stat_n_submissions := 0 |}]> statistics
         else statistics))) !! key
  = if bool_decide (month = key)
    then Some {| stat_size_bytes := stat_size_bytes before + me_size_bytes entry;
                 stat_n_submissions := stat_n_submissions before + me_n_submissions entry |}
    else statistics !! key.
Proof.
  cbv zeta. set (month := (me_year kv.2, me_month kv.2)).
  destruct (decide (month = key)) as [Hkey|Hkey];
    [rewrite (bool_decide_eq_true_2 _ Hkey)|rewrite (bool_decide_eq_false_2 _ Hkey)].
  - rewrite <- Hkey. rewrite !lookup_alter_eq.
    destruct (statistics !! month) as [s|] eqn:Hs.
    + rewrite bool_decide_eq_false_2 by done. by rewrite Hs.
    + rewrite bool_decide_eq_true_2 by done. by rewrite lookup_insert_eq.
  - rewrite !lookup_alter_ne by done. case_bool_decide; [|done].
    by rewrite lookup_insert_ne.
Qed.

(** X17. [get_statistics] holds a month exactly when the manifest has an
    entry of that year and month, and then its two numbers are the sums of
    [size_bytes] and of [n_submissions] over the entries of that month. *)
Theorem get_statistics_sums_by_month (self : ManifestState) (key : Z * Z) :
  let of_month :=
    List.filter (fun kv => bool_decide ((me_year kv.2, me_month kv.2) = key))
                (map_to_list (manifest_contents self)) in
  Manifest.get_statistics self !! key
  = match of_month with
    | [] => None
    | _ => Some {| stat_size_bytes :=
                     foldr Z.add 0 (map (fun kv => me_size_bytes kv.2) of_month);
                   stat_n_submissions :=
                     foldr Z.add 0 (map (fun kv => me_n_submissions kv.2) of_month) |}
    end.
Proof.
  cbv zeta. unfold Manifest.get_statistics.
  set (p := fun kv : string * ManifestEntry =>
              bool_decide ((me_year kv.2, me_month kv.2) = key)).
  set (step := fun (statistics : gmap (Z * Z) MonthStatistics) kv => _).
  assert (Hfold : forall l statistics,
    fold_left step l statistics !! key
    = match List.filter p l with
      | [] => statistics !! key
      | _ =>
          let before := default {| stat_size_bytes := 0; stat_n_submissions := 0 |}
                                (statistics !! key) in
          Some {| stat_size_bytes :=
                    stat_size_bytes before
                    + foldr Z.add 0 (map (fun kv => me_size_bytes kv.2) (List.filter p l));
                  stat_n_submissions :=
                    stat_n_submissions before
                    + foldr Z.add 0 (map (fun kv => me_n_submissions kv.2)
                                         (List.filter p l)) |}
      end).
  { induction l as [|kv l IH]; intros statistics; [reflexivity|].
    cbn [fold_left List.filter]. rewrite IH.
    assert (Hstep : step statistics kv !! key = _)
      by exact (statistics_step statistics kv key).
    cbv zeta in Hstep. rewrite !Hstep. clear Hstep.
    destruct (decide ((me_year kv.2, me_month kv.2) = key)) as [Hkey|Hkey].
    - assert (Hp : p kv = true) by (by apply bool_decide_eq_true).
      rewrite Hp, !(bool_decide_eq_true_2 _ Hkey), Hkey.
      cbn [map foldr default].
      destruct (List.filter p l); cbn [map foldr]; f_equal; f_equal; simpl; lia.
    - assert (Hp : p kv = false) by (by apply bool_decide_eq_false).
      by rewrite Hp, !(bool_decide_eq_false_2 _ Hkey). }
  rewrite Hfold, lookup_empty. destruct (List.filter p _); [done|].
  cbn [default stat_size_bytes stat_n_submissions]. f_equal.
Qed.

(** * Reading the arXiv manifest *)

Lemma is_digit_bounds (c : ascii) :
  Str.is_digit c = true <-> 48 <= Str.code c <= 57.
Proof. unfold Str.is_digit. rewrite andb_true_iff, !Z.leb_le. reflexivity. Qed.

Lemma is_digit_not_space (c : ascii) : Str.is_digit c = true -> Str.is_space c = false.
Proof.
  intros Hc%is_digit_bounds. unfold Str.is_space.
  repeat match goal with
         | |- context [?a <=? ?b] => destruct (Z.leb_spec a b)
         | |- context [?a =? ?b] => destruct (Z.eqb_spec a b)
         end; cbn; try reflexivity; lia.
Qed.

Lemma is_digit_not_char (c d : ascii) :
  Str.is_digit c = true -> Str.is_digit d = false -> bool_decide (c = d) = false.
Proof. intros Hc Hd. apply bool_decide_eq_false. intros ->. congruence. Qed.

Lemma lstrip_chars_digit (c : ascii) (l : list ascii) :
  Str.is_digit c = true -> Str.lstrip_chars (c :: l) = c :: l.
Proof. intros Hc. cbn. by rewrite (is_digit_not_space c Hc). Qed.

Lemma strip_chars_digits (l : list ascii) :
  forallb Str.is_digit l = true -> Str.strip_chars l = l.
Proof.
  intros Hl. unfold Str.strip_chars.
  assert (Hstrip : forall l, forallb Str.is_digit l = true -> Str.lstrip_chars l = l).
  { intros [|c l']; [done|]. cbn [forallb]. intros [Hc _]%andb_true_iff.
    by apply lstrip_chars_digit. }
  rewrite (Hstrip l Hl), Hstrip, rev_involutive; [done|].
  rewrite forallb_forall in *. intros c Hc. apply Hl. by apply in_rev.
Qed.

Lemma literal_digits_digits (l : list ascii) :
  forallb Str.is_digit l = true ->
  Str.literal_digits l true = Some l
  /\ (l <> [] -> Str.literal_digits l false = Some l).
Proof.
  induction l as [|c l IH]; [done|]. cbn [forallb Str.literal_digits].
  intros [Hc Hl]%andb_true_iff. rewrite Hc. destruct (IH Hl) as [-> _]. done.
Qed.

(** [int] on a string of digits. *)
Lemma to_int_digits (l : list ascii) :
  forallb Str.is_digit l = true -> l <> [] -> (List.length l <= 4300)%nat ->
  Str.to_int (Str.of_list l) = Ok (digits_value l).
Proof.
  intros Hl Hne Hlen. unfold Str.to_int. rewrite to_list_of_list, strip_chars_digits by done.
  destruct l as [|c l'] eqn:El; [done|]. rewrite <- El in *.
  assert (Hc : Str.is_digit c = true)
    by (rewrite El in Hl; cbn in Hl; by apply andb_true_iff in Hl as [? _]).
  rewrite El at 1. rewrite !(is_digit_not_char c) by done.
  rewrite <- El.
  destruct (literal_digits_digits l Hl) as [_ ->]; [|done].
  by rewrite (proj2 (Nat.ltb_ge _ _)) by done.
Qed.

Lemma to_int_nonempty (s : string) (n : Z) :
  Str.to_int s = Ok n -> s <> "".
Proof. intros Hn ->. discriminate. Qed.

Section reading_the_manifest.
Context (eastern_to_utc_iso : string -> string -> result string).

Lemma is_file_entry_consistent_inv (file_entry : gmap string string) :
  Manifest._is_file_entry_consistent file_entry = Ok true ->
  exists yymm seq_num_text seq_num month,
    file_entry !! "yymm" = Some yymm
    /\ file_entry !! "seq_num" = Some seq_num_text
    /\ Str.to_int seq_num_text = Ok seq_num
    /\ file_entry !! "filename"
       = Some ("src/arXiv_src_" +:+ yymm +:+ "_" +:+ Str.format_03d seq_num +:+ ".tar")
    /\ Str.to_int (Str.slice_from 2 yymm) = Ok month
    /\ 1 <= month <= 12.
Proof.
  unfold Manifest._is_file_entry_consistent.
  intros (seq_num_text & Hseq%dict_getitem_Ok & Hrest)%bind_Ok_inv.
  apply bind_Ok_inv in Hrest as (seq_num & Hnum & Hrest).
  apply bind_Ok_inv in Hrest as (yymm & Hyymm%dict_getitem_Ok & Hrest).
  apply bind_Ok_inv in Hrest as (entry_filename & Hname%dict_getitem_Ok & Hrest).
  apply bind_Ok_inv in Hrest as (yymm' & Hyymm'%dict_getitem_Ok & Hrest).
  assert (yymm' = yymm) as -> by congruence.
  apply bind_Ok_inv in Hrest as (month & Hmonth & Hrest).
  exists yymm, seq_num_text, seq_num, month. revert Hrest. step_result.
  destruct (Z.leb_spec month 0); [discriminate|].
  destruct (Z.ltb_spec 12 month); [discriminate|]. cbn [orb].
  case_bool_decide as Hsame; [discriminate|]. intros _. rewrite Hsame in Hname.
  do 5 (split; [done|]). lia.
Qed.

(** What [_process_file_entry] returns is made of. *)
Lemma process_file_entry_inv (file_entry : gmap string string) (entry : ManifestEntry) :
  Manifest._process_file_entry eastern_to_utc_iso file_entry = Ok entry ->
  exists yymm yy,
    file_entry !! "yymm" = Some yymm
    /\ me_filename entry
       = "src/arXiv_src_" +:+ yymm +:+ "_"
         +:+ Str.format_03d (me_sequence_number entry) +:+ ".tar"
    /\ Str.to_int (Str.slice_from 2 yymm) = Ok (me_month entry)
    /\ 1 <= me_month entry <= 12
    /\ Str.to_int (Str.slice_to 2 yymm) = Ok yy
    /\ Str.to_int ((if 90 <? yy then "19" else "20") +:+ Str.slice_to 2 yymm)
       = Ok (me_year entry).
Proof.
  unfold Manifest._process_file_entry.
  intros (is_consistent & Hconsistent & Hrest)%bind_Ok_inv.
  destruct is_consistent; [|discriminate]. cbn [negb] in Hrest.
  apply is_file_entry_consistent_inv in Hconsistent
    as (yymm & seq_num_text & seq_num & month & Hyymm & Hseq & Hnum & Hname & Hmonth & Hrange).
  unfold dict_getitem in Hrest. rewrite Hyymm, Hseq, Hname in Hrest.
  revert Hrest. step_result.
  destruct (file_entry !! "size") as [size|]; [|discriminate].
  destruct (Str.to_int size) as [size_bytes| |]; [|discriminate..].
  destruct (file_entry !! "timestamp") as [timestamp|]; [|discriminate].
  destruct (Manifest._convert_arxiv_file_entry_timestamp_to_iso eastern_to_utc_iso timestamp)
    as [timestamp_iso| |]; [|discriminate..].
  destruct (Str.to_int (Str.slice_to 2 yymm)) as [yy| |] eqn:Hyy; [|discriminate..].
  destruct (Str.to_int (if 90 <? yy then "19" +:+ Str.slice_to 2 yymm
                        else "20" +:+ Str.slice_to 2 yymm)) as [year| |] eqn:Hyear;
    [|discriminate..].
  rewrite Hmonth, Hnum.
  destruct (file_entry !! "num_items") as [num_items|]; [|discriminate].
  destruct (Str.to_int num_items) as [n_submissions| |]; [|discriminate..].
  destruct (file_entry !! "md5sum") as [md5sum|]; [|discriminate].
  destruct (file_entry !! "content_md5sum") as [content_md5sum|]; [|discriminate].
  intros [= <-]. cbn [me_filename me_month me_year me_sequence_number].
  exists yymm, yy. do 5 (split; [done|]). rewrite <- Hyear. by destruct (90 <? yy).
Qed.

(** X18. An entry [_process_file_entry] returns has a month between 1
    and 12 and carries the file name [src/arXiv_src_{yymm}_{seq}.tar] made
    from its own sequence number.  When [yymm] is made of digits, it has
    three digits at least and the year is 1991 to 1999 for the two-digit
    years above 90, and 2000 to 2090 for the others. *)
Theorem process_file_entry_dates (file_entry : gmap string string)
    (entry : ManifestEntry) :
  Manifest._process_file_entry eastern_to_utc_iso file_entry = Ok entry ->
  exists yymm,
    file_entry !! "yymm" = Some yymm
    /\ 1 <= me_month entry <= 12
    /\ me_filename entry
       = "src/arXiv_src_" +:+ yymm +:+ "_"
         +:+ Str.format_03d (me_sequence_number entry) +:+ ".tar"
    /\ (forallb Str.is_digit (Str.to_list yymm) = true ->
        (3 <= String.length yymm)%nat
        /\ exists yy, Str.to_int (Str.slice_to 2 yymm) = Ok yy
             /\ 0 <= yy <= 99
             /\ me_year entry = (if 90 <? yy then 1900 + yy else 2000 + yy)
             /\ 1991 <= me_year entry <= 2090).
Proof.
  intros (yymm & yy & Hyymm & Hname & Hmonth & Hrange & Hyy & Hyear)%process_file_entry_inv.
  exists yymm. do 3 (split; [done|]). intros Hdigits.
  unfold Str.slice_to, Str.slice_from in *.
  assert (Hlength : String.length yymm = List.length (Str.to_list yymm))
    by (rewrite <- (of_list_to_list yymm) at 1;
        apply length_of_list).
  rewrite Hlength. clear Hlength.
  destruct (Str.to_list yymm) as [|d1 [|d2 [|d3 rest]]];
    try (by apply to_int_nonempty in Hmonth).
  clear Hmonth. cbn [take] in *. cbn [forallb] in Hdigits.
  apply andb_true_iff in Hdigits as [H1 Hdigits].
  apply andb_true_iff in Hdigits as [H2 _].
  split; [cbn; lia|].
  assert (Hyy' : Str.to_int (Str.of_list [d1; d2]) = Ok (digits_value [d1; d2]))
    by (apply to_int_digits; cbn; rewrite ?H1, ?H2; cbn; done || lia).
  rewrite Hyy' in Hyy. injection Hyy as <-. exists (digits_value [d1; d2]).
  apply is_digit_bounds in H1 as B1. apply is_digit_bounds in H2 as B2.
  assert (Hvalue : digits_value [d1; d2] = 10 * (Str.code d1 - 48) + (Str.code d2 - 48))
    by (unfold digits_value; cbn [fold_left]; lia).
  split; [exact Hyy'|]. split; [lia|].
  assert (Hy : me_year entry
               = if 90 <? digits_value [d1; d2] then 1900 + digits_value [d1; d2]
                 else 2000 + digits_value [d1; d2]).
  { destruct (90 <? digits_value [d1; d2]).
    - change ("19" +:+ Str.of_list [d1; d2])
        with (Str.of_list ["1"%char; "9"%char; d1; d2]) in Hyear.
      rewrite to_int_digits in Hyear
        by (cbn; rewrite ?H1, ?H2; cbn; done || lia).
      injection Hyear as <-. unfold digits_value. cbn [fold_left].
      change (Str.code "1"%char) with 49. change (Str.code "9"%char) with 57. lia.
    - change ("20" +:+ Str.of_list [d1; d2])
        with (Str.of_list ["2"%char; "0"%char; d1; d2]) in Hyear.
      rewrite to_int_digits in Hyear
        by (cbn; rewrite ?H1, ?H2; cbn; done || lia).
      injection Hyear as <-. unfold digits_value. cbn [fold_left].
      change (Str.code "2"%char) with 50. change (Str.code "0"%char) with 48. lia. }
  split; [exact Hy|]. rewrite Hy. destruct (Z.ltb_spec 90 (digits_value [d1; d2])); lia.
Qed.

End reading_the_manifest.

Section importing_the_manifest.
Context (eastern_to_utc_iso : string -> string -> result string).
Context (is_xml_format : fs_state -> string -> result bool).
Context (read_xml_to_dict : fs_state -> string -> result (list (string * Xml))).



(** The loop over the entries, however it ends. *)
Lemma import_file_entries_any (entries : list Xml) (self : ManifestState) :
  let after := (Manifest.import_file_entries eastern_to_utc_iso entries self).2 in
  manifest_metadata after = manifest_metadata self
  /\ forall key entry, manifest_contents after !! key = Some entry ->
       manifest_contents self !! key = Some entry
       \/ (FileName.get_file_basename (me_filename entry) = key
           /\ 1 <= me_month entry <= 12).
Proof.
  revert self. induction entries as [|file_entry entries IH]; intros self;
    cbn [Manifest.import_file_entries]; [by eauto|].
  destruct (Manifest._process_file_entry eastern_to_utc_iso (xml_strings file_entry))
    as [entry| |] eqn:Hentry; [|by eauto..].
  case_bool_decide as Hfree; [|by eauto].
  cbv zeta in IH. destruct (IH {|
      manifest_metadata := manifest_metadata self;
      manifest_contents :=
        <[FileName.get_file_basename (me_filename entry):=entry]> (manifest_contents self)
    |}) as [Hmeta Hkeys].
  cbn [manifest_metadata manifest_contents] in *. split; [done|].
  intros key e [Hin|Hnew]%Hkeys; [|by right].
  destruct (decide (key = FileName.get_file_basename (me_filename entry))) as [->|Hne].
  - rewrite lookup_insert_eq in Hin. injection Hin as <-. right. split; [done|].
    by apply process_file_entry_inv in Hentry as (? & ? & _ & _ & _ & ? & _).
  - rewrite lookup_insert_ne in Hin by done. by left.
Qed.

(** X20. An import forgets what the manifest held, also when it raises:
    the outcome and the manifest left behind are those of the same import
    into a manifest just created; in the manifest left behind every key is
    the base name of its entry's file name and every month is between 1
    and 12; and the import of a path where no file exists raises
    [FileNotFoundError] and leaves the manifest empty. *)
Theorem import_arxiv_xml_replaces (fs : fs_state) (file_path : string)
    (self : ManifestState) :
  let outcome :=
    Manifest.import_arxiv_xml eastern_to_utc_iso is_xml_format read_xml_to_dict
      fs file_path self in
  outcome
  = Manifest.import_arxiv_xml eastern_to_utc_iso is_xml_format read_xml_to_dict
      fs file_path Manifest._set_defaults
  /\ (forall key entry, manifest_contents outcome.2 !! key = Some entry ->
        FileName.get_file_basename (me_filename entry) = key
        /\ 1 <= me_month entry <= 12)
  /\ (FileSystem.is_file fs file_path = false ->
      outcome = (Raise (FileNotFoundError "file not found"), Manifest._set_defaults)).
Proof.
  cbv zeta. split; [reflexivity|]. split.
  - unfold Manifest.import_arxiv_xml. cbv zeta. cbn [Manifest.clear snd].
    assert (Hdefault : forall key entry,
              manifest_contents Manifest._set_defaults !! key = Some entry -> False)
      by (intros key entry Hin; cbn [Manifest._set_defaults manifest_contents] in Hin;
          by rewrite lookup_empty in Hin).
    destruct (FileSystem.is_file fs file_path); cbn [negb snd];
      [|intros key entry Hin; by destruct (Hdefault key entry)].
    destruct (is_xml ← is_xml_format fs file_path; _) as [[xml_dict iso]| |];
      cbn [snd]; [|intros key entry Hin; by destruct (Hdefault key entry)..].
    set (self0 := {| manifest_metadata := _; manifest_contents := _ |}).
    assert (Hself0 : forall key entry,
              manifest_contents self0 !! key = Some entry -> False)
      by (intros key entry Hin; subst self0;
          cbn [Manifest._set_defaults manifest_contents] in Hin;
          by rewrite lookup_empty in Hin).
    destruct (src ← xml_getitem xml_dict "arXivSRC"; xml_child src "file")
      as [[| | entries |]| |]; cbn [snd];
      try (intros key entry Hin; by destruct (Hself0 key entry)).
    intros key entry Hin.
    destruct (import_file_entries_any entries self0) as [_ Hkeys].
    destruct (Hkeys key entry Hin) as [Hold|Hnew]; [by destruct (Hself0 key entry)|done].
  - intros Hmissing. unfold Manifest.import_arxiv_xml. by rewrite Hmissing.
Qed.

End importing_the_manifest.

Lemma mapM_Ok_inv {A B} (f : A -> result B) (l : list A) (ys : list B) :
  mapM f l = Ok ys -> Forall2 (fun x y => f x = Ok y) l ys.
Proof.
  revert ys. induction l as [|x l IH]; intros ys.
  - intros [= <-]. constructor.
  - change (mapM f (x :: l)) with (y ← f x; k ← mapM f l; mret (y :: k)).
    intros (y & Hy & Hrest)%bind_Ok_inv.
    apply bind_Ok_inv in Hrest as (k & Hk & [= <-]). constructor; auto.
Qed.

(** X21. When [_is_arxiv_keys_present] answers [True], the dictionary
    has the one element [arXivSRC], with a text as its timestamp and a
    list as its ['file'] element, and every entry of the list, read as
    strings, has the ten expected keys and no other. *)
Theorem is_arxiv_keys_present_shape (xml_dict : list (string * Xml)) :
  Manifest._is_arxiv_keys_present xml_dict = Ok true ->
  exists src text entries,
    xml_getitem xml_dict "arXivSRC" = Ok src
    /\ xml_child src "timestamp" = Ok (XmlStr text)
    /\ xml_child src "file" = Ok (XmlList entries)
    /\ forall entry, entry ∈ entries ->
         dom (xml_strings entry)
         = ({[ "content_md5sum"; "filename"; "first_item"; "last_item"; "md5sum";
               "num_items"; "seq_num"; "size"; "timestamp"; "yymm" ]} : gset string).
Proof.
  unfold Manifest._is_arxiv_keys_present. cbv zeta.
  destruct (Manifest.same_keys (map fst xml_dict) ["arXivSRC"]); [|discriminate].
  destruct (xml_getitem xml_dict "arXivSRC") as [src| |] eqn:Hsrc; step_result;
    [|discriminate..].
  destruct (xml_keys src) as [src_keys| |]; step_result; [|discriminate..].
  destruct (Manifest.same_keys src_keys ["file"; "timestamp"]); [|discriminate].
  destruct (xml_child src "timestamp") as [[|text| |]| |] eqn:Htimestamp; step_result;
    try discriminate.
  destruct (xml_child src "file") as [[| |entries|]| |] eqn:Hfile; step_result;
    try discriminate.
  destruct (mapM _ entries) as [same| |] eqn:Hsame; step_result; [|discriminate..].
  destruct (forallb id same) eqn:Hall; [|discriminate].
  destruct (mapM Manifest.xml_items entries) as [items| |] eqn:Hitems; step_result;
    [|discriminate..].
  intros [= Hstr]. exists src, text, entries. do 3 (split; [done|]).
  apply mapM_Ok_inv in Hsame. apply mapM_Ok_inv in Hitems.
  intros entry Hentry.
  apply list_elem_of_lookup in Hentry as [i Hi].
  destruct (Forall2_lookup_l _ _ _ _ _ Hsame Hi) as (flag & Hflag & Hkeys).
  destruct (Forall2_lookup_l _ _ _ _ _ Hitems Hi) as (children & Hchildren & Hentry).
  destruct entry as [| | |children']; try discriminate. injection Hentry as ->.
  revert Hkeys. step_result. intros [= <-].
  assert (Hexpected : Manifest.same_keys (map fst children)
            ["content_md5sum"; "filename"; "first_item"; "last_item"; "md5sum";
             "num_items"; "seq_num"; "size"; "timestamp"; "yymm"] = true).
  { rewrite forallb_forall in Hall. apply (Hall _).
    apply list_elem_of_In. by apply list_elem_of_lookup_2 in Hflag. }
  apply bool_decide_eq_true in Hexpected.
  assert (Hall_str : forall kv, kv ∈ children -> xml_is_str kv.2 = true).
  { rewrite forallb_forall in Hstr. intros kv Hkv. apply Hstr.
    apply in_concat. exists children. split; [|by apply list_elem_of_In].
    apply list_elem_of_In. by apply list_elem_of_lookup_2 in Hchildren. }
  unfold xml_strings. rewrite dom_list_to_map_L.
  assert (Hfst : forall l : list (string * Xml),
            (forall kv, kv ∈ l -> xml_is_str kv.2 = true) ->
            (omap (fun kv : string * Xml =>
                     match kv.2 with
                     | XmlStr text => Some (kv.1, text)
                     | _ => None
                     end) l).*1 = map fst l).
  { induction l as [|[k v] l IH]; intros Hl; [done|].
    pose proof (Hl (k, v) (list_elem_of_here _ _)) as Hv.
    destruct v; try discriminate. cbn. f_equal. apply IH.
    intros kv Hkv. apply Hl. by apply list_elem_of_further. }
  rewrite (Hfst children Hall_str), Hexpected. clear.
  apply set_eq. intros k. rewrite elem_of_list_to_set.
  rewrite !elem_of_union, !elem_of_singleton.
  rewrite !elem_of_cons, elem_of_nil. tauto.
Qed.

(** * The naming rules *)

Lemma span_nonempty {A} (p : A -> bool) (l a b : list A) :
  span p l = (a, b) -> a <> [] -> exists x l', l = x :: l' /\ p x = true.
Proof.
  destruct l as [|x l']; cbn [span]; [by intros [= <- <-]|].
  destruct (p x) eqn:Hp; [eauto|]. by intros [= <- <-].
Qed.

Lemma digits_head (n : nat) (l rest : list ascii) (s : string) :
  digits (S n) l = Some (s, rest) ->
  exists c l', l = c :: l' /\ Str.is_digit c = true.
Proof.
  unfold digits. destruct l as [|c l'].
  - rewrite bool_decide_eq_false_2 by (cbn; lia). discriminate.
  - cbn [take forallb]. destruct (Str.is_digit c) eqn:Hc; [by eauto|].
    cbn [andb]. by rewrite andb_false_r.
Qed.

(** X22. No name is read by both naming schemes: a file name that
    [parse_old_style_submission_filename] reads is refused by
    [parse_current_style_submission_filename], and the other way round. *)
Theorem submission_schemes_disjoint (filename : string) :
  SubmissionHandler.parse_old_style_submission_filename filename = None
  \/ SubmissionHandler.parse_current_style_submission_filename filename = None.
Proof.
  unfold SubmissionHandler.parse_old_style_submission_filename,
    SubmissionHandler.parse_current_style_submission_filename.
  destruct (os_path.splitext (FileName.get_file_basename filename)) as [stem ext].
  case_bool_decide; [|by left].
  unfold SubmissionHandler.match_old_style, SubmissionHandler.match_current_style.
  destruct (span _ (Str.to_list stem)) as [category rest] eqn:Hspan.
  case_bool_decide as Hcategory; [by left|].
  destruct (span_nonempty _ _ _ _ Hspan Hcategory) as (c & l' & Hl & Hc).
  right. rewrite Hl.
  destruct (digits 2 (c :: l')) as [[yy rest']|] eqn:Hdigits; [|done].
  exfalso. apply digits_head in Hdigits as (c' & l'' & [= <- <-] & Hdigit).
  apply is_digit_bounds in Hdigit. apply orb_true_iff in Hc as [Hlower|Hdash].
  - unfold Str.is_lower in Hlower. apply andb_true_iff in Hlower as [?%Z.leb_le _]. lia.
  - apply bool_decide_eq_true in Hdash. subst c. vm_compute in Hdigit.
    destruct Hdigit as [Hdigit _]. by apply Hdigit.
Qed.

(** * File names allowed in archives *)

Lemma commonpath_prefix (l x : list string) : FileName.commonpath l (l ++ x) = l.
Proof.
  induction l as [|c l IH]; [by destruct x|].
  cbn [FileName.commonpath app]. rewrite bool_decide_eq_true_2 by done. by rewrite IH.
Qed.

Lemma normalize_plain (stack comps : list string) :
  (forall c, c ∈ comps -> c ∉ [""; "."; ".."]) ->
  os_path.normalize stack comps = rev stack ++ comps.
Proof.
  revert stack. induction comps as [|c comps IH]; intros stack Hplain;
    cbn [os_path.normalize]; [by rewrite app_nil_r|].
  assert (Hc : c ∉ [""; "."; ".."]) by apply Hplain, list_elem_of_here.
  rewrite !bool_decide_eq_false_2.
  - cbn [orb]. rewrite IH by (intros c' Hc'; apply Hplain; by apply list_elem_of_further).
    cbn [rev]. by rewrite <- app_assoc.
  - intros ->. apply Hc. do 2 apply list_elem_of_further. apply list_elem_of_here.
  - intros ->. apply Hc. apply list_elem_of_further, list_elem_of_here.
  - intros ->. apply Hc, list_elem_of_here.
Qed.

Lemma is_path_characters_allowed_plain (file_path : string) :
  FileName.is_path_characters_allowed file_path = true ->
  forall c, c ∈ Str.split "/" file_path -> c ∉ [""; "."; ".."].
Proof.
  unfold FileName.is_path_characters_allowed. rewrite forallb_forall.
  intros Hall c Hc%list_elem_of_In. apply Hall in Hc.
  apply andb_true_iff in Hc as [_ Hc]. by apply negb_true_iff, bool_decide_eq_false in Hc.
Qed.

(** X23. The filter on the names of archive members comes down to the
    characters and the length: a name all of whose components are made of
    the allowed characters, none being empty, [.] or [..], stays inside
    the directory it is joined to, so that [is_filename_allowed] is the
    character test together with the length test, whatever the working
    directory. *)
Theorem is_filename_allowed_characters_and_length (fs : fs_state) (file_path : string) :
  (FileName.is_path_characters_allowed file_path = true ->
   FileName.is_path_within_directory fs "temp" (os_path.join "temp" file_path) = true)
  /\ FileName.is_filename_allowed fs file_path
     = FileName.is_path_characters_allowed file_path
       && (0 <? Str.len file_path) && (Str.len file_path <? FileName.MAX_FILENAME_LENGTH).
Proof.
  assert (Hwithin : FileName.is_path_characters_allowed file_path = true ->
    FileName.is_path_within_directory fs "temp" (os_path.join "temp" file_path) = true).
  { intros Hchars. pose proof (is_path_characters_allowed_plain _ Hchars) as Hplain.
    assert (Hjoin : os_path.join "temp" file_path = "temp/" +:+ file_path).
    { unfold os_path.join, Str.startswith.
      rewrite <- (of_list_to_list file_path) in *.
      destruct (Str.to_list file_path) as [|c l].
      - reflexivity.
      - rewrite to_list_of_list. cbn [Str.to_list list_ascii_of_string Str.prefix_chars].
        destruct (decide ("/"%char = c)) as [<-|Hc].
        + exfalso. apply (Hplain ""); [|apply list_elem_of_here].
          unfold Str.split. rewrite to_list_of_list. cbn. apply list_elem_of_here.
        + rewrite (bool_decide_eq_false_2 _ Hc).
          rewrite bool_decide_eq_false_2 by (intros [? [=]]). reflexivity. }
    rewrite Hjoin. unfold FileName.is_path_within_directory, os_path.abspath.
    assert (Hsplit : Str.split "/" ("temp/" +:+ file_path)
                     = "temp" :: Str.split "/" file_path) by reflexivity.
    assert (Hrel : os_path.isabs ("temp/" +:+ file_path) = false) by reflexivity.
    rewrite Hrel, Hsplit.
    change (os_path.isabs "temp") with false. cbv iota.
    change (Str.split "/" "temp") with ["temp"].
    rewrite !normalize_plain.
    - apply bool_decide_eq_true. rewrite rev_involutive.
      change ("temp" :: Str.split "/" file_path)
        with (["temp"] ++ Str.split "/" file_path).
      by rewrite app_assoc, commonpath_prefix.
    - intros c [->|Hc]%elem_of_cons; [|by apply Hplain].
      intros Hin. repeat (apply elem_of_cons in Hin as [Hin|Hin]; [discriminate|]).
      by apply elem_of_nil in Hin.
    - intros c [->|Hc]%elem_of_cons; [|by apply elem_of_nil in Hc].
      intros Hin. repeat (apply elem_of_cons in Hin as [Hin|Hin]; [discriminate|]).
      by apply elem_of_nil in Hin. }
  split; [exact Hwithin|]. unfold FileName.is_filename_allowed. cbv zeta.
  destruct (FileName.is_path_characters_allowed file_path) eqn:Hchars.
  - by rewrite Hwithin.
  - by rewrite andb_false_r.
Qed.

Lemma NoDup_size_list_to_set (l : list string) :
  NoDup l -> size (list_to_set l : gset string) = List.length l.
Proof.
  induction 1 as [|x l Hx Hl IH]; [by rewrite list_to_set_nil, size_empty|].
  rewrite list_to_set_cons, size_union, size_singleton, IH; [done|].
  apply disjoint_singleton_l. by rewrite elem_of_list_to_set.
Qed.

(** X24. [is_filename_list_unique] answers [True] exactly when the names
    it compares have no repetition: the names as given, or their base
    names when only file names count, lower-cased when case does not
    count. *)
Theorem is_filename_list_unique_exactly_when (filename_list : list string)
    (is_case_insensitive is_filename_only : bool) :
  FileName.is_filename_list_unique filename_list is_case_insensitive is_filename_only
  = true
  <-> NoDup (map (fun filename =>
                    let name := if is_filename_only
                                then FileName.get_file_basename filename
                                else filename in
                    if is_case_insensitive then Str.lower name else name)
                 filename_list).
Proof.
  unfold FileName.is_filename_list_unique. cbv zeta.
  rewrite bool_decide_eq_true.
  set (names := if is_case_insensitive then _ else _).
  assert (Hnames : names = map (fun filename =>
                    if is_case_insensitive
                    then Str.lower (if is_filename_only
                                    then FileName.get_file_basename filename
                                    else filename)
                    else if is_filename_only
                         then FileName.get_file_basename filename
                         else filename) filename_list).
  { subst names. destruct is_case_insensitive; [|done]. by rewrite map_map. }
  rewrite Hnames. split.
  - apply size_list_to_set_NoDup.
  - apply NoDup_size_list_to_set.
Qed.

(** * The name of a bulk archive *)

Lemma of_list_app (a b : list ascii) :
  Str.of_list (a ++ b) = Str.of_list a +:+ Str.of_list b.
Proof.
  unfold Str.of_list. induction a as [|c a IH]; [done|]. simpl. by rewrite IH.
Qed.

Lemma length_to_list (s : string) : List.length (Str.to_list s) = String.length s.
Proof. by rewrite <- (length_of_list (Str.to_list s)), of_list_to_list. Qed.

Lemma prefix_chars_Some (p l r : list ascii) :
  Str.prefix_chars p l = Some r <-> l = p ++ r.
Proof.
  revert l. induction p as [|a p IH]; intros l; cbn [Str.prefix_chars app].
  - split; [by intros [= ->]|by intros ->].
  - destruct l as [|b l]; [by split|].
    case_bool_decide as Hab.
    + subst b. rewrite IH. split; [by intros ->|by intros [= ->]].
    + split; [done|]. intros [= <- _]. by destruct Hab.
Qed.

Lemma digits_Some (n : nat) (l r : list ascii) (s : string) :
  digits n l = Some (s, r) <->
  l = Str.to_list s ++ r /\ String.length s = n
  /\ forallb Str.is_digit (Str.to_list s) = true.
Proof.
  unfold digits. split.
  - destruct (bool_decide (n ≤ List.length l)%nat) eqn:Hlen; [|discriminate].
    destruct (forallb Str.is_digit (take n l)) eqn:Hdigits; [|discriminate].
    cbn [andb]. intros [= <- <-]. apply bool_decide_eq_true in Hlen.
    rewrite to_list_of_list, length_of_list, take_drop, length_take.
    split; [done|]. split; [lia|done].
  - intros (-> & <- & Hdigits). rewrite <- length_to_list.
    rewrite take_app_length, drop_app_length, Hdigits.
    rewrite bool_decide_eq_true_2 by (rewrite length_app; lia).
    by rewrite of_list_to_list.
Qed.

Lemma at_end_iff (l : list ascii) :
  Str.at_end l = true <-> l = [] \/ l = ["010"%char].
Proof.
  destruct l as [|c [|c' l]]; cbn [Str.at_end].
  - split; [by left|done].
  - rewrite bool_decide_eq_true. split; [intros ->; by right|by intros [|[= ->]]].
  - split; [done|by intros [|]].
Qed.

(** The names the pattern of bulk archives lets through. *)
Lemma parse_bulk_archive_filename_of_parts (filename yy mm seq_num ending : string) :
  FileName.get_file_basename filename
  = "arXiv_src_" +:+ yy +:+ mm +:+ "_" +:+ seq_num +:+ ".tar" +:+ ending ->
  ending = "" \/ ending = String "010" "" ->
  String.length yy = 2%nat -> String.length mm = 2%nat ->
  String.length seq_num = 3%nat ->
  forallb Str.is_digit (Str.to_list yy) = true ->
  forallb Str.is_digit (Str.to_list mm) = true ->
  forallb Str.is_digit (Str.to_list seq_num) = true ->
  BulkArchiveHandler.parse_bulk_archive_filename filename = Some (yy, mm, seq_num).
Proof.
  intros Hbase Hending Hyy Hmm Hseq Dyy Dmm Dseq.
  unfold BulkArchiveHandler.parse_bulk_archive_filename.
  rewrite Hbase, !to_list_app.
  rewrite (proj2 (prefix_chars_Some _ _ _) eq_refl). cbn [mbind option_bind].
  rewrite (proj2 (digits_Some 2 _ _ yy)) by done. cbn [mbind option_bind].
  rewrite (proj2 (digits_Some 2 _ _ mm)) by done. cbn [mbind option_bind].
  rewrite (proj2 (prefix_chars_Some _ _ _) eq_refl). cbn [mbind option_bind].
  rewrite (proj2 (digits_Some 3 _ _ seq_num)) by done. cbn [mbind option_bind].
  rewrite (proj2 (prefix_chars_Some _ _ _) eq_refl). cbn [mbind option_bind].
  by destruct Hending as [->| ->].
Qed.

(** What a name the pattern lets through is made of. *)
Lemma parse_bulk_archive_filename_inv (filename yy mm seq_num : string) :
  BulkArchiveHandler.parse_bulk_archive_filename filename = Some (yy, mm, seq_num) ->
  exists ending,
    FileName.get_file_basename filename
    = "arXiv_src_" +:+ yy +:+ mm +:+ "_" +:+ seq_num +:+ ".tar" +:+ ending
    /\ (ending = "" \/ ending = String "010" "")
    /\ String.length yy = 2%nat /\ String.length mm = 2%nat
    /\ String.length seq_num = 3%nat
    /\ forallb Str.is_digit (Str.to_list yy) = true
    /\ forallb Str.is_digit (Str.to_list mm) = true
    /\ forallb Str.is_digit (Str.to_list seq_num) = true.
Proof.
  unfold BulkArchiveHandler.parse_bulk_archive_filename.
  set (base := FileName.get_file_basename filename). intros Hparse.
  destruct (Str.prefix_chars (Str.to_list "arXiv_src_") (Str.to_list base))
    as [r1|] eqn:H1; [|discriminate]. cbn [mbind option_bind] in Hparse.
  destruct (digits 2 r1) as [[yy' r2]|] eqn:H2; [|discriminate].
  cbn [mbind option_bind] in Hparse.
  destruct (digits 2 r2) as [[mm' r3]|] eqn:H3; [|discriminate].
  cbn [mbind option_bind] in Hparse.
  destruct (Str.prefix_chars (Str.to_list "_") r3) as [r4|] eqn:H4; [|discriminate].
  cbn [mbind option_bind] in Hparse.
  destruct (digits 3 r4) as [[seq' r5]|] eqn:H5; [|discriminate].
  cbn [mbind option_bind] in Hparse.
  destruct (Str.prefix_chars (Str.to_list ".tar") r5) as [r6|] eqn:H6; [|discriminate].
  cbn [mbind option_bind] in Hparse.
  destruct (Str.at_end r6) eqn:H7; [|discriminate]. injection Hparse as -> -> ->.
  apply prefix_chars_Some in H1, H4, H6.
  apply digits_Some in H2 as (-> & Hyy & Dyy), H3 as (-> & Hmm & Dmm),
    H5 as (-> & Hseq & Dseq).
  subst r3 r5. apply at_end_iff in H7.
  exists (Str.of_list r6). split; [|split; [|done]].
  - rewrite <- (of_list_to_list base), H1.
    rewrite !of_list_app, !of_list_to_list. reflexivity.
  - destruct H7 as [->| ->]; [by left|by right].
Qed.

(** X25. [parse_bulk_archive_filename] reads the year, the month and the
    sequence number exactly from the names whose base name is
    [arXiv_src_], two digits, two digits, an underscore, three digits and
    [.tar] -- or that followed by one line feed, which the pattern lets
    through. *)
Theorem parse_bulk_archive_filename_reads (filename yy mm seq_num : string) :
  BulkArchiveHandler.parse_bulk_archive_filename filename = Some (yy, mm, seq_num)
  <->
  (exists ending,
     FileName.get_file_basename filename
     = "arXiv_src_" +:+ yy +:+ mm +:+ "_" +:+ seq_num +:+ ".tar" +:+ ending
     /\ (ending = "" \/ ending = String "010" ""))
  /\ String.length yy = 2%nat /\ String.length mm = 2%nat
  /\ String.length seq_num = 3%nat
  /\ forallb Str.is_digit (Str.to_list (yy +:+ mm +:+ seq_num)) = true.
Proof.
  rewrite !to_list_app, !forallb_app, !andb_true_iff. split.
  - intros (ending & Hbase & Hending & Hyy & Hmm & Hseq & Dyy & Dmm & Dseq)
      %parse_bulk_archive_filename_inv.
    split; [by exists ending|]. by repeat split.
  - intros ((ending & Hbase & Hending) & Hyy & Hmm & Hseq & Dyy & Dmm & Dseq).
    by apply (parse_bulk_archive_filename_of_parts filename yy mm seq_num ending).
Qed.

Lemma to_list_inj (a b : string) : Str.to_list a = Str.to_list b -> a = b.
Proof.
  intros Hab. by rewrite <- (of_list_to_list a), <- (of_list_to_list b), Hab.
Qed.

Lemma rsplit_last (sep : ascii) (a b : list ascii) :
  sep ∉ b -> os_path.rsplit sep (a ++ sep :: b) = Some (a, b).
Proof.
  intros Hb. induction a as [|c a IH]; cbn [app os_path.rsplit].
  - rewrite (proj2 (rsplit_None sep b) Hb). by rewrite bool_decide_eq_true_2.
  - by rewrite IH.
Qed.

Lemma digits_no_slash (l : list ascii) :
  forallb Str.is_digit l = true -> "/"%char ∉ l.
Proof.
  rewrite forallb_forall. intros Hl Hin%list_elem_of_In. apply Hl in Hin. discriminate.
Qed.

Lemma format_03d_three_digits (n : Z) :
  0 <= n < 1000 ->
  String.length (Str.format_03d n) = 3%nat
  /\ forallb Str.is_digit (Str.to_list (Str.format_03d n)) = true.
Proof.
  intros Hn.
  assert (Hall : forallb (fun k => let s := Str.format_03d (Z.of_nat k) in
                                   Nat.eqb (String.length s) 3
                                   && forallb Str.is_digit (Str.to_list s))
                         (seq 0 1000) = true) by (vm_compute; reflexivity).
  rewrite forallb_forall in Hall. specialize (Hall (Z.to_nat n)).
  rewrite Z2Nat.id in Hall by lia. cbv zeta in Hall.
  apply andb_true_iff in Hall as [Hlen Hdigits]; [|apply in_seq; lia].
  by apply Nat.eqb_eq in Hlen.
Qed.

Section manifest_keys.
Context (eastern_to_utc_iso : string -> string -> result string).

(** X26. The key of a manifest entry is a bulk archive name: when the
    [yymm] of the entry is four digits and its sequence number is below
    1000, the base name of the file name [_process_file_entry] returns is
    [arXiv_src_{yymm}_{seq}.tar], [is_bulk_archive_filename] accepts it
    and [parse_bulk_archive_filename] reads the year, the month and the
    sequence number back from it. *)
Theorem manifest_entry_names_bulk_archive (file_entry : gmap string string)
    (entry : ManifestEntry) (yymm : string) :
  Manifest._process_file_entry eastern_to_utc_iso file_entry = Ok entry ->
  file_entry !! "yymm" = Some yymm ->
  String.length yymm = 4%nat ->
  forallb Str.is_digit (Str.to_list yymm) = true ->
  0 <= me_sequence_number entry < 1000 ->
  let key := FileName.get_file_basename (me_filename entry) in
  key = "arXiv_src_" +:+ yymm +:+ "_"
        +:+ Str.format_03d (me_sequence_number entry) +:+ ".tar"
  /\ FileName.get_file_basename key = key
  /\ BulkArchiveHandler.parse_bulk_archive_filename key
     = Some (Str.slice_to 2 yymm, Str.slice_from 2 yymm,
             Str.format_03d (me_sequence_number entry))
  /\ BulkArchiveHandler.is_bulk_archive_filename key = true.
Proof.
  intros (yymm' & yy & Hyymm' & Hname & Hmonth & Hrange & _ & _)%process_file_entry_inv
    Hyymm Hlength Hdigits Hseq key.
  assert (yymm' = yymm) as -> by congruence.
  destruct (format_03d_three_digits _ Hseq) as [Hlen3 Hdig3].
  set (seq_num := Str.format_03d (me_sequence_number entry)) in *.
  assert (Hkey : key = "arXiv_src_" +:+ yymm +:+ "_" +:+ seq_num +:+ ".tar").
  { subst key. unfold FileName.get_file_basename, os_path.basename. rewrite Hname.
    change ("src/arXiv_src_" +:+ yymm +:+ "_" +:+ seq_num +:+ ".tar")
      with ("src" +:+ "/" +:+ ("arXiv_src_" +:+ yymm +:+ "_" +:+ seq_num +:+ ".tar")).
    rewrite (to_list_app "src"), (to_list_app "/").
    change (Str.to_list "/" ++ ?l) with ("/"%char :: l).
    rewrite rsplit_last; [by rewrite of_list_to_list|].
    rewrite !to_list_app, !elem_of_app.
    pose proof (digits_no_slash _ Hdigits). pose proof (digits_no_slash _ Hdig3).
    intros [Hin|[Hin|[Hin|[Hin|Hin]]]]; try done;
      vm_compute in Hin;
      repeat (apply elem_of_cons in Hin as [Hin|Hin]; [discriminate|]);
      by apply elem_of_nil in Hin. }
  split; [exact Hkey|].
  assert (Hsplit : yymm = Str.slice_to 2 yymm +:+ Str.slice_from 2 yymm).
  { unfold Str.slice_to, Str.slice_from.
    by rewrite <- of_list_app, take_drop, of_list_to_list. }
  assert (Hlist : List.length (Str.to_list yymm) = 4%nat)
    by by rewrite length_to_list.
  assert (Hyy : String.length (Str.slice_to 2 yymm) = 2%nat)
    by (unfold Str.slice_to; rewrite length_of_list, length_take; lia).
  assert (Hmm : String.length (Str.slice_from 2 yymm) = 2%nat)
    by (unfold Str.slice_from; rewrite length_of_list, length_drop; lia).
  assert (Dyy : forallb Str.is_digit (Str.to_list (Str.slice_to 2 yymm)) = true).
  { unfold Str.slice_to. rewrite to_list_of_list.
    rewrite <- (take_drop 2 (Str.to_list yymm)), forallb_app in Hdigits.
    by apply andb_true_iff in Hdigits as [? _]. }
  assert (Dmm : forallb Str.is_digit (Str.to_list (Str.slice_from 2 yymm)) = true).
  { unfold Str.slice_from. rewrite to_list_of_list.
    rewrite <- (take_drop 2 (Str.to_list yymm)), forallb_app in Hdigits.
    by apply andb_true_iff in Hdigits as [_ ?]. }
  assert (Hparse : BulkArchiveHandler.parse_bulk_archive_filename key
                   = Some (Str.slice_to 2 yymm, Str.slice_from 2 yymm, seq_num)).
  { apply (parse_bulk_archive_filename_of_parts key _ _ _ ""); try done; [|by left].
    assert (Hbase : FileName.get_file_basename key = key).
    { subst key. apply basename_idempotent. }
    rewrite Hbase, Hkey. apply to_list_inj. rewrite !to_list_app.
    assert (Hl : Str.to_list yymm
                 = Str.to_list (Str.slice_to 2 yymm) ++ Str.to_list (Str.slice_from 2 yymm))
      by (rewrite Hsplit at 1; apply to_list_app).
    rewrite Hl, <- !app_assoc. change (Str.to_list "") with (@nil ascii).
    by rewrite app_nil_r. }
  split; [subst key; apply basename_idempotent|]. split; [exact Hparse|].
  unfold BulkArchiveHandler.is_bulk_archive_filename. rewrite Hparse.
  unfold month_in_range, Str.isdigit.
  assert (Hne : Str.to_list (Str.slice_from 2 yymm) <> [])
    by (intros Hnil; rewrite <- length_to_list, Hnil in Hmm; discriminate).
  destruct (Str.to_list (Str.slice_from 2 yymm)) as [|c l] eqn:Hl; [done|].
  rewrite <- Hl in *. rewrite Dmm.
  assert (Hint : Str.int (Str.slice_from 2 yymm) = me_month entry).
  { rewrite <- (of_list_to_list (Str.slice_from 2 yymm)) in Hmonth.
    rewrite to_int_digits in Hmonth; [by injection Hmonth|done|done|].
    rewrite length_to_list, Hmm. lia. }
  rewrite Hint. cbn [andb]. apply andb_true_iff. split; apply Z.leb_le; lia.
Qed.

End manifest_keys.

(** * Extraction *)

Section extraction_guard.
Context (gzip_read : fs_state -> string -> result (list byte)).
Context (write_file : fs_state -> string -> list byte -> result unit * fs_state).
Context (tar_extract :
  fs_state -> string -> TarInfo -> string -> result unit * fs_state).

(** X27. Nothing is extracted without clearance: when
    [is_extract_possible] does not answer [True] for an archive and a
    destination, each of the four extraction methods ends without
    returning and leaves the file system as it was. *)
Theorem extraction_needs_clearance (fs : fs_state)
    (source_file_path destination_directory : string) :
  ArchiveHandler.is_extract_possible fs source_file_path destination_directory
  <> Ok true ->
  forall outcome,
    outcome ∈ [ ArchiveHandler.extract_contents gzip_read write_file tar_extract
                  fs source_file_path destination_directory;
                ArchiveHandler.extract_gzip_contents gzip_read write_file
                  fs source_file_path destination_directory;
                ArchiveHandler.extract_tar_contents tar_extract
                  fs source_file_path destination_directory;
                ArchiveHandler.extract_tgz_contents tar_extract
                  fs source_file_path destination_directory ] ->
    outcome.1 <> Ok tt /\ outcome.2 = fs.
Proof.
  intros Hnot.
  assert (Hgzip : forall outcome,
    outcome = ArchiveHandler.extract_gzip_contents gzip_read write_file
                fs source_file_path destination_directory ->
    outcome.1 <> Ok tt /\ outcome.2 = fs).
  { intros outcome ->. unfold ArchiveHandler.extract_gzip_contents, ArchiveHandler.reading.
    destruct (ArchiveHandler.is_gzip_format fs source_file_path) as [[|]| |];
      cbn [negb fst snd]; [|done..].
    destruct (ArchiveHandler.is_extract_possible fs source_file_path destination_directory)
      as [[|]| |]; cbn [negb fst snd]; done. }
  assert (Htar : forall outcome,
    outcome = ArchiveHandler.extract_tar_contents tar_extract
                fs source_file_path destination_directory ->
    outcome.1 <> Ok tt /\ outcome.2 = fs).
  { intros outcome ->. unfold ArchiveHandler.extract_tar_contents, ArchiveHandler.reading.
    destruct (ArchiveHandler.is_tar_format fs source_file_path) as [[|]| |];
      cbn [negb fst snd]; [|done..].
    destruct (ArchiveHandler.is_extract_possible fs source_file_path destination_directory)
      as [[|]| |]; cbn [negb fst snd]; done. }
  assert (Htgz : forall outcome,
    outcome = ArchiveHandler.extract_tgz_contents tar_extract
                fs source_file_path destination_directory ->
    outcome.1 <> Ok tt /\ outcome.2 = fs).
  { intros outcome ->. unfold ArchiveHandler.extract_tgz_contents, ArchiveHandler.reading.
    destruct (ArchiveHandler.is_tgz_format fs source_file_path) as [[|]| |];
      cbn [negb fst snd]; [|done..].
    destruct (ArchiveHandler.is_extract_possible fs source_file_path destination_directory)
      as [[|]| |]; cbn [negb fst snd]; done. }
  intros outcome Hin. repeat (apply elem_of_cons in Hin as [Houtcome|Hin]);
    [|by apply Hgzip|by apply Htar|by apply Htgz|by apply elem_of_nil in Hin].
  subst outcome. unfold ArchiveHandler.extract_contents.
  unfold ArchiveHandler.reading at 1.
  destruct (ArchiveHandler.is_archive_format fs source_file_path) as [[|]| |];
    cbn [negb fst snd]; [|done..].
  unfold ArchiveHandler.reading at 1.
  destruct (ArchiveHandler.is_gzip_format fs source_file_path) as [[|]| |] eqn:Hg;
    [by apply Hgzip| |done..].
  unfold ArchiveHandler.reading at 1.
  destruct (ArchiveHandler.is_tar_format fs source_file_path) as [[|]| |] eqn:Ht;
    [by apply Htar| |done..].
  unfold ArchiveHandler.reading at 1.
  destruct (ArchiveHandler.is_tgz_format fs source_file_path) as [[|]| |] eqn:Hz;
    [by apply Htgz|done..].
Qed.

(** A gzip file records one name at most. *)
Lemma list_contents_gzip (fs : fs_state) (file_path : string) (names : list string) :
  ArchiveHandler.is_gzip_format fs file_path = Ok true ->
  ArchiveHandler.list_contents fs file_path = Ok names ->
  (List.length names <= 1)%nat.
Proof.
  intros Hgzip. unfold ArchiveHandler.list_contents.
  intros (is_archive & _ & Hrest)%bind_Ok_inv.
  destruct is_archive; [|discriminate]. cbn [negb] in Hrest.
  rewrite Hgzip in Hrest. revert Hrest. step_result.
  unfold ArchiveHandler._list_gzip_contents. rewrite Hgzip.
  destruct (FileSystem.is_file fs file_path); cbn [negb]; [|discriminate]. step_result.
  destruct (FileSystem.node fs file_path) as [n| |]; step_result; [|discriminate..].
  unfold ArchiveHandler._read_gzip_header.
  repeat (case_match; step_result; try discriminate);
    intros; simplify_eq; cbn; lia.
Qed.

(** What clearance means for the names of an archive. *)
Lemma is_extract_possible_names (fs : fs_state)
    (source_file_path destination_directory : string) (names : list string) :
  ArchiveHandler.is_extract_possible fs source_file_path destination_directory = Ok true ->
  ArchiveHandler.list_contents fs source_file_path = Ok names ->
  FileSystem.is_directory fs destination_directory = true
  /\ FileName.is_filename_list_unique names true false = true
  /\ forall name, name ∈ names ->
       FileName.is_filename_allowed fs name = true
       /\ FileSystem.is_file fs (os_path.join destination_directory name) = false.
Proof.
  unfold ArchiveHandler.is_extract_possible, ArchiveHandler.check_extract_possible.
  intros Hpossible Hnames. revert Hpossible. rewrite Hnames.
  destruct (FileSystem.is_file fs source_file_path); cbn [negb andb app];
    [|destruct (FileSystem.is_directory fs destination_directory); discriminate].
  destruct (FileSystem.is_directory fs destination_directory); cbn [negb andb app];
    [|discriminate].
  step_result.
  destruct (FileName.is_filename_list_unique names true false); cbn [negb andb app];
    [|destruct (forallb (FileName.is_filename_allowed fs) names); discriminate].
  destruct (forallb (FileName.is_filename_allowed fs) names) eqn:Hvalid;
    cbn [negb andb app]; [|discriminate].
  destruct (existsb _ names) eqn:Hexists; [discriminate|]. intros _.
  do 2 (split; [done|]). intros name Hname%list_elem_of_In. split.
  - rewrite forallb_forall in Hvalid. by apply Hvalid.
  - apply not_true_iff_false. intros Hfile.
    apply not_true_iff_false in Hexists. apply Hexists.
    apply existsb_exists. eauto.
Qed.

(** X28. With clearance and a readable file, extracting a gzip file
    writes one new file at most.  When the file records no name, nothing
    is written: [extract_gzip_contents] and [extract_contents] return and
    the file system is as it was.  When it records a name, they do what
    one [open(..., 'wb')] and [write] of the decompressed bytes do, at the
    recorded name under the destination; that name passed the filter on
    file names, and no file existed there. *)
Theorem extract_gzip_contents_writes (fs : fs_state)
    (source_file_path destination_directory : string) (names : list string)
    (buffer : list byte) :
  ArchiveHandler.is_gzip_format fs source_file_path = Ok true ->
  ArchiveHandler.is_extract_possible fs source_file_path destination_directory = Ok true ->
  ArchiveHandler.list_contents fs source_file_path = Ok names ->
  gzip_read fs source_file_path = Ok buffer ->
  let written :=
    match names with
    | [] => (Ok tt, fs)
    | name :: _ => write_file fs (os_path.join destination_directory name) buffer
    end in
  (List.length names <= 1)%nat
  /\ (forall name, name ∈ names ->
        FileName.is_filename_allowed fs name = true
        /\ FileSystem.is_file fs (os_path.join destination_directory name) = false)
  /\ ArchiveHandler.extract_gzip_contents gzip_read write_file
       fs source_file_path destination_directory = written
  /\ ArchiveHandler.extract_contents gzip_read write_file tar_extract
       fs source_file_path destination_directory = written.
Proof.
  intros Hgzip Hpossible Hnames Hread written.
  pose proof (list_contents_gzip fs source_file_path _ Hgzip Hnames) as Hlen.
  split; [exact Hlen|].
  destruct (is_extract_possible_names _ _ _ _ Hpossible Hnames) as (_ & _ & Hname).
  split; [exact Hname|].
  assert (Hextract : ArchiveHandler.extract_gzip_contents gzip_read write_file
                       fs source_file_path destination_directory = written).
  { unfold ArchiveHandler.extract_gzip_contents,
      ArchiveHandler._extract_gzip_contents_private, ArchiveHandler.reading.
    rewrite Hgzip, Hpossible, Hread, Hnames. cbn [negb]. subst written.
    destruct names as [|name [|name' names]]; cbn [ArchiveHandler.for_each];
      [reflexivity| |cbn in Hlen; lia].
    by destruct (write_file fs (os_path.join destination_directory name) buffer)
      as [[[]| |] fs']. }
  split; [exact Hextract|].
  unfold ArchiveHandler.extract_contents. unfold ArchiveHandler.reading at 1 2.
  assert (Harchive : ArchiveHandler.is_archive_format fs source_file_path = Ok true).
  { revert Hnames. unfold ArchiveHandler.list_contents.
    intros (is_archive & Harchive & Hrest)%bind_Ok_inv.
    by destruct is_archive. }
  by rewrite Harchive, Hgzip.
Qed.

End extraction_guard.

(** * Fetching from the bucket *)

Section bucket.
Context (aws : list string -> result string).

(** X29. [fetch_source_bulk_archive] runs the command line for well
    named archives only: a name with a directory part, or one outside the
    naming rule of bulk archives, raises [ValueError] before any command
    is run.  The one command it may run copies from the URI that
    [generate_uri_for_bulk_archive_filename] gives for the name, the
    origin a registry records for that archive. *)
Theorem fetch_source_bulk_archive_runs (fs : fs_state)
    (bulk_archive_filename destination_directory : string)
    (commands : list (list string)) :
  let outcome :=
    BucketHandler.fetch_source_bulk_archive aws fs bulk_archive_filename
      destination_directory commands in
  ((FileName.get_file_basename bulk_archive_filename <> bulk_archive_filename
    \/ BulkArchiveHandler.is_bulk_archive_filename bulk_archive_filename = false) ->
   (exists msg, outcome.1 = Raise (ValueError msg)) /\ outcome.2 = commands)
  /\ (outcome.2 = commands
      \/ exists uri,
           BulkArchiveHandler.generate_uri_for_bulk_archive_filename
             bulk_archive_filename = Ok uri
           /\ outcome.2
              = commands ++ [["aws"; "s3"; "cp"; "--request-payer"; "requester";
                              uri; destination_directory]]).
Proof.
  cbv zeta. unfold BucketHandler.fetch_source_bulk_archive.
  destruct (decide (FileName.get_file_basename bulk_archive_filename
                    = bulk_archive_filename)) as [Hbase|Hbase].
  2:{ rewrite bool_decide_eq_true_2 by done. cbn [fst snd]. split; [eauto|by left]. }
  rewrite bool_decide_eq_false_2 by (intros Hne; by apply Hne).
  destruct (BulkArchiveHandler.is_bulk_archive_filename bulk_archive_filename) eqn:Hname;
    cbn [negb].
  2:{ cbn [fst snd]. split; [eauto|by left]. }
  split; [by intros [|]|].
  unfold S3Client.copy_object_from_s3.
  repeat (case_match; cbn [fst snd]; try (by left)).
  all: right; eexists; split; [|reflexivity].
  all: unfold BulkArchiveHandler.generate_uri_for_bulk_archive_filename;
    rewrite Hname, Hbase; reflexivity.
Qed.

End bucket.

(** * The listing of a bucket *)

(** The loop over the lines, from any list of entries gathered so far. *)
Lemma parse_lines_fields (lines : list string) (gathered : list S3Entry) :
  (Forall (fun line => List.length (Str.split_whitespace line) ∈ [0; 3; 4]%nat) lines ->
   exists entries,
     S3Client.parse_lines lines gathered = Ok (gathered ++ entries)
     /\ Forall2 (fun line entry =>
                   Str.split_whitespace line
                   = [s3_date entry; s3_time entry] ++ option_list (s3_size entry)
                     ++ [s3_name entry])
                (List.filter (fun line => negb (bool_decide (Str.split_whitespace line = [])))
                             lines)
                entries)
  /\ (¬ Forall (fun line => List.length (Str.split_whitespace line) ∈ [0; 3; 4]%nat) lines ->
      exists msg, S3Client.parse_lines lines gathered = Raise (ValueError msg)).
Proof.
  revert gathered. induction lines as [|line lines IH]; intros gathered.
  - split; [|by intros []]. intros _. exists []. rewrite app_nil_r. by split.
  - cbn [S3Client.parse_lines List.filter].
    destruct (Str.split_whitespace line) as [|a [|b [|c [|d [|e parts]]]]] eqn:Hparts.
    + destruct (IH gathered) as [Hok Hbad].
      rewrite bool_decide_eq_true_2 by done. cbn [negb]. split.
      * intros [_ Hall]%Forall_cons. by apply Hok.
      * intros Hnot. apply Hbad. intros Hall. apply Hnot. constructor; [|done].
        rewrite Hparts. apply list_elem_of_here.
    + split; [|by eauto]. intros [Hlen _]%Forall_cons. exfalso. rewrite Hparts in Hlen.
      repeat (apply elem_of_cons in Hlen as [Hlen|Hlen]; [discriminate|]).
      by apply elem_of_nil in Hlen.
    + split; [|by eauto]. intros [Hlen _]%Forall_cons. exfalso. rewrite Hparts in Hlen.
      repeat (apply elem_of_cons in Hlen as [Hlen|Hlen]; [discriminate|]).
      by apply elem_of_nil in Hlen.
    + destruct (IH (gathered ++ [{| s3_date := a; s3_time := b; s3_size := None;
                                    s3_name := c |}])) as [Hok Hbad].
      rewrite bool_decide_eq_false_2 by done. cbn [negb]. split.
      * intros [_ Hall]%Forall_cons. destruct (Hok Hall) as (entries & -> & Hfields).
        eexists (_ :: entries). rewrite <- app_assoc. split; [reflexivity|].
        constructor; [|done]. by rewrite Hparts.
      * intros Hnot. apply Hbad. intros Hall. apply Hnot. constructor; [|done].
        rewrite Hparts. apply list_elem_of_further, list_elem_of_here.
    + destruct (IH (gathered ++ [{| s3_date := a; s3_time := b; s3_size := Some c;
                                    s3_name := d |}])) as [Hok Hbad].
      rewrite bool_decide_eq_false_2 by done. cbn [negb]. split.
      * intros [_ Hall]%Forall_cons. destruct (Hok Hall) as (entries & -> & Hfields).
        eexists (_ :: entries). rewrite <- app_assoc. split; [reflexivity|].
        constructor; [|done]. by rewrite Hparts.
      * intros Hnot. apply Hbad. intros Hall. apply Hnot. constructor; [|done].
        rewrite Hparts. do 2 apply list_elem_of_further. apply list_elem_of_here.
    + split; [|by eauto]. intros [Hlen _]%Forall_cons. exfalso. rewrite Hparts in Hlen.
      repeat (apply elem_of_cons in Hlen as [Hlen|Hlen]; [discriminate|]).
      by apply elem_of_nil in Hlen.
Qed.

(** X30. [_parse_aws_ls_output] returns exactly when every line of the
    output has no field, three fields or four: it then gives one entry for
    each line that is not blank, in order, made of the fields of the line,
    the size being absent for a line of three fields.  Any other line --
    one or two fields, as [aws s3 ls] prints for a prefix, or more than
    four, as for a name with a space -- makes it raise [ValueError]. *)
Theorem parse_aws_ls_output_fields (output : string) :
  let lines := Str.splitlines (Str.strip output) in
  let well_formed :=
    Forall (fun line => List.length (Str.split_whitespace line) ∈ [0; 3; 4]%nat) lines in
  (well_formed ->
   exists entries,
     S3Client._parse_aws_ls_output output = Ok entries
     /\ Forall2 (fun line entry =>
                   Str.split_whitespace line
                   = [s3_date entry; s3_time entry] ++ option_list (s3_size entry)
                     ++ [s3_name entry])
                (List.filter (fun line => negb (bool_decide (Str.split_whitespace line = [])))
                             lines)
                entries)
  /\ (¬ well_formed ->
      exists msg, S3Client._parse_aws_ls_output output = Raise (ValueError msg)).
Proof.
  cbv zeta. unfold S3Client._parse_aws_ls_output.
  destruct (parse_lines_fields (Str.splitlines (Str.strip output)) []) as [Hok Hbad].
  split; [|exact Hbad]. intros Hall. destruct (Hok Hall) as (entries & Hparse & Hfields).
  exists entries. by rewrite Hparse.
Qed.

(** * The properties of the later sections at sample inputs *)

Lemma registry_add_entry_then_get_witness :
  Registry.get_entry "k2"
    (Registry.add_entry "k2" 2%nat ({[ "k" := 1%nat ]} : gmap string nat)).2
  = Ok 2%nat
  /\ Registry.delete_entry "k2"
       (Registry.add_entry "k2" 2%nat ({[ "k" := 1%nat ]} : gmap string nat)).2
     = (Ok tt, {[ "k" := 1%nat ]}).
Proof.
  destruct (registry_add_entry_then_get "k2" 2%nat
              ({[ "k" := 1%nat ]} : gmap string nat)) as (_ & Hget & _ & _ & Hdelete).
  - vm_compute. reflexivity.
  - split; [exact Hget|exact Hdelete].
Defined.

Lemma register_submission_keeps_registry_wf_witness :
  submission_registry_wf
    (SubmissionRegistry.register_submission (handlers := sample_handlers)
       sample_fs "/in/1202.3054.gz" "bulk" ∅).2.
Proof.
  apply (register_submission_keeps_registry_wf (handlers := sample_handlers)
           sample_fs "/in/1202.3054.gz" "bulk" ∅).
  intros key entry Hkey. by rewrite lookup_empty in Hkey.
Defined.

Lemma key_conflict_invalidates_stored_entry_witness :
  exists existing,
    sample_submission_entry "/in/1202.3054.gz" = Some existing
    /\ SubmissionRegistry.is_entry_valid "sha256-b1" {[ "sha256-b1" := existing ]}
       = Ok true
    /\ SubmissionRegistry.is_entry_valid "sha256-b1"
         (SubmissionRegistry.register_submission (handlers := sample_handlers)
            sample_fs "/in/1202.3055.gz" "bulk" {[ "sha256-b1" := existing ]}).2
       = Ok false.
Proof.
  eexists. split; [vm_compute; reflexivity|]. split; [vm_compute; reflexivity|].
  refine (proj1 (key_conflict_invalidates_stored_entry (handlers := sample_handlers)
                   "sha256-b1" _ _ sample_fs "/in/1202.3055.gz" "bulk" _ _ _)).
  - apply lookup_singleton_eq.
  - apply sample_conflicting_call; try (vm_compute; reflexivity).
    + eexists _, _, _. split; vm_compute; reflexivity.
    + vm_compute. discriminate.
Defined.

Lemma register_bulk_archive_keeps_registry_wf_witness :
  bulk_archive_registry_wf sample_archives.2.
Proof.
  apply (register_bulk_archive_keeps_registry_wf (handlers := sample_handlers)
           sample_fs "/data/arXiv_src_9902_005.tar" ∅).
  split.
  - intros key entry Hkey. by rewrite lookup_empty in Hkey.
  - intros key1 key2 entry1 entry2 Hkey. by rewrite lookup_empty in Hkey.
Defined.


Lemma is_newer_than_asymmetric_witness :
  Manifest.is_newer_than (clock := sample_clock) sample_manifest_old sample_manifest_new
  = Ok false.
Proof.
  apply (is_newer_than_asymmetric (clock := sample_clock)
           sample_manifest_new sample_manifest_old).
  vm_compute. reflexivity.
Defined.

Lemma process_file_entry_dates_witness :
  exists yymm,
    xml_strings sample_file_element !! "yymm" = Some yymm
    /\ 1 <= me_month sample_processed_entry <= 12
    /\ me_filename sample_processed_entry
       = "src/arXiv_src_" +:+ yymm +:+ "_"
         +:+ Str.format_03d (me_sequence_number sample_processed_entry) +:+ ".tar"
    /\ (forallb Str.is_digit (Str.to_list yymm) = true ->
        (3 <= String.length yymm)%nat
        /\ exists yy, Str.to_int (Str.slice_to 2 yymm) = Ok yy
             /\ 0 <= yy <= 99
             /\ me_year sample_processed_entry
                = (if 90 <? yy then 1900 + yy else 2000 + yy)
             /\ 1991 <= me_year sample_processed_entry <= 2090).
Proof.
  apply (process_file_entry_dates sample_eastern_to_utc_iso
           (xml_strings sample_file_element) sample_processed_entry).
  vm_compute. reflexivity.
Defined.


Lemma is_arxiv_keys_present_shape_witness :
  exists src text entries,
    xml_getitem sample_xml_dict "arXivSRC" = Ok src
    /\ xml_child src "timestamp" = Ok (XmlStr text)
    /\ xml_child src "file" = Ok (XmlList entries)
    /\ forall entry, entry ∈ entries ->
         dom (xml_strings entry)
         = ({[ "content_md5sum"; "filename"; "first_item"; "last_item"; "md5sum";
               "num_items"; "seq_num"; "size"; "timestamp"; "yymm" ]} : gset string).
Proof.
  apply (is_arxiv_keys_present_shape sample_xml_dict). vm_compute. reflexivity.
Defined.

Lemma manifest_entry_names_bulk_archive_witness :
  FileName.get_file_basename (me_filename sample_processed_entry)
  = "arXiv_src_1508_002.tar"
  /\ BulkArchiveHandler.is_bulk_archive_filename
       (FileName.get_file_basename (me_filename sample_processed_entry)) = true.
Proof.
  destruct (manifest_entry_names_bulk_archive sample_eastern_to_utc_iso
              (xml_strings sample_file_element) sample_processed_entry "1508")
    as (Hkey & _ & _ & Hname); try (vm_compute; reflexivity).
  - vm_compute. split; [discriminate|reflexivity].
  - split; [rewrite Hkey; vm_compute; reflexivity|exact Hname].
Defined.

Lemma extraction_needs_clearance_witness :
  (ArchiveHandler.extract_contents sample_gzip_read sample_write_file sample_tar_extract
     sample_fs "/in/evil.tar" "/").1 <> Ok tt
  /\ (ArchiveHandler.extract_contents sample_gzip_read sample_write_file sample_tar_extract
        sample_fs "/in/evil.tar" "/").2 = sample_fs.
Proof.
  apply (extraction_needs_clearance sample_gzip_read sample_write_file sample_tar_extract
           sample_fs "/in/evil.tar" "/").
  - vm_compute. discriminate.
  - apply list_elem_of_here.
Defined.

Lemma extract_gzip_contents_writes_witness :
  ArchiveHandler.extract_contents sample_gzip_read sample_write_file sample_tar_extract
    sample_fs "/in/1202.5003.gz" "/" = (Ok tt, sample_fs)
  /\ ArchiveHandler.extract_contents sample_gzip_read sample_write_file sample_tar_extract
       sample_fs "/in/1202.3054.gz" "/"
     = sample_write_file sample_fs "/paper.tex" [x68; x69].
Proof.
  split.
  - refine (proj2 (proj2 (proj2 (extract_gzip_contents_writes
              sample_gzip_read sample_write_file sample_tar_extract
              sample_fs "/in/1202.5003.gz" "/" [] [x68; x69] _ _ _ _))));
      vm_compute; reflexivity.
  - refine (proj2 (proj2 (proj2 (extract_gzip_contents_writes
              sample_gzip_read sample_write_file sample_tar_extract
              sample_fs "/in/1202.3054.gz" "/" ["paper.tex"] [x68; x69] _ _ _ _))));
      vm_compute; reflexivity.
Defined.
